(** * Excel Mock Interviewer (app.py): scorer, phase machine, report and driver

    A shallow embedding of [ExcelInterviewAgent] and of the two handlers of [main]
    that build and feed its session, followed by the properties of the scorer, of the
    question bank, of the phase machine and of the transcript.

    Conventions
    - a Python [str] is a list of Unicode code points;
    - a Python [int] is a [Z], a Python [float] is a primitive binary64
      [float], so that [/], [<], [>=] and [round] are the machine's;
    - a [dict] is an association list in insertion order;
    - an exception is a value of [exn]; code that can raise returns [Res];
      the driver, which mutates the session object it is given, is written
      in a state-and-exception monad over [InterviewState], so that the
      mutations done before a [raise] are kept. *)

From Stdlib Require Import ZArith NArith List String Ascii Bool Lia.
From Stdlib Require Import DecimalString.
From Stdlib Require Import PrimFloat FloatOps SpecFloat.
Import ListNotations.

Local Open Scope Z_scope.

(* ================================================================== *)
(** ** The Python runtime the program relies on *)
(* ================================================================== *)

Module Py.

(** *** Strings *)

Definition char := N.
Definition str := list char.

(** An ASCII literal of the source. *)
Definition lit (s : string) : str := map N_of_ascii (list_ascii_of_string s).
Arguments lit s%_string : simpl never.

Definition len {A} (l : list A) : Z := Z.of_nat (List.length l).

Fixpoint str_eqb (a b : str) : bool :=
  match a, b with
  | [], [] => true
  | c :: a', d :: b' => N.eqb c d && str_eqb a' b'
  | _, _ => false
  end.

Fixpoint startswith (p s : str) : bool :=
  match p, s with
  | [], _ => true
  | c :: p', d :: s' => N.eqb c d && startswith p' s'
  | _ :: _, [] => false
  end.

(** [sub in s] *)
Fixpoint contains (sub s : str) : bool :=
  startswith sub s
  || match s with
     | [] => false
     | _ :: s' => contains sub s'
     end.

(** [any(term in s for term in terms)] *)
Definition any_in (terms : list str) (s : str) : bool :=
  existsb (fun term => contains term s) terms.

(** [s.count(c)] for a one-character [c]. *)
Definition count (c : char) (s : str) : Z :=
  len (filter (N.eqb c) s).

(** [s.replace(a, b)] for one-character [a] and [b]. *)
Definition replace (a b : char) (s : str) : str :=
  map (fun c => if N.eqb c a then b else c) s.

(** [str.isspace] on one code point: the characters CPython's
    [_PyUnicode_IsWhitespace] accepts. *)
Definition isspace (c : char) : bool :=
  (((9 <=? c) && (c <=? 13)) || ((28 <=? c) && (c <=? 32))
   || (c =? 133) || (c =? 160) || (c =? 5760)
   || ((8192 <=? c) && (c <=? 8202))
   || (c =? 8232) || (c =? 8233) || (c =? 8239) || (c =? 8287)
   || (c =? 12288))%N.

(** [s.split()]: the maximal runs of non-whitespace characters.  [cur]
    is the run being read, reversed. *)
Fixpoint split_from (cur : str) (s : str) : list str :=
  match s with
  | [] => match cur with [] => [] | _ => [rev cur] end
  | c :: s' =>
      if isspace c
      then match cur with
           | [] => split_from [] s'
           | _ => rev cur :: split_from [] s'
           end
      else split_from (c :: cur) s'
  end.

Definition split (s : str) : list str := split_from [] s.

Fixpoint lstrip (s : str) : str :=
  match s with
  | c :: s' => if isspace c then lstrip s' else s
  | [] => []
  end.

(** [s.strip()] *)
Definition strip (s : str) : str := rev (lstrip (rev (lstrip s))).

(** [s[:n]] *)
Definition prefix (n : nat) (s : str) : str := firstn n s.

(** [sep.join(parts)] *)
Fixpoint join (sep : str) (parts : list str) : str :=
  match parts with
  | [] => []
  | [p] => p
  | p :: rest => p ++ sep ++ join sep rest
  end.

(** [str(n)] for an [int]. *)
Definition str_of_Z (z : Z) : str := lit (NilZero.string_of_int (Z.to_int z)).

(** [str.lower] and [str.title] restricted to ASCII letters: what the
    Unicode case mappings do on ASCII text. *)
Definition is_upper (c : char) : bool := ((65 <=? c) && (c <=? 90))%N.
Definition is_lower (c : char) : bool := ((97 <=? c) && (c <=? 122))%N.
Definition to_lower (c : char) : char := if is_upper c then (c + 32)%N else c.
Definition to_upper (c : char) : char := if is_lower c then (c - 32)%N else c.

Definition ascii_lower (s : str) : str := map to_lower s.

Fixpoint title_from (prev_cased : bool) (s : str) : str :=
  match s with
  | [] => []
  | c :: s' =>
      let cased := is_upper c || is_lower c in
      (if prev_cased then to_lower c else to_upper c)
        :: title_from cased s'
  end.

Definition ascii_title (s : str) : str := title_from false s.

(** *** Numbers *)

(** [float(z)], exact for [|z| < 2^53]. *)
Definition float_of_Z (z : Z) : float :=
  match z with
  | Z0 => PrimFloat.zero
  | Zpos _ => PrimFloat.of_uint63 (Uint63Axioms.of_Z z)
  | Zneg p => PrimFloat.opp (PrimFloat.of_uint63 (Uint63Axioms.of_Z (Zpos p)))
  end.

(** [x >= n] between a float and an int literal. *)
Definition ge_int (x : float) (n : Z) : bool := PrimFloat.leb (float_of_Z n) x.

(** [max(a, b)] and [min(a, b)]: Python keeps the first argument unless
    the second is strictly larger (smaller).  Where the source passes an
    int literal, it is read as the float of the same value. *)
Definition max (a b : float) : float := if PrimFloat.ltb a b then b else a.
Definition min (a b : float) : float := if PrimFloat.ltb b a then b else a.

(** [num / den] rounded to the nearest integer, ties to even
    ([0 <= num], [0 < den]). *)
Definition round_half_even (num den : Z) : Z :=
  let q := num / den in
  match 2 * (num mod den) ?= den with
  | Lt => q
  | Gt => q + 1
  | Eq => if Z.even q then q else q + 1
  end.

(** The number of tenths nearest to [m * 2^e], ties to even. *)
Definition tenths (m : positive) (e : Z) : Z :=
  if 0 <=? e then 10 * Zpos m * 2 ^ e
  else round_half_even (10 * Zpos m) (2 ^ (- e)).

(** [round(x, 1)]: CPython rounds the exact value of [x] to one decimal,
    ties to even, and returns the double nearest to that decimal.  Below
    [2^53] tenths the nearest double is the correctly rounded quotient
    [k / 10]; above, doubles are at least [1/8] apart and [x] is its own
    nearest. *)
Definition round1 (x : float) : float :=
  match Prim2SF x with
  | S754_finite s m e =>
      let k := tenths m e in
      if k <? 2 ^ 53
      then let r := PrimFloat.div (float_of_Z k) (float_of_Z 10) in
           if s then PrimFloat.opp r else r
      else x
  | _ => x
  end.

(** [f"{x:.1f}"] *)
Definition format_1f (x : float) : str :=
  match Prim2SF x with
  | S754_nan => lit "nan"
  | S754_infinity s => if s then lit "-inf" else lit "inf"
  | S754_zero s => if s then lit "-0.0" else lit "0.0"
  | S754_finite s m e =>
      let k := tenths m e in
      (if s then lit "-" else [])
        ++ str_of_Z (k / 10) ++ lit "." ++ str_of_Z (k mod 10)
  end.

(** [sum(xs)] as CPython computes it before version 3.12: additions from
    left to right, starting from the int [0]. *)
Definition sum_in_order (xs : list float) : float :=
  fold_left PrimFloat.add xs PrimFloat.zero.

(** *** Values of mixed type (what [json.load] builds)

    The keys of a [JDict] are taken distinct, as those of a Python dict
    are. *)

#[warnings="-register-all"]
Inductive json : Type :=
| JNull
| JBool (b : bool)
| JInt (z : Z)
| JFloat (f : float)
| JStr (s : str)
| JList (l : list json)
| JDict (d : list (str * json)).

(** [bool(v)] *)
Definition truthy (v : json) : bool :=
  match v with
  | JNull => false
  | JBool b => b
  | JInt z => negb (z =? 0)
  | JFloat f => negb (PrimFloat.is_zero f)
  | JStr s => match s with [] => false | _ => true end
  | JList l => match l with [] => false | _ => true end
  | JDict d => match d with [] => false | _ => true end
  end.

(** *** Dictionaries, in insertion order *)

Definition dict (V : Type) := list (str * V).

Fixpoint dict_get {V} (k : str) (d : dict V) : option V :=
  match d with
  | [] => None
  | (k', v) :: d' => if str_eqb k k' then Some v else dict_get k d'
  end.

(** [d[k] = v] *)
Fixpoint dict_set {V} (k : str) (v : V) (d : dict V) : dict V :=
  match d with
  | [] => [(k, v)]
  | (k', v') :: d' =>
      if str_eqb k k' then (k', v) :: d' else (k', v') :: dict_set k v d'
  end.

(** *** Exceptions *)

Inductive exn : Type :=
| AttributeError
| KeyError
| TypeError
| FileNotFoundError
| JSONDecodeError
| RequestException.

Inductive Res (A : Type) : Type :=
| Ok (a : A)
| Raise (e : exn).
Arguments Ok {A} a.
Arguments Raise {A} e.

Definition bind {A B} (m : Res A) (k : A -> Res B) : Res B :=
  match m with
  | Ok a => k a
  | Raise e => Raise e
  end.

(** [try: m  except Exception: h] *)
Definition try_except {A} (m : Res A) (h : exn -> A) : A :=
  match m with
  | Ok a => a
  | Raise e => h e
  end.

(** What the interpreter and the outside world provide and this file
    does not define: the Unicode case mappings, [sum] over floats (in
    order up to CPython 3.11, with a compensated error since), [repr] of a
    dict of float lists, [str] of a value inside an f-string, the process
    environment and the HTTP endpoint. *)
Class Runtime : Type := {
  lower : str -> str;
  title : str -> str;
  sum : list float -> float;
  repr_scores : dict (list float) -> str;
  str_of_json : json -> str;
  getenv : str -> option str;
  (** [requests.post(url, headers, json, timeout)]: raises, or gives the
      status code and what [response.json()] does. *)
  requests_post : str -> str -> str -> Res (Z * Res json)
}.

End Py.
Import Py.

Notation "x <~ m ;; k" := (Py.bind m (fun x => k))
  (at level 61, m at next level, right associativity).


(* ================================================================== *)
(** ** Data model *)
(* ================================================================== *)

Inductive InterviewPhase : Type :=
| GREETING
| WARMUP
| CORE_SKILLS
| SCENARIO_BASED
| TROUBLESHOOTING
| WRAPUP
| FEEDBACK.

(** [phase.value] *)
Definition value (p : InterviewPhase) : str :=
  match p with
  | GREETING => lit "greeting"
  | WARMUP => lit "warmup"
  | CORE_SKILLS => lit "core_skills"
  | SCENARIO_BASED => lit "scenario_based"
  | TROUBLESHOOTING => lit "troubleshooting"
  | WRAPUP => lit "wrapup"
  | FEEDBACK => lit "feedback"
  end.

Definition phase_eqb (p q : InterviewPhase) : bool :=
  match p, q with
  | GREETING, GREETING | WARMUP, WARMUP | CORE_SKILLS, CORE_SKILLS
  | SCENARIO_BASED, SCENARIO_BASED | TROUBLESHOOTING, TROUBLESHOOTING
  | WRAPUP, WRAPUP | FEEDBACK, FEEDBACK => true
  | _, _ => false
  end.

(** A question is the dict [json.load] built for it (or one of the
    built-in dicts): its keys and the types of its values are whatever the
    document holds. *)
Definition question := dict json.

(** [datetime.now()] readings are supplied by the caller. *)
Definition datetime := Z.

(** [question_id] is [JNull] for Python's [None]. *)
Record InterviewMessage : Type := {
  role : str;
  content : json;
  timestamp : datetime;
  phase : InterviewPhase;
  question_id : json;
  evaluation : option (dict json)
}.

(** An entry of [evaluation_scores]: the three-key dict of
    [process_candidate_response]. *)
Record ScoreEntry : Type := {
  entry_question_id : json;
  entry_score : float;
  entry_phase : str
}.

Record InterviewState : Type := {
  candidate_name : str;
  current_phase : InterviewPhase;
  conversation_history : list InterviewMessage;
  current_question : option question;
  evaluation_scores : list ScoreEntry;
  start_time : option datetime;
  metadata : dict json
}.

(** The dict an evaluation returns; [evaluation_type] is the key only the
    advanced scorer sets. *)
Module Evaluation.
Record t : Type := {
  score : float;
  reasoning : str;
  strengths : list str;
  areas_for_improvement : list str;
  evaluation_type : option str
}.
End Evaluation.

(** The instance attributes [__init__] sets. *)
Record ExcelInterviewAgent : Type := {
  questions : dict (list question);
  model_url : str;
  evaluation_url : str
}.

Inductive attr : Type :=
| AQuestions (q : dict (list question))
| AStr (s : str).

(** [self.<name>]: the three attributes of the instance; any other data
    attribute is an [AttributeError]. *)
Definition getattr (self : ExcelInterviewAgent) (name : str) : Res attr :=
  if str_eqb name (lit "questions") then Ok (AQuestions (questions self))
  else if str_eqb name (lit "model_url") then Ok (AStr (model_url self))
  else if str_eqb name (lit "evaluation_url") then Ok (AStr (evaluation_url self))
  else Raise AttributeError.

(** [d[k]] *)
Definition getitem (d : dict json) (k : str) : Res json :=
  match dict_get k d with
  | Some v => Ok v
  | None => Raise KeyError
  end.

(** [d.get(k, default)] *)
Definition get_default {V} (d : dict V) (k : str) (default : V) : V :=
  match dict_get k d with
  | Some v => v
  | None => default
  end.

(** [v.lower()]: only a [str] has the method. *)
Definition lower_of `{Runtime} (v : json) : Res str :=
  match v with
  | JStr s => Ok (lower s)
  | _ => Raise AttributeError
  end.

(** [bool(q)] for an [Optional[Dict]]. *)
Definition truthy_question (q : option question) : bool :=
  match q with
  | Some (_ :: _) => true
  | _ => false
  end.

(* ================================================================== *)
(** ** Question bank *)
(* ================================================================== *)

Definition _get_fallback_questions : dict (list question) :=
  [ (lit "warmup",
      [ [ (lit "id", JStr (lit "w1"));
          (lit "question", JStr (lit "What's your experience with Excel? How long have you been using it?"));
          (lit "type", JStr (lit "experience")) ];
        [ (lit "id", JStr (lit "w2"));
          (lit "question", JStr (lit "Can you walk me through how you would sum a column of numbers?"));
          (lit "type", JStr (lit "basic")) ] ]);
    (lit "core_skills",
      [ [ (lit "id", JStr (lit "c1"));
          (lit "question", JStr (lit "How would you use VLOOKUP to find data in a table?"));
          (lit "type", JStr (lit "lookup")) ];
        [ (lit "id", JStr (lit "c2"));
          (lit "question", JStr (lit "Explain how PivotTables work and when you'd use them."));
          (lit "type", JStr (lit "analysis")) ] ]);
    (lit "scenario_based",
      [ [ (lit "id", JStr (lit "s1"));
          (lit "question", JStr (lit "You have a dataset with 10,000 rows of sales data. How would you analyze it to find the top 10 customers?"));
          (lit "type", JStr (lit "analysis")) ] ]);
    (lit "troubleshooting",
      [ [ (lit "id", JStr (lit "t1"));
          (lit "question", JStr (lit "A VLOOKUP formula is returning #N/A. What could be causing this?"));
          (lit "type", JStr (lit "debugging")) ] ]) ].

(** [for x in v]: the items a [for] loop visits, or [TypeError]. *)
Definition iterate (v : json) : Res (list json) :=
  match v with
  | JList l => Ok l
  | JDict d => Ok (map (fun kv => JStr (fst kv)) d)
  | JStr s => Ok (map (fun c => JStr [c]) s)
  | _ => Raise TypeError
  end.

(** [v.get(k, default)]: only a dict has the method. *)
Definition json_get (v : json) (k : str) (default : json) : Res json :=
  match v with
  | JDict d => Ok (get_default d k default)
  | _ => Raise AttributeError
  end.

Definition json_is (v : json) (s : str) : bool :=
  match v with
  | JStr t => str_eqb t s
  | _ => false
  end.

(** [organized_questions[key].append(question)] *)
Definition append_question (key : str) (q : question)
    (organized : dict (list question)) : dict (list question) :=
  dict_set key (get_default organized key [] ++ [q]) organized.

(** One round of the loop over [data.get('questions', [])]. *)
Definition organize_one (organized : dict (list question)) (q : json)
    : Res (dict (list question)) :=
  section <~ json_get q (lit "section") (JStr (lit "warmup")) ;;
  match q with
  | JDict d =>
      if json_is section (lit "warmup")
      then Ok (append_question (lit "warmup") d organized)
      else if json_is section (lit "core")
      then Ok (append_question (lit "core_skills") d organized)
      else if json_is section (lit "scenario")
      then Ok (append_question (lit "scenario_based") d organized)
      else if json_is section (lit "troubleshoot")
      then Ok (append_question (lit "troubleshooting") d organized)
      else Ok organized
  | _ => Raise AttributeError
  end.

Fixpoint organize (organized : dict (list question)) (qs : list json)
    : Res (dict (list question)) :=
  match qs with
  | [] => Ok organized
  | q :: rest =>
      organized' <~ organize_one organized q ;;
      organize organized' rest
  end.

(** The question-source document as [_load_question_bank] meets it:
    [open] fails, or [json.load] fails, or the parsed value. *)
Inductive question_source : Type :=
| Absent
| Unparsable
| Parsed (data : json).

Definition read_source (src : question_source) : Res json :=
  match src with
  | Absent => Raise FileNotFoundError
  | Unparsable => Raise JSONDecodeError
  | Parsed data => Ok data
  end.

(** Both [except] clauses return the fallback (the [st.error] banner they
    show is not modelled). *)
Definition _load_question_bank (src : question_source) : dict (list question) :=
  try_except
    (data <~ read_source src ;;
     let organized_questions :=
       [ (lit "warmup", []); (lit "core_skills", []);
         (lit "scenario_based", []); (lit "troubleshooting", []) ] in
     listed <~ json_get data (lit "questions") (JList []) ;;
     qs <~ iterate listed ;;
     organize organized_questions qs)
    (fun _ => _get_fallback_questions).

(** [ExcelInterviewAgent.__init__] *)
Definition __init__ (src : question_source) : ExcelInterviewAgent :=
  {| questions := _load_question_bank src;
     model_url := lit "https://api-inference.huggingface.co/models/microsoft/DialoGPT-medium";
     evaluation_url := lit "https://api-inference.huggingface.co/models/facebook/bart-large-mnli" |}.

(* ================================================================== *)
(** ** Scorer *)
(* ================================================================== *)

(** The local variables of [_ai_evaluate_response], updated block by block
    in the order of the source. *)
Module Locals.
Record t : Type := {
  technical_accuracy : Z;
  completeness : Z;
  clarity : Z;
  excel_knowledge : Z;
  reasoning : list str;
  strengths : list str;
  areas_for_improvement : list str
}.

Definition init : t :=
  {| technical_accuracy := 0; completeness := 0; clarity := 0;
     excel_knowledge := 0; reasoning := []; strengths := [];
     areas_for_improvement := [] |}.

Definition add_technical (n : Z) (l : t) : t :=
  {| technical_accuracy := technical_accuracy l + n;
     completeness := completeness l; clarity := clarity l;
     excel_knowledge := excel_knowledge l; reasoning := reasoning l;
     strengths := strengths l;
     areas_for_improvement := areas_for_improvement l |}.

Definition add_completeness (n : Z) (l : t) : t :=
  {| technical_accuracy := technical_accuracy l;
     completeness := completeness l + n; clarity := clarity l;
     excel_knowledge := excel_knowledge l; reasoning := reasoning l;
     strengths := strengths l;
     areas_for_improvement := areas_for_improvement l |}.

Definition add_clarity (n : Z) (l : t) : t :=
  {| technical_accuracy := technical_accuracy l;
     completeness := completeness l; clarity := clarity l + n;
     excel_knowledge := excel_knowledge l; reasoning := reasoning l;
     strengths := strengths l;
     areas_for_improvement := areas_for_improvement l |}.

Definition set_excel_knowledge (n : Z) (l : t) : t :=
  {| technical_accuracy := technical_accuracy l;
     completeness := completeness l; clarity := clarity l;
     excel_knowledge := n; reasoning := reasoning l;
     strengths := strengths l;
     areas_for_improvement := areas_for_improvement l |}.

Definition append_reasoning (s : str) (l : t) : t :=
  {| technical_accuracy := technical_accuracy l;
     completeness := completeness l; clarity := clarity l;
     excel_knowledge := excel_knowledge l; reasoning := reasoning l ++ [s];
     strengths := strengths l;
     areas_for_improvement := areas_for_improvement l |}.

Definition append_strength (s : str) (l : t) : t :=
  {| technical_accuracy := technical_accuracy l;
     completeness := completeness l; clarity := clarity l;
     excel_knowledge := excel_knowledge l; reasoning := reasoning l;
     strengths := strengths l ++ [s];
     areas_for_improvement := areas_for_improvement l |}.

Definition append_improvement (s : str) (l : t) : t :=
  {| technical_accuracy := technical_accuracy l;
     completeness := completeness l; clarity := clarity l;
     excel_knowledge := excel_knowledge l; reasoning := reasoning l;
     strengths := strengths l;
     areas_for_improvement := areas_for_improvement l ++ [s] |}.
End Locals.

(** [# Technical accuracy scoring] *)
Definition score_technical (response_lower : str) (l : Locals.t) : Locals.t :=
  let l :=
    if any_in [lit "function"; lit "formula"; lit "cell"; lit "range"; lit "data"]
         response_lower
    then Locals.append_strength (lit "Uses Excel terminology correctly")
           (Locals.add_technical 3 l)
    else l in
  let l :=
    if any_in [lit "="; lit "sum"; lit "count"; lit "average"; lit "vlookup";
               lit "index"; lit "match"] response_lower
    then Locals.append_strength (lit "Demonstrates knowledge of Excel functions")
           (Locals.add_technical 4 l)
    else l in
  if contains (lit "pivot") response_lower || contains (lit "table") response_lower
  then Locals.append_strength (lit "Shows understanding of data analysis tools")
         (Locals.add_technical 2 l)
  else l.

(** [word_count = len(response.split())] *)
Definition word_count (response : str) : Z := len (split response).

(** [# Completeness scoring] *)
Definition score_completeness (response : str) (l : Locals.t) : Locals.t :=
  if word_count response >? 50
  then Locals.append_strength (lit "Provides comprehensive answer")
         (Locals.add_completeness 4 l)
  else if word_count response >? 20
  then Locals.add_completeness 2 l
  else Locals.add_completeness 1
         (Locals.append_improvement (lit "Could provide more detail") l).

(** [# Clarity scoring] *)
Definition score_clarity (response response_lower : str) (l : Locals.t)
    : Locals.t :=
  let l :=
    if count 46%N response >? 1
    then Locals.append_strength (lit "Well-structured response")
           (Locals.add_clarity 2 l)
    else l in
  if any_in [lit "example"; lit "for instance"; lit "such as"] response_lower
  then Locals.append_strength (lit "Provides examples") (Locals.add_clarity 2 l)
  else l.

Definition excel_terms : list str :=
  [lit "excel"; lit "spreadsheet"; lit "worksheet"; lit "workbook";
   lit "formula"; lit "function"].

(** [# Excel knowledge scoring] *)
Definition score_excel (response_lower : str) (l : Locals.t) : Locals.t :=
  let excel_term_count :=
    len (filter (fun term => contains term response_lower) excel_terms) in
  let l := Locals.set_excel_knowledge (Z.min 5 excel_term_count) l in
  if Locals.excel_knowledge l >? 2
  then Locals.append_strength (lit "Demonstrates Excel expertise") l
  else l.

(** [# Phase-specific scoring] *)
Definition score_phase (phase : InterviewPhase) (response_lower : str)
    (l : Locals.t) : Locals.t :=
  if str_eqb (value phase) (lit "warmup") then
    if any_in [lit "experience"; lit "years"; lit "used"; lit "familiar"]
         response_lower
    then Locals.add_technical 2 l else l
  else if str_eqb (value phase) (lit "core_skills") then
    if any_in [lit "vlookup"; lit "index"; lit "match"; lit "sumif"; lit "countif"]
         response_lower
    then Locals.add_technical 3 l else l
  else if str_eqb (value phase) (lit "scenario_based") then
    if any_in [lit "analyze"; lit "pivot"; lit "filter"; lit "sort"]
         response_lower
    then Locals.add_technical 3 l else l
  else if str_eqb (value phase) (lit "troubleshooting") then
    if any_in [lit "error"; lit "fix"; lit "debug"; lit "check"] response_lower
    then Locals.add_technical 3 l else l
  else l.

(** The locals once every scoring block has run. *)
Definition scored `{Runtime} (response : str) (phase : InterviewPhase)
    : Locals.t :=
  let response_lower := lower response in
  let l := Locals.init in
  let l := score_technical response_lower l in
  let l := score_completeness response l in
  let l := score_clarity response response_lower l in
  let l := score_excel response_lower l in
  score_phase phase response_lower l.

(** [total_score = (technical_accuracy + completeness + clarity +
    excel_knowledge) / 4] *)
Definition total_score (l : Locals.t) : float :=
  PrimFloat.div
    (float_of_Z (Locals.technical_accuracy l + Locals.completeness l
                 + Locals.clarity l + Locals.excel_knowledge l))
    (float_of_Z 4).

(** [final_score = min(10, max(1, total_score))] *)
Definition final_score (l : Locals.t) : float :=
  Py.min (float_of_Z 10) (Py.max (float_of_Z 1) (total_score l)).

(** [# Generate reasoning] *)
Definition score_reasoning (l : Locals.t) : Locals.t :=
  if ge_int (final_score l) 8
  then Locals.append_reasoning
         (lit "Excellent response demonstrating strong Excel knowledge") l
  else if ge_int (final_score l) 6
  then Locals.append_reasoning
         (lit "Good response with solid Excel understanding") l
  else if ge_int (final_score l) 4
  then Locals.append_reasoning
         (lit "Basic response showing some Excel knowledge") l
  else Locals.append_improvement
         (lit "Focus on Excel-specific terminology and examples")
         (Locals.append_reasoning
            (lit "Response needs improvement in technical detail") l).

(** [xs if xs else [default]] *)
Definition or_default (xs : list str) (default : str) : list str :=
  match xs with
  | [] => [default]
  | _ => xs
  end.

(** The dict the [try] body returns, from the locals of the scoring
    blocks. *)
Definition returned (l : Locals.t) : Evaluation.t :=
  let score := final_score l in
  let l := score_reasoning l in
  {| Evaluation.score := round1 score;
     Evaluation.reasoning := join (lit ". ") (Locals.reasoning l);
     Evaluation.strengths :=
       or_default (Locals.strengths l) (lit "Attempted to answer");
     Evaluation.areas_for_improvement :=
       or_default (Locals.areas_for_improvement l)
         (lit "Provide more technical detail");
     Evaluation.evaluation_type := Some (lit "advanced") |}.

(** The [try] body of [_ai_evaluate_response]. *)
Definition _ai_evaluate_body `{Runtime} (question : question) (response : str)
    (phase : InterviewPhase) : Res Evaluation.t :=
  question_text <~ lower_of (get_default question (lit "question") (JStr [])) ;;
  Ok (returned (scored response phase)).

(** The local variables of [_rule_based_evaluate_response]. *)
Module Basic.
Record t : Type := {
  score : float;
  reasoning : list str;
  strengths : list str;
  areas_for_improvement : list str
}.

Definition init : t :=
  {| score := PrimFloat.zero; reasoning := []; strengths := [];
     areas_for_improvement := [] |}.

Definition add_score (x : float) (l : t) : t :=
  {| score := PrimFloat.add (score l) x; reasoning := reasoning l;
     strengths := strengths l;
     areas_for_improvement := areas_for_improvement l |}.

Definition set_score (x : float) (l : t) : t :=
  {| score := x; reasoning := reasoning l; strengths := strengths l;
     areas_for_improvement := areas_for_improvement l |}.

Definition append_reasoning (s : str) (l : t) : t :=
  {| score := score l; reasoning := reasoning l ++ [s];
     strengths := strengths l;
     areas_for_improvement := areas_for_improvement l |}.

Definition append_strength (s : str) (l : t) : t :=
  {| score := score l; reasoning := reasoning l;
     strengths := strengths l ++ [s];
     areas_for_improvement := areas_for_improvement l |}.

Definition append_improvement (s : str) (l : t) : t :=
  {| score := score l; reasoning := reasoning l; strengths := strengths l;
     areas_for_improvement := areas_for_improvement l ++ [s] |}.
End Basic.

(** A decimal literal [n/d] of the source: the double nearest to it. *)
Definition decimal (n d : Z) : float :=
  PrimFloat.div (float_of_Z n) (float_of_Z d).

(** [# Basic response quality] *)
Definition basic_quality (response : str) (l : Basic.t) : Basic.t :=
  if len (strip response) <? 10
  then Basic.append_improvement (lit "Provide more detailed answers")
         (Basic.append_reasoning (lit "Very short response")
            (Basic.add_score (float_of_Z 1) l))
  else if len (strip response) <? 30
  then Basic.append_reasoning (lit "Short response")
         (Basic.add_score (float_of_Z 2) l)
  else if len (strip response) >? 50
  then Basic.append_strength (lit "Provides comprehensive answer")
         (Basic.append_reasoning (lit "Detailed response")
            (Basic.add_score (float_of_Z 3) l))
  else l.

(** One arm of [# Technical accuracy based on question content]. *)
Definition basic_topic (terms : list str) (hit miss : str)
    (response_lower : str) (l : Basic.t) : Basic.t :=
  if any_in terms response_lower
  then Basic.append_strength hit (Basic.add_score (float_of_Z 3) l)
  else Basic.append_improvement miss l.

Definition basic_accuracy (question_text response_lower : str) (l : Basic.t)
    : Basic.t :=
  if contains (lit "sum") question_text then
    basic_topic
      [lit "add"; lit "total"; lit "sum"; lit "plus"; lit "addition"; lit "calculate"]
      (lit "Correctly identifies SUM function purpose")
      (lit "Should mention adding/totaling numbers") response_lower l
  else if contains (lit "count") question_text then
    basic_topic
      [lit "count"; lit "number"; lit "how many"; lit "quantity"; lit "items"]
      (lit "Understands COUNT function purpose")
      (lit "Should mention counting items") response_lower l
  else if contains (lit "vlookup") question_text then
    basic_topic
      [lit "lookup"; lit "find"; lit "search"; lit "match"; lit "reference"; lit "table"]
      (lit "Shows understanding of VLOOKUP concept")
      (lit "Should mention looking up values in tables") response_lower l
  else if contains (lit "pivot") question_text then
    basic_topic
      [lit "pivot"; lit "table"; lit "summarize"; lit "group"; lit "analyze"; lit "data"]
      (lit "Understands PivotTable functionality")
      (lit "Should mention data summarization and analysis") response_lower l
  else l.

(** [sum(1 for term in terms if term in response_lower)] *)
Definition found (terms : list str) (response_lower : str) : Z :=
  len (filter (fun term => contains term response_lower) terms).

(** [# Excel-specific terminology] and [# Technical depth indicators]:
    [score += min(found * step, cap)] when anything was found. *)
Definition basic_terms (terms : list str) (step cap : float) (note : str)
    (response_lower : str) (l : Basic.t) : Basic.t :=
  let n := found terms response_lower in
  if n >? 0
  then Basic.append_strength note
         (Basic.add_score (Py.min (PrimFloat.mul (float_of_Z n) step) cap) l)
  else l.

(** [# Confidence and experience indicators] *)
Definition basic_confidence (response_lower : str) (l : Basic.t) : Basic.t :=
  if any_in [lit "i think"; lit "i believe"; lit "i would"; lit "i usually";
             lit "in my experience"; lit "typically"] response_lower
  then Basic.append_strength (lit "Shows confidence in response")
         (Basic.add_score (decimal 1 2) l)
  else l.

(** [# Generate detailed reasoning] *)
Definition basic_reasoning (l : Basic.t) : Basic.t :=
  if ge_int (Basic.score l) 8
  then Basic.append_reasoning
         (lit "Excellent technical response with clear understanding") l
  else if ge_int (Basic.score l) 6
  then Basic.append_reasoning
         (lit "Good response demonstrating solid Excel knowledge") l
  else if ge_int (Basic.score l) 4
  then Basic.append_reasoning (lit "Basic response showing some understanding") l
  else Basic.append_reasoning
         (lit "Response needs significant improvement in technical detail") l.

(** The [try] body of [_rule_based_evaluate_response]. *)
Definition _rule_based_evaluate_body `{Runtime} (question : question)
    (response : str) (phase : InterviewPhase) : Res Evaluation.t :=
  let response_lower := lower response in
  question_text <~ lower_of (get_default question (lit "question") (JStr [])) ;;
  let l := Basic.init in
  let l := basic_quality response l in
  let l := basic_accuracy question_text response_lower l in
  let l :=
    basic_terms
      [lit "excel"; lit "spreadsheet"; lit "worksheet"; lit "workbook";
       lit "cell"; lit "range"; lit "formula"]
      (decimal 1 2) (float_of_Z 2) (lit "Uses appropriate Excel terminology")
      response_lower l in
  let l :=
    basic_terms
      [lit "function"; lit "formula"; lit "data"; lit "analysis";
       lit "business"; lit "report"]
      (decimal 3 10) (decimal 3 2) (lit "Shows technical understanding")
      response_lower l in
  let l := basic_confidence response_lower l in
  let l :=
    Basic.set_score
      (Py.max (float_of_Z 1) (Py.min (float_of_Z 10) (Basic.score l))) l in
  let l := basic_reasoning l in
  Ok {| Evaluation.score := round1 (Basic.score l);
        Evaluation.reasoning := join (lit ". ") (Basic.reasoning l);
        Evaluation.strengths :=
          or_default (Basic.strengths l) (lit "Attempted to answer");
        Evaluation.areas_for_improvement :=
          or_default (Basic.areas_for_improvement l)
            (lit "Provide more technical detail");
        Evaluation.evaluation_type := None |}.

(** The result of the innermost [except]. *)
Definition neutral_evaluation : Evaluation.t :=
  {| Evaluation.score := float_of_Z 5;
     Evaluation.reasoning := lit "Basic response evaluation";
     Evaluation.strengths := [lit "Responded to question"];
     Evaluation.areas_for_improvement := [lit "Could provide more technical detail"];
     Evaluation.evaluation_type := None |}.

Definition _rule_based_evaluate_response `{Runtime} (question : question)
    (response : str) (phase : InterviewPhase) : Evaluation.t :=
  try_except (_rule_based_evaluate_body question response phase)
    (fun _ => neutral_evaluation).

(** [except Exception] prints the error and hands over to the rule-based
    scorer. *)
Definition _ai_evaluate_response `{Runtime} (question : question)
    (response : str) (phase : InterviewPhase) : Evaluation.t :=
  try_except (_ai_evaluate_body question response phase)
    (fun _ => _rule_based_evaluate_response question response phase).

(* ================================================================== *)
(** ** External model call *)
(* ================================================================== *)

(** [_call_ai_model]: every failure inside the [try] gives the empty
    string.  [model_url] is whatever attribute value the caller read. *)
Definition _call_ai_model `{Runtime} (prompt : str) (model_url : attr) : json :=
  try_except
    (let token :=
       match getenv (lit "HF_TOKEN") with
       | Some t => t
       | None => lit "hf_demo_token"
       end in
     response <~ match model_url with
                 | AStr url => requests_post url token prompt
                 | AQuestions _ => Raise RequestException
                 end ;;
     if fst response =? 200 then
       result <~ snd response ;;
       match result with
       | JList (first :: _) => json_get first (lit "generated_text") (JStr [])
       | JDict d => Ok (get_default d (lit "generated_text") (JStr []))
       | _ => Ok (JStr [])
       end
     else Ok (JStr []))
    (fun _ => JStr []).

(* ================================================================== *)
(** ** Phase machine *)
(* ================================================================== *)

Definition interviewer : str := lit "interviewer".
Definition candidate : str := lit "candidate".

(** [self.questions.get(state.current_phase.value, [])] *)
Definition phase_questions (self : ExcelInterviewAgent) (p : InterviewPhase)
    : list question :=
  get_default (questions self) (value p) [].

Definition _get_next_question (self : ExcelInterviewAgent)
    (state : InterviewState) : option question :=
  match phase_questions self (current_phase state) with
  | [] => None
  | qs =>
      let question_index :=
        List.length
          (filter (fun msg =>
                     phase_eqb (phase msg) (current_phase state)
                     && str_eqb (role msg) interviewer
                     && truthy (question_id msg))
             (conversation_history state)) in
      nth_error qs question_index
  end.

Definition _transition_to_next_phase (self : ExcelInterviewAgent)
    (state : InterviewState) : InterviewPhase :=
  let questions_in_phase :=
    len (filter (fun msg =>
                   phase_eqb (phase msg) (current_phase state)
                   && str_eqb (role msg) interviewer)
           (conversation_history state)) in
  let current_phase_questions := phase_questions self (current_phase state) in
  if (questions_in_phase >=? len current_phase_questions)
     && match current_phase_questions with [] => false | _ => true end
  then match current_phase state with
       | GREETING => WARMUP
       | WARMUP => CORE_SKILLS
       | CORE_SKILLS => SCENARIO_BASED
       | SCENARIO_BASED => TROUBLESHOOTING
       | TROUBLESHOOTING => WRAPUP
       | WRAPUP => WRAPUP
       | FEEDBACK => WRAPUP
       end
  else current_phase state.

(* ================================================================== *)
(** ** Report generator *)
(* ================================================================== *)

Definition nl : str := [10%N].
Definition bullet : str := [8226%N].

(** The per-category lines of [_generate_fallback_report]. *)
Definition category_lines `{Runtime} (entry : str * list float) : str :=
  let '(phase, scores) := entry in
  let phase_avg :=
    match scores with
    | [] => PrimFloat.zero
    | _ => PrimFloat.div (Py.sum scores) (float_of_Z (len scores))
    end in
  let phase_name := title (replace 95%N 32%N phase) in
  bullet ++ lit " " ++ phase_name ++ lit ": " ++ format_1f phase_avg
    ++ lit "/10" ++ nl
    ++ (if ge_int phase_avg 8
        then lit "  Excellent performance in " ++ lower phase_name ++ nl
        else if ge_int phase_avg 6
        then lit "  Good performance in " ++ lower phase_name ++ nl
        else lit "  Needs improvement in " ++ lower phase_name ++ nl).

Definition _generate_fallback_report `{Runtime} (avg_score : float)
    (phase_scores : dict (list float)) (total_questions : Z) : str :=
  lit "**Interview Complete!**" ++ nl ++ nl
  ++ lit "**Overall Score: " ++ format_1f avg_score ++ lit "/10**" ++ nl ++ nl
  ++ lit "**Questions Answered: " ++ str_of_Z total_questions ++ lit "**"
  ++ nl ++ nl
  ++ match phase_scores with
     | [] => []
     | _ => lit "**Performance by Category:**" ++ nl
            ++ List.concat (map category_lines phase_scores)
     end
  ++ nl ++ lit "**Detailed Assessment:**" ++ nl
  ++ (if ge_int avg_score 8 then
        lit "**Excellent Performance!**" ++ nl
        ++ bullet ++ lit " You demonstrate advanced Excel proficiency" ++ nl
        ++ bullet ++ lit " Strong technical knowledge and practical application" ++ nl
        ++ bullet ++ lit " Ready for senior-level Excel roles" ++ nl
        ++ bullet ++ lit " Consider pursuing Excel certification" ++ nl
      else if ge_int avg_score 6 then
        lit "**Good Performance**" ++ nl
        ++ bullet ++ lit " Solid foundation in Excel fundamentals" ++ nl
        ++ bullet ++ lit " Shows understanding of core functions" ++ nl
        ++ bullet ++ lit " Focus on advanced features (VLOOKUP, PivotTables, macros)" ++ nl
        ++ bullet ++ lit " Practice with real-world datasets" ++ nl
      else if ge_int avg_score 4 then
        lit "**Developing Skills**" ++ nl
        ++ bullet ++ lit " Basic Excel knowledge demonstrated" ++ nl
        ++ bullet ++ lit " Focus on fundamental functions (SUM, COUNT, AVERAGE)" ++ nl
        ++ bullet ++ lit " Practice with Excel tutorials and exercises" ++ nl
        ++ bullet ++ lit " Consider Excel beginner courses" ++ nl
      else
        lit "**Needs Focused Learning**" ++ nl
        ++ bullet ++ lit " Start with Excel basics and fundamentals" ++ nl
        ++ bullet ++ lit " Practice with simple formulas and functions" ++ nl
        ++ bullet ++ lit " Take structured Excel training courses" ++ nl
        ++ bullet ++ lit " Build confidence with hands-on practice" ++ nl)
  ++ nl ++ lit "**Next Steps:**" ++ nl
  ++ (if ge_int avg_score 6 then
        bullet ++ lit " Practice advanced Excel features" ++ nl
        ++ bullet ++ lit " Work with complex datasets" ++ nl
        ++ bullet ++ lit " Learn Power Query and Power Pivot" ++ nl
      else
        bullet ++ lit " Complete Excel fundamentals training" ++ nl
        ++ bullet ++ lit " Practice with sample datasets" ++ nl
        ++ bullet ++ lit " Focus on basic formulas and functions" ++ nl).

(** [msg.content[:100]] inside an f-string: a [str] or a [list] can be
    sliced, anything else raises. *)
Definition slice_100 `{Runtime} (v : json) : Res str :=
  match v with
  | JStr s => Ok (prefix 100 s)
  | JList l => Ok (str_of_json (JList (firstn 100 l)))
  | _ => Raise TypeError
  end.

(** The loop over [state.conversation_history[-10:]]. *)
Fixpoint summarize `{Runtime} (conversation_summary : str)
    (msgs : list InterviewMessage) : Res str :=
  match msgs with
  | [] => Ok conversation_summary
  | msg :: rest =>
      if str_eqb (role msg) candidate
      then shown <~ slice_100 (content msg) ;;
           summarize
             (conversation_summary ++ lit "Candidate: " ++ shown ++ lit "..." ++ nl)
             rest
      else summarize conversation_summary rest
  end.

(** [xs[-n:]] *)
Definition last_n {A} (n : nat) (xs : list A) : list A :=
  skipn (List.length xs - n) xs.

Definition indent : str := lit "            ".

Definition report_prompt `{Runtime} (state : InterviewState) (avg_score : float)
    (phase_scores : dict (list float)) (conversation_summary : str) : str :=
  nl
  ++ indent ++ lit "You are Sarah Chen, an Excel expert who just conducted a technical interview." ++ nl
  ++ indent ++ nl
  ++ indent ++ lit "Interview Summary:" ++ nl
  ++ indent ++ lit "- Candidate: " ++ candidate_name state ++ nl
  ++ indent ++ lit "- Overall Score: " ++ format_1f avg_score ++ lit "/10" ++ nl
  ++ indent ++ lit "- Questions Answered: "
  ++ str_of_Z (len (evaluation_scores state)) ++ nl
  ++ indent ++ lit "- Performance by Category: " ++ repr_scores phase_scores ++ nl
  ++ indent ++ nl
  ++ indent ++ lit "Recent Conversation:" ++ nl
  ++ indent ++ conversation_summary ++ nl
  ++ indent ++ nl
  ++ indent ++ lit "Generate a professional, encouraging final report that includes:" ++ nl
  ++ indent ++ lit "1. Congratulations on completion" ++ nl
  ++ indent ++ lit "2. Overall performance assessment" ++ nl
  ++ indent ++ lit "3. Specific strengths identified" ++ nl
  ++ indent ++ lit "4. Areas for improvement" ++ nl
  ++ indent ++ lit "5. Next steps and recommendations" ++ nl
  ++ indent ++ nl
  ++ indent ++ lit "Be encouraging but honest. Use emojis appropriately." ++ nl
  ++ indent ++ lit "Format as markdown with clear sections." ++ nl
  ++ indent.

(** [v.strip()]: only a [str] has the method. *)
Definition strip_of (v : json) : Res str :=
  match v with
  | JStr s => Ok (strip s)
  | _ => Raise AttributeError
  end.

(** The [try] body of [_generate_ai_final_report].  The argument
    [self.evaluation_model_url] is read before [_call_ai_model] is entered. *)
Definition _generate_ai_final_body `{Runtime} (self : ExcelInterviewAgent)
    (state : InterviewState) (avg_score : float)
    (phase_scores : dict (list float)) : Res str :=
  conversation_summary <~
    summarize [] (last_n 10 (conversation_history state)) ;;
  let prompt := report_prompt state avg_score phase_scores conversation_summary in
  url <~ getattr self (lit "evaluation_model_url") ;;
  let ai_report := _call_ai_model prompt url in
  if truthy ai_report then
    stripped <~ strip_of ai_report ;;
    if len stripped >? 50
    then Ok stripped
    else Ok (_generate_fallback_report avg_score phase_scores
               (len (evaluation_scores state)))
  else Ok (_generate_fallback_report avg_score phase_scores
             (len (evaluation_scores state))).

Definition _generate_ai_final_report `{Runtime} (self : ExcelInterviewAgent)
    (state : InterviewState) (avg_score : float)
    (phase_scores : dict (list float)) : str :=
  try_except (_generate_ai_final_body self state avg_score phase_scores)
    (fun _ =>
       _generate_fallback_report avg_score phase_scores
         (len (evaluation_scores state))).

(* ================================================================== *)
(** ** Conversation driver *)
(* ================================================================== *)

(** [process_candidate_response] mutates the [state] object it is given:
    a computation takes the session to an outcome and the session as the
    mutations so far left it, also when the outcome is an exception. *)
Module M.
Definition t (A : Type) : Type := InterviewState -> Res A * InterviewState.

Definition ret {A} (a : A) : t A := fun s => (Ok a, s).

Definition bind {A B} (m : t A) (k : A -> t B) : t B :=
  fun s =>
    match m s with
    | (Ok a, s') => k a s'
    | (Raise e, s') => (Raise e, s')
    end.

Definition lift {A} (r : Res A) : t A := fun s => (r, s).

Definition read {A} (f : InterviewState -> A) : t A := fun s => (Ok (f s), s).

Definition modify (f : InterviewState -> InterviewState) : t unit :=
  fun s => (Ok tt, f s).
End M.

Notation "x <- m ;; k" := (M.bind m (fun x => k))
  (at level 61, m at next level, right associativity).
Notation "m >> k" := (M.bind m (fun _ => k))
  (at level 61, right associativity).

Definition set_current_phase (p : InterviewPhase) (s : InterviewState)
    : InterviewState :=
  {| candidate_name := candidate_name s; current_phase := p;
     conversation_history := conversation_history s;
     current_question := current_question s;
     evaluation_scores := evaluation_scores s; start_time := start_time s;
     metadata := metadata s |}.

Definition set_current_question (q : option question) (s : InterviewState)
    : InterviewState :=
  {| candidate_name := candidate_name s; current_phase := current_phase s;
     conversation_history := conversation_history s;
     current_question := q;
     evaluation_scores := evaluation_scores s; start_time := start_time s;
     metadata := metadata s |}.

(** [state.conversation_history.append(msg)] *)
Definition append_message (msg : InterviewMessage) (s : InterviewState)
    : InterviewState :=
  {| candidate_name := candidate_name s; current_phase := current_phase s;
     conversation_history := conversation_history s ++ [msg];
     current_question := current_question s;
     evaluation_scores := evaluation_scores s; start_time := start_time s;
     metadata := metadata s |}.

(** [state.evaluation_scores.append(entry)] *)
Definition append_score (entry : ScoreEntry) (s : InterviewState)
    : InterviewState :=
  {| candidate_name := candidate_name s; current_phase := current_phase s;
     conversation_history := conversation_history s;
     current_question := current_question s;
     evaluation_scores := evaluation_scores s ++ [entry];
     start_time := start_time s; metadata := metadata s |}.

(** [# Add candidate's response to conversation] *)
Definition record_response (now : nat -> datetime) (response : str) : M.t unit :=
  p <- M.read current_phase ;;
  M.modify
    (append_message
       {| role := candidate; content := JStr response; timestamp := now 0%nat;
          phase := p; question_id := JNull; evaluation := None |}).

(** [# Evaluate the response if it's answering a question] *)
Definition evaluate_pending `{Runtime} (response : str) : M.t unit :=
  pending <- M.read current_question ;;
  match pending with
  | Some q =>
      if truthy_question pending then
        p <- M.read current_phase ;;
        let evaluation := _ai_evaluate_response q response p in
        id <- M.lift (getitem q (lit "id")) ;;
        M.modify
          (append_score
             {| entry_question_id := id;
                entry_score := Evaluation.score evaluation;
                entry_phase := value p |}) >>
        M.modify (set_current_question None)
      else M.ret tt
  | None => M.ret tt
  end.

(** [# Ask next question (only if not in WRAPUP phase)] *)
Definition ask_next (self : ExcelInterviewAgent) (now : nat -> datetime)
    : M.t unit :=
  p <- M.read current_phase ;;
  if negb (phase_eqb p WRAPUP) then
    (if phase_eqb p GREETING
     then M.modify (set_current_phase WARMUP)
     else M.ret tt) >>
    next_question <- M.read (_get_next_question self) ;;
    match next_question with
    | Some q =>
        if truthy_question next_question then
          M.modify (set_current_question next_question) >>
          text <- M.lift (getitem q (lit "question")) ;;
          p <- M.read current_phase ;;
          id <- M.lift (getitem q (lit "id")) ;;
          M.modify
            (append_message
               {| role := interviewer; content := text; timestamp := now 1%nat;
                  phase := p; question_id := id; evaluation := None |})
        else M.ret tt
    | None => M.ret tt
    end
  else M.ret tt.

(** [total_questions]: interviewer messages outside the greeting. *)
Definition total_questions (history : list InterviewMessage) : Z :=
  len (filter (fun msg =>
                 str_eqb (role msg) interviewer
                 && negb (phase_eqb (phase msg) GREETING))
         history).

(** [# Check if we've asked enough questions to move to WRAPUP], and the
    per-phase transition otherwise. *)
Definition check_transition (self : ExcelInterviewAgent) : M.t unit :=
  history <- M.read conversation_history ;;
  if total_questions history >=? 18 then
    pending <- M.read current_question ;;
    match pending with
    | None => M.modify (set_current_phase WRAPUP)
    | Some _ => M.ret tt
    end
  else
    next_phase <- M.read (_transition_to_next_phase self) ;;
    p <- M.read current_phase ;;
    if negb (phase_eqb next_phase p)
    then M.modify (set_current_phase next_phase)
    else M.ret tt.

(** [# Calculate scores by phase] *)
Definition scores_by_phase (scores : list ScoreEntry) : dict (list float) :=
  fold_left
    (fun phase_scores entry =>
       dict_set (entry_phase entry)
         (get_default phase_scores (entry_phase entry) [] ++ [entry_score entry])
         phase_scores)
    scores [].

(** [avg_score = total_score / len(...) if state.evaluation_scores else 0] *)
Definition average_score `{Runtime} (scores : list ScoreEntry) : float :=
  match scores with
  | [] => PrimFloat.zero
  | _ => PrimFloat.div (Py.sum (map entry_score scores)) (float_of_Z (len scores))
  end.

(** [# If we just moved to WRAPUP, show evaluation] *)
Definition show_evaluation `{Runtime} (self : ExcelInterviewAgent)
    (now : nat -> datetime) : M.t unit :=
  p <- M.read current_phase ;;
  if phase_eqb p WRAPUP then
    state <- M.read (fun s => s) ;;
    let avg_score := average_score (evaluation_scores state) in
    let phase_scores := scores_by_phase (evaluation_scores state) in
    let feedback_text :=
      _generate_ai_final_report self state avg_score phase_scores in
    M.modify
      (append_message
         {| role := interviewer; content := JStr feedback_text;
            timestamp := now 2%nat; phase := WRAPUP; question_id := JNull;
            evaluation := None |})
  else M.ret tt.

(** Everything up to the phase-transition check: the answer is recorded
    and scored, the next question is asked. *)
Definition before_check `{Runtime} (self : ExcelInterviewAgent)
    (now : nat -> datetime) (response : str) : M.t unit :=
  record_response now response >>
  evaluate_pending response >>
  ask_next self now.

(** [# Check if we should move to next phase (only for non-greeting
    phases)] *)
Definition phase_check `{Runtime} (self : ExcelInterviewAgent)
    (now : nat -> datetime) : M.t unit :=
  p <- M.read current_phase ;;
  if negb (phase_eqb p GREETING)
  then check_transition self >> show_evaluation self now
  else M.ret tt.

(** [now k] is the reading of the clock at the [k]-th place where the
    function calls [datetime.now()]. *)
Definition process_candidate_response `{Runtime} (self : ExcelInterviewAgent)
    (now : nat -> datetime) (response : str) : M.t unit :=
  before_check self now response >> phase_check self now.

(** The session once the call has returned or raised. *)
Definition after_call `{Runtime} (self : ExcelInterviewAgent)
    (now : nat -> datetime) (response : str) (s : InterviewState)
    : InterviewState :=
  snd (process_candidate_response self now response s).

(* ================================================================== *)
(** ** The two handlers that touch the session *)
(* ================================================================== *)

(** "Start Interview": [None] when the name is blank. *)
Definition start_interview (now : nat -> datetime) (name : str)
    : option InterviewState :=
  match strip name with
  | [] => None
  | stripped =>
      Some
        {| candidate_name := stripped;
           current_phase := WARMUP;
           conversation_history :=
             [ {| role := interviewer;
                  content :=
                    JStr (lit "Hello " ++ stripped
                          ++ lit "! It's great to meet you. I'm Sarah, and I'll be conducting your Excel technical interview today. We'll go through about 20 Excel questions covering different skill levels. Are you ready to begin?");
                  timestamp := now 1%nat; phase := GREETING;
                  question_id := JNull; evaluation := None |} ];
           current_question := None;
           evaluation_scores := [];
           start_time := Some (now 0%nat);
           metadata := [] |}
  end.

(** The handler of the "Send Response" button, where the page shows the
    button: a blank answer is refused, any other is passed on stripped.
    The session object outlives an exception.  Whether the page shows
    the input box is decided outside this handler and is not modelled. *)
Definition send_response `{Runtime} (self : ExcelInterviewAgent)
    (now : nat -> datetime) (response : str) (s : InterviewState)
    : InterviewState :=
  match strip response with
  | [] => s
  | stripped => after_call self now stripped s
  end.

(** A run of calls of [process_candidate_response]: one clock and one
    answer per call. *)
Fixpoint calls `{Runtime} (self : ExcelInterviewAgent)
    (clicks : list ((nat -> datetime) * str)) (s : InterviewState)
    : InterviewState :=
  match clicks with
  | [] => s
  | (now, response) :: rest =>
      calls self rest (after_call self now response s)
  end.

(** A runtime for closed runs: ASCII case mappings, sums in order, no
    token in the environment and an endpoint that cannot be reached.
    [repr] and [str] of values are left empty: they occur only in the
    prompts of the model call. *)
Definition ascii_runtime : Runtime :=
  {| lower := ascii_lower; title := ascii_title; sum := sum_in_order;
     repr_scores := fun _ => []; str_of_json := fun _ => [];
     getenv := fun _ => None;
     requests_post := fun _ _ _ => Raise RequestException |}.

(* ================================================================== *)
(** ** Reachable sessions *)
(* ================================================================== *)

(** [InterviewState(candidate_name, GREETING, [], start_time=...)] *)
Definition new_session (name : str) (started : option datetime)
    : InterviewState :=
  {| candidate_name := name; current_phase := GREETING;
     conversation_history := []; current_question := None;
     evaluation_scores := []; start_time := started; metadata := [] |}.

(** Sessions that start in greeting and evolve through
    [process_candidate_response] and through an assignment of
    [_transition_to_next_phase], called in any phase and whatever the
    outcome of the calls. *)
Inductive reachable `{Runtime} (self : ExcelInterviewAgent)
    : InterviewState -> Prop :=
| reach_new : forall name started, reachable self (new_session name started)
| reach_start : forall now name s,
    start_interview now name = Some s -> reachable self s
| reach_call : forall now response s,
    reachable self s -> reachable self (after_call self now response s)
| reach_transition : forall s,
    reachable self s ->
    reachable self (set_current_phase (_transition_to_next_phase self s) s).

(** Sessions on which [process_candidate_response] is called only while
    the phase is not wrapup. *)
Inductive outside_wrapup `{Runtime} (self : ExcelInterviewAgent)
    : InterviewState -> Prop :=
| outside_new : forall name started,
    outside_wrapup self (new_session name started)
| outside_start : forall now name s,
    start_interview now name = Some s -> outside_wrapup self s
| outside_call : forall now response s,
    outside_wrapup self s ->
    current_phase s <> WRAPUP ->
    outside_wrapup self (after_call self now response s).

(** The fixed order of the phases. *)
Definition rank (p : InterviewPhase) : nat :=
  match p with
  | GREETING => 0
  | WARMUP => 1
  | CORE_SKILLS => 2
  | SCENARIO_BASED => 3
  | TROUBLESHOOTING => 4
  | WRAPUP => 5
  | FEEDBACK => 6
  end.

(** A list of phase tags that never goes down in that order. *)
Fixpoint nondecreasing (tags : list InterviewPhase) : Prop :=
  match tags with
  | [] => True
  | p :: rest => Forall (fun q => (rank p <= rank q)%nat) rest /\ nondecreasing rest
  end.

(** The report message: what the interviewer says in wrapup. *)
Definition is_report (msg : InterviewMessage) : bool :=
  str_eqb (role msg) interviewer && phase_eqb (phase msg) WRAPUP.

Definition reports (history : list InterviewMessage) : nat :=
  List.length (filter is_report history).

(* ================================================================== *)
(** ** Inputs of the examples *)
(* ================================================================== *)

Definition noon : nat -> datetime := fun _ => 0.

(** The answer of the VLOOKUP scenario. *)
Definition vlookup_answer : str :=
  lit "You use VLOOKUP to search a table and return a matching value, for example finding a price by product ID".

(** Question [c1] of the built-in set. *)
Definition vlookup_question : question :=
  [ (lit "id", JStr (lit "c1"));
    (lit "question", JStr (lit "How would you use VLOOKUP to find data in a table?"));
    (lit "type", JStr (lit "lookup")) ].

(** A question whose text is a number. *)
Definition numbered_question : question :=
  [ (lit "id", JStr (lit "n1")); (lit "question", JInt 42) ].

(** The agent when the document is absent. *)
Definition fallback_agent : ExcelInterviewAgent := __init__ Absent.

(** A session started for Ann. *)
Definition ann : InterviewState :=
  match start_interview noon (lit "Ann") with
  | Some s => s
  | None => new_session [] None
  end.

Definition short_answer : (nat -> datetime) * str := (noon, lit "I use sum.").

(** A document of eighteen warmup questions, and its agent. *)
Definition warmup_entry (k : nat) : json :=
  JDict [ (lit "id", JStr (lit "q" ++ str_of_Z (Z.of_nat k)));
          (lit "section", JStr (lit "warmup"));
          (lit "question", JStr (lit "Question " ++ str_of_Z (Z.of_nat k)));
          (lit "type", JStr (lit "basic")) ].

Definition eighteen_agent : ExcelInterviewAgent :=
  __init__ (Parsed (JDict [ (lit "questions", JList (map warmup_entry (seq 1 18))) ])).

(** Ann's session after six answers with the built-in bank, and the
    session with eighteen questions asked and the last one pending. *)
Definition wrapped : InterviewState :=
  calls (H := ascii_runtime) fallback_agent (repeat short_answer 6) ann.

Definition asked_eighteen : InterviewState :=
  calls (H := ascii_runtime) eighteen_agent (repeat short_answer 18) ann.

Definition six_phases : list InterviewPhase :=
  [GREETING; WARMUP; CORE_SKILLS; SCENARIO_BASED; TROUBLESHOOTING; WRAPUP].

(** The scorer's arithmetic on a sum of sub-scores. *)
Definition score_of_sum (n : Z) : float :=
  round1
    (Py.min (float_of_Z 10)
       (Py.max (float_of_Z 1) (PrimFloat.div (float_of_Z n) (float_of_Z 4)))).

(** [1 <= x <= 10] *)
Definition in_range (x : float) : bool :=
  PrimFloat.leb (float_of_Z 1) x && PrimFloat.leb x (float_of_Z 10).

Definition more_detail : str := lit "Could provide more detail".

(** The sizes of a bank's lists, phase by phase. *)
Definition bank_sizes (bank : dict (list question)) : list (str * nat) :=
  map (fun kv => (fst kv, List.length (snd kv))) bank.

Definition is_object (v : json) : bool :=
  match v with
  | JDict _ => true
  | _ => false
  end.

(** What a step of the driver may do to the transcript and to the phase:
    messages are added at the end, and, outside the unused seventh phase,
    the phase does not go back and each added message is tagged between
    the phase before and the phase after, in order. *)
Definition advances (s s' : InterviewState) : Prop :=
  exists added,
    conversation_history s' = conversation_history s ++ added
    /\ (current_phase s <> FEEDBACK ->
        current_phase s' <> FEEDBACK
        /\ (rank (current_phase s) <= rank (current_phase s'))%nat
        /\ nondecreasing (map phase added)
        /\ Forall (fun msg =>
                     (rank (current_phase s) <= rank (phase msg))%nat
                     /\ (rank (phase msg) <= rank (current_phase s'))%nat)
             added).

(** A session that has not reached wrapup and holds no message tagged
    with it. *)
Definition before_wrapup (s : InterviewState) : Prop :=
  current_phase s <> WRAPUP
  /\ Forall (fun msg => phase msg <> WRAPUP) (conversation_history s).

(** The transcript ends with the only report it holds. *)
Definition closed_by_report (s : InterviewState) : Prop :=
  current_phase s = WRAPUP
  /\ exists history report,
       conversation_history s = history ++ [report]
       /\ is_report report = true
       /\ Forall (fun msg => phase msg <> WRAPUP) history.

(** Outside the unused seventh phase, with a transcript whose tags never
    go down and never pass the current phase. *)
Definition ordered (s : InterviewState) : Prop :=
  current_phase s <> FEEDBACK
  /\ nondecreasing (map phase (conversation_history s))
  /\ Forall (fun msg => (rank (phase msg) <= rank (current_phase s))%nat)
       (conversation_history s).

Definition settled (s : InterviewState) : Prop :=
  before_wrapup s \/ closed_by_report s.

(** A computation of the driver whose every outcome is related to the
    session it started from. *)
Definition keeps (R : InterviewState -> InterviewState -> Prop) {A}
    (m : M.t A) : Prop :=
  forall s, R s (snd (m s)).

(** A step that leaves the phase alone, or takes greeting to warmup. *)
Definition phase_kept (s s' : InterviewState) : Prop :=
  current_phase s' = current_phase s
  \/ current_phase s = GREETING /\ current_phase s' = WARMUP.

(** Case analysis on every test of the goal. *)
Ltac split_ifs :=
  repeat match goal with
         | |- context [if ?b then _ else _] => destruct b
         end.

(** Unfolds the operations of the driver's monad. *)
Ltac run :=
  cbv beta iota delta [M.bind M.read M.modify M.ret M.lift fst snd] in *.

(* ================================================================== *)
(** ** Auxiliary notions for further properties *)
(* ================================================================== *)

(** The clamped mean of a sum of sub-scores, before rounding. *)
Definition final_of_sum (n : Z) : float :=
  Py.min (float_of_Z 10)
    (Py.max (float_of_Z 1) (PrimFloat.div (float_of_Z n) (float_of_Z 4))).

(** The sentences [_ai_evaluate_response] can return as reasoning below
    the top band, and the one of the neutral evaluation. *)
Definition reachable_reasonings : list str :=
  [ lit "Good response with solid Excel understanding";
    lit "Basic response showing some Excel knowledge";
    lit "Response needs improvement in technical detail";
    lit "Basic response evaluation" ].

(** The running score of [_rule_based_evaluate_response] as a function of
    what its tests found: which length band the answer is in (1, 2, 3, or
    0 for none), whether the topic of the question was hit, how many
    Excel terms and technical indicators occur, and whether a confidence
    phrase occurs.  The additions are done in the order of the source. *)
Definition basic_sum (quality : Z) (accurate : bool) (excel technical : Z)
    (confident : bool) : float :=
  let x := PrimFloat.zero in
  let x := if quality =? 1 then PrimFloat.add x (float_of_Z 1)
           else if quality =? 2 then PrimFloat.add x (float_of_Z 2)
           else if quality =? 3 then PrimFloat.add x (float_of_Z 3)
           else x in
  let x := if accurate then PrimFloat.add x (float_of_Z 3) else x in
  let x := if excel >? 0
           then PrimFloat.add x
                  (Py.min (PrimFloat.mul (float_of_Z excel) (decimal 1 2))
                     (float_of_Z 2))
           else x in
  let x := if technical >? 0
           then PrimFloat.add x
                  (Py.min (PrimFloat.mul (float_of_Z technical) (decimal 3 10))
                     (decimal 3 2))
           else x in
  if confident then PrimFloat.add x (decimal 1 2) else x.

(** [round(max(1.0, min(10.0, score)), 1)] *)
Definition basic_final (x : float) : float :=
  round1 (Py.max (float_of_Z 1) (Py.min (float_of_Z 10) x)).

(** The length band of [# Basic response quality]. *)
Definition quality_of (response : str) : Z :=
  if len (strip response) <? 10 then 1
  else if len (strip response) <? 30 then 2
  else if len (strip response) >? 50 then 3
  else 0.

(** Whether [# Technical accuracy based on question content] adds 3. *)
Definition accurate_of (question_text response_lower : str) : bool :=
  if contains (lit "sum") question_text then
    any_in [lit "add"; lit "total"; lit "sum"; lit "plus"; lit "addition"; lit "calculate"]
      response_lower
  else if contains (lit "count") question_text then
    any_in [lit "count"; lit "number"; lit "how many"; lit "quantity"; lit "items"]
      response_lower
  else if contains (lit "vlookup") question_text then
    any_in [lit "lookup"; lit "find"; lit "search"; lit "match"; lit "reference"; lit "table"]
      response_lower
  else if contains (lit "pivot") question_text then
    any_in [lit "pivot"; lit "table"; lit "summarize"; lit "group"; lit "analyze"; lit "data"]
      response_lower
  else false.

Definition basic_excel_terms : list str :=
  [lit "excel"; lit "spreadsheet"; lit "worksheet"; lit "workbook";
   lit "cell"; lit "range"; lit "formula"].

Definition basic_technical_terms : list str :=
  [lit "function"; lit "formula"; lit "data"; lit "analysis";
   lit "business"; lit "report"].

Definition confidence_phrases : list str :=
  [lit "i think"; lit "i believe"; lit "i would"; lit "i usually";
   lit "in my experience"; lit "typically"].

(** All the values the tests of the rule-based scorer can take. *)
Definition basic_cases : list (Z * bool * Z * Z * bool) :=
  flat_map (fun quality =>
    flat_map (fun accurate =>
      flat_map (fun excel =>
        flat_map (fun technical =>
          map (fun confident =>
                 (Z.of_nat quality, accurate, Z.of_nat excel,
                  Z.of_nat technical, confident))
            [false; true])
          (seq 0 7))
        (seq 0 8))
      [false; true])
    (seq 0 4).

(** [question.get('section', 'warmup') == name] *)
Definition in_section (name : str) (q : question) : bool :=
  json_is (get_default q (lit "section") (JStr (lit "warmup"))) name.

(** The bank a document's entries are sorted into. *)
Definition sorted_bank (entries : list question) : dict (list question) :=
  [ (lit "warmup", filter (in_section (lit "warmup")) entries);
    (lit "core_skills", filter (in_section (lit "core")) entries);
    (lit "scenario_based", filter (in_section (lit "scenario")) entries);
    (lit "troubleshooting", filter (in_section (lit "troubleshoot")) entries) ].

Definition bank_keys : list str :=
  [lit "warmup"; lit "core_skills"; lit "scenario_based"; lit "troubleshooting"].

(** A document of three entries: one for core, one without a section and
    one for a section the loader does not know. *)
Definition mixed_entries : list question :=
  [ [ (lit "id", JStr (lit "a")); (lit "section", JStr (lit "core")) ];
    [ (lit "id", JStr (lit "b")) ];
    [ (lit "id", JStr (lit "c")); (lit "section", JStr (lit "advanced")) ] ].

(* ================================================================== *)
(** ** Follow-up replies *)
(* ================================================================== *)

Definition empathy_reply : str :=
  lit "I completely understand! It's totally normal to feel nervous in interviews. Don't worry, we'll take this step by step. Let's start with some basic Excel questions to get you comfortable.".

Definition greeting_reply : str :=
  lit "Great to meet you! Let's dive right into some Excel questions. I'll start with some basics and we'll work our way up.".

Definition short_reply : str :=
  lit "No worries! Let's continue with the Excel questions. Take your time with each one.".

Definition default_reply : str :=
  lit "That's interesting! Let's continue with the next question.".

Definition follow_ups : dict str :=
  [ (lit "greeting", lit "Perfect! Let's start with some Excel questions. I'll begin with the basics.");
    (lit "warmup", lit "Good! Can you walk me through how you would approach that?");
    (lit "core_skills", lit "Excellent! What challenges have you faced with that?");
    (lit "scenario_based", lit "That's a great approach! How would you handle edge cases?");
    (lit "troubleshooting", lit "Good thinking! What would you do if that didn't work?") ].

Definition _generate_follow_up `{Runtime} (question : question)
    (response : str) (phase : InterviewPhase) : str :=
  if contains (lit "nervous") (lower response)
     || contains (lit "anxious") (lower response)
  then empathy_reply
  else if contains (lit "hello") (lower response)
          || contains (lit "hi") (lower response)
  then greeting_reply
  else if len (strip response) <? 10
  then short_reply
  else get_default follow_ups (value phase) default_reply.

(** A value inside an f-string: a [str] as it is, anything else through
    [str]. *)
Definition formatted `{Runtime} (v : json) : str :=
  match v with
  | JStr s => s
  | _ => str_of_json v
  end.

Definition follow_up_prompt `{Runtime} (question : question) (response : str)
    (phase : InterviewPhase) : str :=
  nl
  ++ indent ++ lit "You are Sarah Chen, an Excel expert conducting a technical interview." ++ nl
  ++ indent ++ nl
  ++ indent ++ lit "Previous question: "
  ++ formatted (get_default question (lit "question") (JStr [])) ++ nl
  ++ indent ++ lit "Candidate's response: " ++ response ++ nl
  ++ indent ++ lit "Current interview phase: " ++ value phase ++ nl
  ++ indent ++ nl
  ++ indent ++ lit "Generate a brief, encouraging follow-up response (1-2 sentences) that:" ++ nl
  ++ indent ++ lit "1. Acknowledges their answer" ++ nl
  ++ indent ++ lit "2. Provides gentle feedback if needed" ++ nl
  ++ indent ++ lit "3. Moves the conversation forward naturally" ++ nl
  ++ indent ++ nl
  ++ indent ++ lit "Be professional, encouraging, and concise." ++ nl
  ++ indent.

(** The [try] body of [_generate_ai_follow_up]. *)
Definition _generate_ai_follow_body `{Runtime} (self : ExcelInterviewAgent)
    (question : question) (response : str) (phase : InterviewPhase)
    : Res str :=
  let prompt := follow_up_prompt question response phase in
  url <~ getattr self (lit "ai_model_url") ;;
  let ai_response := _call_ai_model prompt url in
  if truthy ai_response then
    stripped <~ strip_of ai_response ;;
    if len stripped >? 10
    then Ok stripped
    else Ok (_generate_follow_up question response phase)
  else Ok (_generate_follow_up question response phase).

Definition _generate_ai_follow_up `{Runtime} (self : ExcelInterviewAgent)
    (question : question) (response : str) (phase : InterviewPhase) : str :=
  try_except (_generate_ai_follow_body self question response phase)
    (fun _ => _generate_follow_up question response phase).

(** Every sentence [_generate_follow_up] can return. *)
Definition canned_replies : list str :=
  empathy_reply :: greeting_reply :: short_reply :: default_reply
    :: map snd follow_ups.

(** A runtime whose endpoint answers every prompt with a long text. *)
Definition answering_runtime : Runtime :=
  {| lower := ascii_lower; title := ascii_title; sum := sum_in_order;
     repr_scores := fun _ => []; str_of_json := fun _ => [];
     getenv := fun _ => None;
     requests_post := fun _ _ _ =>
       Ok (200,
           Ok (JDict [ (lit "generated_text",
                        JStr (lit "A generated reply that is long enough to be used by the caller.")) ])) |}.

(** *** The steps of a call, as the session they leave *)

(** The candidate's message the call records first. *)
Definition answer_message (now : nat -> datetime) (response : str)
    (s : InterviewState) : InterviewMessage :=
  {| role := candidate; content := JStr response; timestamp := now 0%nat;
     phase := current_phase s; question_id := JNull; evaluation := None |}.

Definition id_of (q : question) : json := get_default q (lit "id") JNull.

Definition text_of (q : question) : json :=
  get_default q (lit "question") JNull.

(** The interviewer's message that asks [q] in phase [p]. *)
Definition question_message (now : nat -> datetime) (q : question)
    (p : InterviewPhase) : InterviewMessage :=
  {| role := interviewer; content := text_of q; timestamp := now 1%nat;
     phase := p; question_id := id_of q; evaluation := None |}.

Definition report_message (now : nat -> datetime) (text : str)
    : InterviewMessage :=
  {| role := interviewer; content := JStr text; timestamp := now 2%nat;
     phase := WRAPUP; question_id := JNull; evaluation := None |}.

(** A question the driver can ask and score without a [KeyError]: it has
    a text, and an id that counts as true. *)
Definition well_formed (q : question) : bool :=
  match dict_get (lit "id") q, dict_get (lit "question") q with
  | Some id, Some _ => truthy id
  | _, _ => false
  end.

Definition every_phase : list InterviewPhase :=
  [GREETING; WARMUP; CORE_SKILLS; SCENARIO_BASED; TROUBLESHOOTING; WRAPUP;
   FEEDBACK].

Definition well_formed_bank (self : ExcelInterviewAgent) : bool :=
  forallb (fun p => forallb well_formed (phase_questions self p)) every_phase.

Definition pending_ok (s : InterviewState) : Prop :=
  forall q, current_question s = Some q -> well_formed q = true.

(** The pending question scored and cleared. *)
Definition answered `{Runtime} (response : str) (s : InterviewState)
    : InterviewState :=
  match current_question s with
  | Some q =>
      set_current_question None
        (append_score
           {| entry_question_id := id_of q;
              entry_score :=
                Evaluation.score
                  (_ai_evaluate_response q response (current_phase s));
              entry_phase := value (current_phase s) |} s)
  | None => s
  end.

(** Greeting left for warmup. *)
Definition entered (s : InterviewState) : InterviewState :=
  if phase_eqb (current_phase s) GREETING
  then set_current_phase WARMUP s else s.

(** The next question of the phase made pending and asked. *)
Definition asked (self : ExcelInterviewAgent) (now : nat -> datetime)
    (s : InterviewState) : InterviewState :=
  if phase_eqb (current_phase s) WRAPUP then s
  else
    match _get_next_question self (entered s) with
    | Some q =>
        append_message
          (question_message now q (current_phase (entered s)))
          (set_current_question (Some q) (entered s))
    | None => entered s
    end.

(** The phase the transition check leaves. *)
Definition phase_after_check (self : ExcelInterviewAgent)
    (s : InterviewState) : InterviewPhase :=
  if phase_eqb (current_phase s) GREETING then current_phase s
  else if total_questions (conversation_history s) >=? 18 then
    match current_question s with
    | None => WRAPUP
    | Some _ => current_phase s
    end
  else _transition_to_next_phase self s.

(** The report appended when the phase is wrapup. *)
Definition reported `{Runtime} (self : ExcelInterviewAgent)
    (now : nat -> datetime) (s : InterviewState) : InterviewState :=
  if phase_eqb (current_phase s) WRAPUP then
    append_message
      (report_message now
         (_generate_ai_final_report self s
            (average_score (evaluation_scores s))
            (scores_by_phase (evaluation_scores s))))
      s
  else s.

Definition checked `{Runtime} (self : ExcelInterviewAgent)
    (now : nat -> datetime) (s : InterviewState) : InterviewState :=
  reported self now (set_current_phase (phase_after_check self s) s).

(** The messages that ask a question: the interviewer's, with an id. *)
Definition is_question (msg : InterviewMessage) : bool :=
  str_eqb (role msg) interviewer && truthy (question_id msg).

Definition question_messages (history : list InterviewMessage)
    : list InterviewMessage :=
  filter is_question history.

Definition pending_ids (s : InterviewState) : list json :=
  match current_question s with
  | Some q => [id_of q]
  | None => []
  end.

(** The questions asked in phase [p], in the order of the transcript. *)
Definition asked_in (p : InterviewPhase) (history : list InterviewMessage)
    : list InterviewMessage :=
  filter (fun msg => phase_eqb (phase msg) p) (question_messages history).

(** What holds of every session of an agent whose questions are well
    formed: the pending question is one of them, the evaluations and the
    pending question account for the questions asked, one for one and in
    order, and each phase has asked the first questions of its list. *)
Definition ledger (s : InterviewState) : Prop :=
  map entry_question_id (evaluation_scores s) ++ pending_ids s
  = map question_id (question_messages (conversation_history s)).

Definition in_bank_order (self : ExcelInterviewAgent) (s : InterviewState)
    : Prop :=
  forall p,
    map question_id (asked_in p (conversation_history s))
    = map id_of
        (firstn (List.length (asked_in p (conversation_history s)))
           (phase_questions self p)).

Definition invariant (self : ExcelInterviewAgent) (s : InterviewState)
    : Prop :=
  pending_ok s /\ ledger s /\ in_bank_order self s.

(** A document with two warmup questions and nothing else, its agent, and
    Ann's session once both are asked. *)
Definition two_warmup_agent : ExcelInterviewAgent :=
  __init__ (Parsed (JDict [ (lit "questions", JList (map warmup_entry (seq 1 2))) ])).

Definition stalled : InterviewState :=
  calls (H := ascii_runtime) two_warmup_agent (repeat short_answer 2) ann.

(** [questions_in_phase] of [_transition_to_next_phase]: the
    interviewer's messages tagged [p]. *)
Definition spoken_in (p : InterviewPhase) (history : list InterviewMessage)
    : Z :=
  len (filter (fun msg =>
                 phase_eqb (phase msg) p && str_eqb (role msg) interviewer)
         history).

(** Ann's session with the built-in bank after her first answer. *)
Definition first_asked : InterviewState :=
  calls (H := ascii_runtime) fallback_agent [short_answer] ann.

(** A document of twenty warmup questions, its agent, and Ann's session
    after nineteen answers. *)
Definition twenty_agent : ExcelInterviewAgent :=
  __init__ (Parsed (JDict [ (lit "questions", JList (map warmup_entry (seq 1 20))) ])).

Definition asked_nineteen : InterviewState :=
  calls (H := ascii_runtime) twenty_agent (repeat short_answer 19) ann.

(** Question [w2] of the built-in set, and the twentieth question of the
    document of twenty. *)
Definition second_warmup : question :=
  nth 1 (phase_questions fallback_agent WARMUP) [].

Definition twentieth : question :=
  nth 19 (phase_questions twenty_agent WARMUP) [].

(** The phases that ask questions, the number of questions of a bank, and
    the number of questions a transcript holds for those phases. *)
Definition interview_phases : list InterviewPhase :=
  [WARMUP; CORE_SKILLS; SCENARIO_BASED; TROUBLESHOOTING].

Definition bank_size (self : ExcelInterviewAgent) : Z :=
  len (phase_questions self WARMUP) + len (phase_questions self CORE_SKILLS)
  + len (phase_questions self SCENARIO_BASED)
  + len (phase_questions self TROUBLESHOOTING).

Definition spoken (history : list InterviewMessage) : Z :=
  spoken_in WARMUP history + spoken_in CORE_SKILLS history
  + spoken_in SCENARIO_BASED history + spoken_in TROUBLESHOOTING history.

(** A session on its way through the bank: the phases before the current
    one have asked all their questions, the current one has some left, the
    later ones have asked none, and every question but the pending one has
    its evaluation. *)
Definition on_track (self : ExcelInterviewAgent) (s : InterviewState)
    : Prop :=
  pending_ok s
  /\ In (current_phase s) interview_phases
  /\ total_questions (conversation_history s)
     = spoken (conversation_history s)
  /\ len (evaluation_scores s) + len (pending_ids s)
     = total_questions (conversation_history s)
  /\ forall p, In p interview_phases ->
       Z.of_nat (List.length (asked_in p (conversation_history s)))
       = spoken_in p (conversation_history s)
       /\ ((rank p < rank (current_phase s))%nat ->
           spoken_in p (conversation_history s)
           = len (phase_questions self p))
       /\ ((rank (current_phase s) < rank p)%nat ->
           spoken_in p (conversation_history s) = 0)
       /\ (p = current_phase s ->
           spoken_in p (conversation_history s)
           < len (phase_questions self p)).

(* ================================================================== *)
(** ** Properties of the scorer *)
(* ================================================================== *)

Section ScorerFacts.
Context `{Runtime}.

(** Which locals each block leaves alone. *)

Lemma technical_frame rl l :
  let l' := score_technical rl l in
  Locals.completeness l' = Locals.completeness l
  /\ Locals.clarity l' = Locals.clarity l
  /\ Locals.excel_knowledge l' = Locals.excel_knowledge l
  /\ Locals.areas_for_improvement l' = Locals.areas_for_improvement l
  /\ Locals.technical_accuracy l <= Locals.technical_accuracy l'
      <= Locals.technical_accuracy l + 9.
Proof. unfold score_technical. split_ifs; cbn; repeat split; lia. Qed.

Lemma completeness_frame r l :
  let l' := score_completeness r l in
  Locals.technical_accuracy l' = Locals.technical_accuracy l
  /\ Locals.clarity l' = Locals.clarity l
  /\ Locals.excel_knowledge l' = Locals.excel_knowledge l
  /\ Locals.completeness l'
      = Locals.completeness l
        + (if word_count r >? 50 then 4 else if word_count r >? 20 then 2 else 1)
  /\ Locals.areas_for_improvement l'
      = Locals.areas_for_improvement l
        ++ (if word_count r >? 50 then []
            else if word_count r >? 20 then [] else [more_detail]).
Proof.
  unfold score_completeness.
  destruct (word_count r >? 50); [| destruct (word_count r >? 20)];
    cbn; rewrite ?app_nil_r; repeat split; reflexivity.
Qed.

Lemma clarity_frame r rl l :
  let l' := score_clarity r rl l in
  Locals.technical_accuracy l' = Locals.technical_accuracy l
  /\ Locals.completeness l' = Locals.completeness l
  /\ Locals.excel_knowledge l' = Locals.excel_knowledge l
  /\ Locals.areas_for_improvement l' = Locals.areas_for_improvement l
  /\ Locals.clarity l <= Locals.clarity l' <= Locals.clarity l + 4.
Proof. unfold score_clarity. split_ifs; cbn; repeat split; lia. Qed.

Lemma excel_frame rl l :
  let l' := score_excel rl l in
  Locals.technical_accuracy l' = Locals.technical_accuracy l
  /\ Locals.completeness l' = Locals.completeness l
  /\ Locals.clarity l' = Locals.clarity l
  /\ Locals.areas_for_improvement l' = Locals.areas_for_improvement l
  /\ 0 <= Locals.excel_knowledge l' <= 5.
Proof.
  unfold score_excel.
  set (n := len (filter _ excel_terms)).
  assert (0 <= n) by (apply Nat2Z.is_nonneg).
  split_ifs; cbn; repeat split; lia.
Qed.

Lemma phase_frame p rl l :
  let l' := score_phase p rl l in
  Locals.completeness l' = Locals.completeness l
  /\ Locals.clarity l' = Locals.clarity l
  /\ Locals.excel_knowledge l' = Locals.excel_knowledge l
  /\ Locals.areas_for_improvement l' = Locals.areas_for_improvement l
  /\ Locals.technical_accuracy l <= Locals.technical_accuracy l'
      <= Locals.technical_accuracy l + 3.
Proof. unfold score_phase. split_ifs; cbn; repeat split; lia. Qed.

(** The four sub-scores and the improvement notes once all blocks ran. *)
Lemma scored_fields r p :
  let l := scored r p in
  0 <= Locals.technical_accuracy l <= 12
  /\ Locals.completeness l
      = (if word_count r >? 50 then 4 else if word_count r >? 20 then 2 else 1)
  /\ 0 <= Locals.clarity l <= 4
  /\ 0 <= Locals.excel_knowledge l <= 5
  /\ Locals.areas_for_improvement l
      = (if word_count r >? 50 then []
         else if word_count r >? 20 then [] else [more_detail]).
Proof.
  unfold scored.
  set (l1 := score_technical (lower r) Locals.init).
  set (l2 := score_completeness r l1).
  set (l3 := score_clarity r (lower r) l2).
  set (l4 := score_excel (lower r) l3).
  destruct (technical_frame (lower r) Locals.init) as (T1 & T2 & T3 & T4 & T5).
  destruct (completeness_frame r l1) as (C1 & C2 & C3 & C4 & C5).
  destruct (clarity_frame r (lower r) l2) as (L1 & L2 & L3 & L4 & L5).
  destruct (excel_frame (lower r) l3) as (E1 & E2 & E3 & E4 & E5).
  destruct (phase_frame p (lower r) l4) as (P1 & P2 & P3 & P4 & P5).
  fold l1 in T1, T2, T3, T4, T5. fold l2 in C1, C2, C3, C4, C5.
  fold l3 in L1, L2, L3, L4, L5. fold l4 in E1, E2, E3, E4, E5.
  cbn in T1, T2, T3, T4, T5.
  cbv zeta in *.
  rewrite P1, P2, P3, P4, E1, E2, E3, E4, L1, L2, L4, C4, C5, T1, T4 in *.
  repeat split; try lia.
  all: cbn; try reflexivity; lia.
Qed.

Lemma sum_of_subscores r p :
  let l := scored r p in
  1 <= Locals.technical_accuracy l + Locals.completeness l
       + Locals.clarity l + Locals.excel_knowledge l <= 25.
Proof.
  destruct (scored_fields r p) as (T & C & L & E & _).
  cbv zeta in *. rewrite C.
  destruct (word_count r >? 50); [| destruct (word_count r >? 20)]; lia.
Qed.
End ScorerFacts.

Section ScorerClaims.
Context `{Runtime}.

Lemma sums_in_range :
  forallb (fun k => in_range (score_of_sum (Z.of_nat k))) (seq 0 26) = true.
Proof. vm_compute. reflexivity. Qed.

Lemma score_of_sum_in_range n :
  0 <= n <= 25 -> in_range (score_of_sum n) = true.
Proof.
  intros Hn.
  pose proof sums_in_range as All.
  rewrite forallb_forall in All.
  specialize (All (Z.to_nat n)).
  rewrite Z2Nat.id in All by lia.
  apply All, in_seq. lia.
Qed.

(** The two ways a call goes: the question's text is a string and the
    advanced body returns, or it is not and both bodies raise at their
    second statement. *)
Lemma scorer_cases q r p :
  (exists text,
      get_default q (lit "question") (JStr []) = JStr text
      /\ _ai_evaluate_body q r p = Ok (returned (scored r p))
      /\ _ai_evaluate_response q r p = returned (scored r p))
  \/ ((forall text, get_default q (lit "question") (JStr []) <> JStr text)
      /\ _ai_evaluate_body q r p = Raise AttributeError
      /\ _rule_based_evaluate_body q r p = Raise AttributeError
      /\ _ai_evaluate_response q r p = neutral_evaluation).
Proof.
  unfold _ai_evaluate_response, _rule_based_evaluate_response,
    _ai_evaluate_body, _rule_based_evaluate_body.
  destruct (get_default q (lit "question") (JStr [])) eqn:Text; cbn;
    try (right; repeat split; try reflexivity; intros text; discriminate).
  left. exists s. repeat split.
Qed.

Lemma in_or_default x xs d : In x xs -> In x (or_default xs d).
Proof. destruct xs; cbn; [contradiction | auto]. Qed.

Lemma reasoning_keeps_notes l x :
  In x (Locals.areas_for_improvement l) ->
  In x (Locals.areas_for_improvement (score_reasoning l)).
Proof.
  intros Hx. unfold score_reasoning.
  split_ifs; cbn; auto. apply in_or_app. auto.
Qed.

Lemma returned_score l :
  Evaluation.score (returned l)
  = score_of_sum (Locals.technical_accuracy l + Locals.completeness l
                  + Locals.clarity l + Locals.excel_knowledge l).
Proof. reflexivity. Qed.

(** C1, as the code has it: whatever the question, the answer and the
    phase, the score the scorer returns lies in [1, 10]; for a question
    whose text is a string it is the sum of the four sub-scores divided by
    4, clamped to [1, 10] and rounded to one decimal; for any other
    question it is 5.0. *)
Theorem ai_score_range_and_formula q r p :
  let e := _ai_evaluate_response q r p in
  let l := scored r p in
  (PrimFloat.leb (float_of_Z 1) (Evaluation.score e) = true
   /\ PrimFloat.leb (Evaluation.score e) (float_of_Z 10) = true)
  /\ (forall text,
        get_default q (lit "question") (JStr []) = JStr text ->
        Evaluation.score e
        = round1
            (Py.min (float_of_Z 10)
               (Py.max (float_of_Z 1)
                  (PrimFloat.div
                     (float_of_Z
                        (Locals.technical_accuracy l + Locals.completeness l
                         + Locals.clarity l + Locals.excel_knowledge l))
                     (float_of_Z 4)))))
  /\ ((forall text, get_default q (lit "question") (JStr []) <> JStr text) ->
      Evaluation.score e = float_of_Z 5).
Proof.
  cbv zeta.
  destruct (scorer_cases q r p)
    as [(text & Text & _ & Same) | (NoText & _ & _ & Neutral)].
  - rewrite Same, returned_score. split; [| split].
    + apply andb_true_iff.
      apply score_of_sum_in_range.
      pose proof (sum_of_subscores r p) as Sum. cbv zeta in Sum. lia.
    + intros _ _. reflexivity.
    + intros NoText. destruct (NoText text Text).
  - rewrite Neutral. split; [| split].
    + split; vm_compute; reflexivity.
    + intros text Text. destruct (NoText text Text).
    + intros _. reflexivity.
Qed.

(** C4, as the code has it: the completeness sub-score is 4 above fifty
    words, 2 from twenty-one to fifty words and 1 up to twenty words;
    in the last case, and only then, the note about more detail is
    recorded, and it is in the evaluation returned for a question whose
    text is a string. *)
Theorem completeness_thresholds r p :
  let l := scored r p in
  (50 < word_count r -> Locals.completeness l = 4)
  /\ (20 < word_count r <= 50 -> Locals.completeness l = 2)
  /\ (word_count r <= 20 -> Locals.completeness l = 1)
  /\ (In more_detail (Locals.areas_for_improvement l) <-> word_count r <= 20)
  /\ (forall q text,
        get_default q (lit "question") (JStr []) = JStr text ->
        word_count r <= 20 ->
        In more_detail
          (Evaluation.areas_for_improvement (_ai_evaluate_response q r p))).
Proof.
  cbv zeta.
  destruct (scored_fields r p) as (_ & Co & _ & _ & Areas).
  cbv zeta in Co, Areas.
  assert (Note : In more_detail (Locals.areas_for_improvement (scored r p))
                 <-> word_count r <= 20).
  { rewrite Areas.
    destruct (Z.gtb_spec (word_count r) 50);
      [| destruct (Z.gtb_spec (word_count r) 20)]; cbn; intuition lia. }
  rewrite Co.
  repeat split; try apply Note.
  - intros Hw. destruct (Z.gtb_spec (word_count r) 50); [reflexivity | lia].
  - intros Hw. destruct (Z.gtb_spec (word_count r) 50); [lia |].
    destruct (Z.gtb_spec (word_count r) 20); [reflexivity | lia].
  - intros Hw. destruct (Z.gtb_spec (word_count r) 50); [lia |].
    destruct (Z.gtb_spec (word_count r) 20); [lia | reflexivity].
  - intros q text Text Hw.
    destruct (scorer_cases q r p)
      as [(text' & _ & _ & Same) | (NoText & _)];
      [| destruct (NoText text Text)].
    rewrite Same. apply Note in Hw.
    apply in_or_default, reasoning_keeps_notes, Hw.
Qed.

(** C5, as the code has it: in core_skills, for a question whose text is
    a string and a [lower] that maps the VLOOKUP answer as it maps ASCII
    text, the answer has exactly twenty words, the sub-scores are 9, 1, 2
    and 0, the score is 3.0, and the strengths list has three entries. *)
Theorem vlookup_scenario q text :
  get_default q (lit "question") (JStr []) = JStr text ->
  lower vlookup_answer = ascii_lower vlookup_answer ->
  let e := _ai_evaluate_response q vlookup_answer CORE_SKILLS in
  let l := scored vlookup_answer CORE_SKILLS in
  word_count vlookup_answer = 20
  /\ (Locals.technical_accuracy l, Locals.completeness l,
      Locals.clarity l, Locals.excel_knowledge l) = (9, 1, 2, 0)
  /\ Evaluation.score e = float_of_Z 3
  /\ Evaluation.strengths e
     = [ lit "Demonstrates knowledge of Excel functions";
         lit "Shows understanding of data analysis tools";
         lit "Provides examples" ]
  /\ Evaluation.strengths e <> [].
Proof.
  intros Text Lower. cbv zeta.
  destruct (scorer_cases q vlookup_answer CORE_SKILLS)
    as [(text' & _ & _ & Same) | (NoText & _)];
    [| destruct (NoText text Text)].
  rewrite Same. unfold scored. rewrite Lower.
  repeat split; try (vm_compute; reflexivity).
  vm_compute. discriminate.
Qed.

(** C7: a call either returns what the advanced body returns, or that
    body raises, the rule-based body it hands over to raises as well, and
    the result is the fixed neutral evaluation, whose score is 5.0 and
    whose text is generic; no exception leaves the scorer. *)
Theorem scorer_never_fails q r p :
  (exists e,
      _ai_evaluate_body q r p = Ok e /\ _ai_evaluate_response q r p = e)
  \/ (exists x,
         _ai_evaluate_body q r p = Raise x
         /\ _rule_based_evaluate_body q r p = Raise x
         /\ _ai_evaluate_response q r p = neutral_evaluation
         /\ Evaluation.score (_ai_evaluate_response q r p) = float_of_Z 5
         /\ Evaluation.reasoning (_ai_evaluate_response q r p)
            = lit "Basic response evaluation").
Proof.
  destruct (scorer_cases q r p)
    as [(text & _ & Body & Same) | (_ & Body & Basic & Neutral)].
  - left. eauto.
  - right. exists AttributeError. rewrite Neutral.
    repeat split; assumption.
Qed.
End ScorerClaims.

(* ================================================================== *)
(** ** Properties of the question bank and of the report *)
(* ================================================================== *)

Lemma organize_one_object organized d :
  exists organized', organize_one organized (JDict d) = Ok organized'.
Proof.
  unfold organize_one. cbn.
  split_ifs; eauto.
Qed.

Lemma organize_raises qs : forall organized,
  existsb (fun q => negb (is_object q)) qs = true ->
  exists e, organize organized qs = Raise e.
Proof.
  induction qs as [| q rest IH]; intros organized Bad; [discriminate |].
  cbn in Bad. apply orb_true_iff in Bad.
  destruct q; try (cbn; eauto; fail).
  destruct Bad as [Bad | Bad]; [discriminate |].
  destruct (organize_one_object organized d) as (organized' & Step).
  cbn [organize]. rewrite Step. cbn. apply IH, Bad.
Qed.

(** C3, as the code has it: when the document is absent, is not valid
    JSON, is not an object, or lists an entry that is not an object, the
    bank is the built-in set, which has six questions in the four
    non-greeting phases: two for warmup, two for core_skills, one for
    scenario_based and one for troubleshooting. *)
Theorem fallback_question_bank :
  _load_question_bank Absent = _get_fallback_questions
  /\ _load_question_bank Unparsable = _get_fallback_questions
  /\ (forall data,
        is_object data = false ->
        _load_question_bank (Parsed data) = _get_fallback_questions)
  /\ (forall d qs,
        dict_get (lit "questions") d = Some (JList qs) ->
        existsb (fun q => negb (is_object q)) qs = true ->
        _load_question_bank (Parsed (JDict d)) = _get_fallback_questions)
  /\ bank_sizes _get_fallback_questions
     = [ (lit "warmup", 2%nat); (lit "core_skills", 2%nat);
         (lit "scenario_based", 1%nat); (lit "troubleshooting", 1%nat) ].
Proof.
  repeat split.
  - intros data NotObject. destruct data; try discriminate; reflexivity.
  - intros d qs Listed Bad.
    unfold _load_question_bank. cbn.
    unfold get_default. rewrite Listed. cbn.
    destruct (organize_raises qs
                [ (lit "warmup", []); (lit "core_skills", []);
                  (lit "scenario_based", []); (lit "troubleshooting", []) ]
                Bad) as (e & Raised).
    rewrite Raised. reflexivity.
Qed.

Lemma no_evaluation_model_url self :
  getattr self (lit "evaluation_model_url") = Raise AttributeError.
Proof. reflexivity. Qed.

(** C9: the instance has no attribute [evaluation_model_url], so the
    report of [_generate_ai_final_report] is the text of
    [_generate_fallback_report] on the average, the per-phase scores and
    the number of evaluations, whatever the session and whatever the
    outside world would have answered. *)
Theorem final_report_is_fallback `{Runtime} self state avg_score phase_scores :
  getattr self (lit "evaluation_model_url") = Raise AttributeError
  /\ _generate_ai_final_report self state avg_score phase_scores
     = _generate_fallback_report avg_score phase_scores
         (len (evaluation_scores state)).
Proof.
  split; [reflexivity |].
  unfold _generate_ai_final_report, _generate_ai_final_body.
  destruct (summarize [] (last_n 10 (conversation_history state)));
    cbn [Py.bind try_except]; [| reflexivity].
  rewrite no_evaluation_model_url. reflexivity.
Qed.

(* ================================================================== *)
(** ** Properties of the driver *)
(* ================================================================== *)

Section Keeps.
Variable R : InterviewState -> InterviewState -> Prop.
Hypothesis R_refl : forall s, R s s.
Hypothesis R_trans : forall s1 s2 s3, R s1 s2 -> R s2 s3 -> R s1 s3.

Lemma keeps_seq {A B} (m : M.t A) (k : M.t B) :
  keeps R m -> keeps R k -> keeps R (m >> k).
Proof.
  intros Hm Hk s. specialize (Hm s). run.
  destruct (m s) as [[a | e] s1]; cbn in *.
  - eapply R_trans; [exact Hm | apply Hk].
  - exact Hm.
Qed.

Lemma keeps_ret {A} (a : A) : keeps R (M.ret a).
Proof. intros s. apply R_refl. Qed.
End Keeps.

Lemma nondecreasing_app tags1 tags2 :
  nondecreasing tags1 ->
  nondecreasing tags2 ->
  (forall p q, In p tags1 -> In q tags2 -> (rank p <= rank q)%nat) ->
  nondecreasing (tags1 ++ tags2).
Proof.
  induction tags1 as [| p rest IH]; intros S1 S2 Cross; [exact S2 |].
  destruct S1 as [Head Tail]. cbn. split.
  - apply Forall_app. split; [exact Head |].
    apply Forall_forall. intros q Hq. apply Cross; [left; reflexivity | exact Hq].
  - apply IH; auto. intros p' q Hp Hq. apply Cross; [right |]; assumption.
Qed.

Lemma advances_refl s : advances s s.
Proof.
  exists []. rewrite app_nil_r. split; [reflexivity |].
  intros NotSeventh. repeat split; auto; constructor.
Qed.

Lemma advances_trans s1 s2 s3 :
  advances s1 s2 -> advances s2 s3 -> advances s1 s3.
Proof.
  intros (a1 & H1 & M1) (a2 & H2 & M2).
  exists (a1 ++ a2). split; [rewrite H2, H1, app_assoc; reflexivity |].
  intros N1.
  destruct (M1 N1) as (N2 & R12 & S1 & B1).
  destruct (M2 N2) as (N3 & R23 & S2 & B2).
  rewrite Forall_forall in B1, B2.
  repeat split; [exact N3 | lia | |].
  - rewrite map_app. apply nondecreasing_app; auto.
    intros p q Hp Hq.
    apply in_map_iff in Hp. destruct Hp as (m1 & <- & In1).
    apply in_map_iff in Hq. destruct Hq as (m2 & <- & In2).
    specialize (B1 m1 In1). specialize (B2 m2 In2). lia.
  - apply Forall_app. split; apply Forall_forall; intros msg Hin.
    + specialize (B1 msg Hin). lia.
    + specialize (B2 msg Hin). lia.
Qed.

Lemma adv_append s s1 msg :
  advances s s1 -> phase msg = current_phase s1 ->
  advances s (append_message msg s1).
Proof.
  intros Adv Tag. eapply advances_trans; [exact Adv |].
  exists [msg]. split; [reflexivity |].
  intros N. cbn.
  repeat split; auto; repeat constructor; rewrite Tag; lia.
Qed.

Lemma adv_question s s1 q :
  advances s s1 -> advances s (set_current_question q s1).
Proof.
  intros Adv. eapply advances_trans; [exact Adv |].
  exists []. cbn. rewrite app_nil_r. split; [reflexivity |].
  intros N. repeat split; auto; constructor.
Qed.

Lemma adv_score s s1 entry :
  advances s s1 -> advances s (append_score entry s1).
Proof.
  intros Adv. eapply advances_trans; [exact Adv |].
  exists []. cbn. rewrite app_nil_r. split; [reflexivity |].
  intros N. repeat split; auto; constructor.
Qed.

Lemma adv_phase s s1 p :
  advances s s1 ->
  (current_phase s1 <> FEEDBACK ->
   p <> FEEDBACK /\ (rank (current_phase s1) <= rank p)%nat) ->
  advances s (set_current_phase p s1).
Proof.
  intros Adv Up. eapply advances_trans; [exact Adv |].
  exists []. cbn. rewrite app_nil_r. split; [reflexivity |].
  intros N. destruct (Up N). repeat split; auto; constructor.
Qed.

Lemma transition_rank self s :
  current_phase s <> FEEDBACK ->
  _transition_to_next_phase self s <> FEEDBACK
  /\ (rank (current_phase s) <= rank (_transition_to_next_phase self s))%nat.
Proof.
  intros N. unfold _transition_to_next_phase.
  destruct (_ && _); [| auto].
  destruct (current_phase s); cbn; split; try discriminate; try lia.
  contradiction.
Qed.

Lemma to_wrapup_rank s :
  current_phase s <> FEEDBACK ->
  WRAPUP <> FEEDBACK /\ (rank (current_phase s) <= rank WRAPUP)%nat.
Proof.
  intros N. split; [discriminate |].
  destruct (current_phase s); cbn; try lia. contradiction.
Qed.

Section DriverSteps.
Context `{Runtime}.
Variable self : ExcelInterviewAgent.
Variable now : nat -> datetime.

Lemma record_response_advances response :
  keeps advances (record_response now response).
Proof.
  intros s. unfold record_response. run.
  apply adv_append; [apply advances_refl | reflexivity].
Qed.

Lemma evaluate_pending_advances response :
  keeps advances (evaluate_pending response).
Proof.
  intros s. unfold evaluate_pending. run.
  destruct (current_question s) as [q |]; [| apply advances_refl].
  destruct (truthy_question (Some q)); [| apply advances_refl].
  destruct (getitem q (lit "id")); [| apply advances_refl].
  apply adv_question, adv_score, advances_refl.
Qed.

Lemma ask_next_advances : keeps advances (ask_next self now).
Proof.
  intros s. unfold ask_next. run.
  destruct (negb (phase_eqb (current_phase s) WRAPUP));
    [| apply advances_refl].
  assert (First : advances s
            (if phase_eqb (current_phase s) GREETING
             then set_current_phase WARMUP s else s)).
  { destruct (current_phase s) eqn:P; cbn; try apply advances_refl.
    apply adv_phase; [apply advances_refl |].
    rewrite P. cbn. split; [discriminate | lia]. }
  destruct (phase_eqb (current_phase s) GREETING); run;
    match goal with
    | |- context [_get_next_question self ?s1] =>
        destruct (_get_next_question self s1) as [q |]; [| exact First];
        destruct (truthy_question (Some q)); [| exact First];
        destruct (getitem q (lit "question"));
          [| apply adv_question, First];
        destruct (getitem q (lit "id"));
          [| apply adv_question, First];
        apply adv_append; [apply adv_question, First | reflexivity]
    end.
Qed.

Lemma check_transition_advances : keeps advances (check_transition self).
Proof.
  intros s. unfold check_transition. run.
  destruct (total_questions (conversation_history s) >=? 18).
  - destruct (current_question s); [apply advances_refl |].
    apply adv_phase; [apply advances_refl | apply to_wrapup_rank].
  - destruct (negb _); [| apply advances_refl].
    apply adv_phase; [apply advances_refl | apply transition_rank].
Qed.

Lemma show_evaluation_advances : keeps advances (show_evaluation self now).
Proof.
  intros s. unfold show_evaluation. run.
  destruct (phase_eqb (current_phase s) WRAPUP) eqn:P;
    [| apply advances_refl].
  apply adv_append; [apply advances_refl |].
  destruct (current_phase s); try discriminate. reflexivity.
Qed.

Lemma phase_check_advances : keeps advances (phase_check self now).
Proof.
  intros s. unfold phase_check.
  change (advances s
            (snd ((if negb (phase_eqb (current_phase s) GREETING)
                   then check_transition self >> show_evaluation self now
                   else M.ret tt) s))).
  destruct (negb _); [| apply advances_refl].
  apply (keeps_seq advances advances_trans);
    [apply check_transition_advances | apply show_evaluation_advances].
Qed.

Lemma process_advances response :
  keeps advances (process_candidate_response self now response).
Proof.
  unfold process_candidate_response, before_check.
  repeat apply (keeps_seq advances advances_trans).
  - apply record_response_advances.
  - apply evaluate_pending_advances.
  - apply ask_next_advances.
  - apply phase_check_advances.
Qed.
End DriverSteps.

Lemma advances_ordered s s' : ordered s -> advances s s' -> ordered s'.
Proof.
  intros (N & Sorted & Below) (added & Hist & Mono).
  destruct (Mono N) as (N' & Up & SortedAdded & Between).
  rewrite Forall_forall in Below, Between.
  unfold ordered. rewrite Hist. repeat split; [exact N' | |].
  - rewrite map_app. apply nondecreasing_app; auto.
    intros p q Hp Hq.
    apply in_map_iff in Hp. destruct Hp as (m1 & <- & In1).
    apply in_map_iff in Hq. destruct Hq as (m2 & <- & In2).
    specialize (Below m1 In1). specialize (Between m2 In2). lia.
  - apply Forall_app. split; apply Forall_forall; intros msg Hin.
    + specialize (Below msg Hin). lia.
    + specialize (Between msg Hin). lia.
Qed.

Lemma advances_before_wrapup s s' :
  advances s s' ->
  current_phase s <> FEEDBACK ->
  current_phase s' <> WRAPUP ->
  before_wrapup s -> before_wrapup s'.
Proof.
  intros (added & Hist & Mono) N NotWrap (_ & Clean).
  destruct (Mono N) as (N' & _ & _ & Between).
  split; [exact NotWrap |].
  rewrite Hist. apply Forall_app. split; [exact Clean |].
  eapply Forall_impl; [| exact Between].
  intros msg [_ Le] Tag. rewrite Tag in Le.
  destruct (current_phase s'); cbn in Le; try lia; contradiction.
Qed.

Lemma no_wrapup_no_reports history :
  Forall (fun msg => phase msg <> WRAPUP) history -> reports history = 0%nat.
Proof.
  unfold reports. induction 1 as [| msg rest Tag _ IH]; [reflexivity |].
  cbn. unfold is_report at 1.
  destruct (phase msg); try contradiction; cbn;
    rewrite andb_false_r; exact IH.
Qed.

Lemma reports_app h1 h2 : reports (h1 ++ h2) = (reports h1 + reports h2)%nat.
Proof. unfold reports. rewrite filter_app, length_app. reflexivity. Qed.

Lemma settled_reports s :
  settled s ->
  (reports (conversation_history s) <= 1)%nat
  /\ (reports (conversation_history s) = 1%nat <-> current_phase s = WRAPUP)
  /\ (current_phase s = WRAPUP ->
      exists history report,
        conversation_history s = history ++ [report]
        /\ is_report report = true
        /\ reports history = 0%nat).
Proof.
  intros [(NotWrap & Clean) | (Wrap & history & report & Hist & Rep & Clean)].
  - rewrite (no_wrapup_no_reports _ Clean).
    repeat split; try lia; try discriminate; contradiction.
  - assert (One : reports (conversation_history s) = 1%nat).
    { rewrite Hist, reports_app, (no_wrapup_no_reports _ Clean).
      unfold reports. cbn. rewrite Rep. reflexivity. }
    rewrite One. repeat split; auto.
    intros _. exists history, report.
    repeat split; auto using no_wrapup_no_reports.
Qed.

Lemma seq_ok {A B} (m : M.t A) (k : M.t B) s b s2 :
  (m >> k) s = (Ok b, s2) ->
  exists a s1, m s = (Ok a, s1) /\ k s1 = (Ok b, s2).
Proof.
  run. destruct (m s) as [[a | e] s1]; [eauto | discriminate].
Qed.

Lemma seq_snd {A B} (m : M.t A) (k : M.t B) s :
  snd ((m >> k) s)
  = match m s with
    | (Ok _, s1) => snd (k s1)
    | (Raise _, s1) => s1
    end.
Proof. run. destruct (m s) as [[a | e] s1]; reflexivity. Qed.

Lemma phase_kept_trans s1 s2 s3 :
  phase_kept s1 s2 -> phase_kept s2 s3 -> phase_kept s1 s3.
Proof.
  unfold phase_kept.
  intros [E1 | [G1 W1]] [E2 | [G2 W2]].
  - left. congruence.
  - right. split; congruence.
  - right. split; congruence.
  - congruence.
Qed.

Section DriverFacts.
Context `{Runtime}.
Variable self : ExcelInterviewAgent.

Lemma before_check_phase now response :
  keeps phase_kept (before_check self now response).
Proof.
  assert (Refl : forall s, phase_kept s s) by (left; reflexivity).
  unfold before_check.
  repeat apply (keeps_seq phase_kept phase_kept_trans).
  - intros s. left. reflexivity.
  - intros s. unfold evaluate_pending. run.
    destruct (current_question s) as [q |]; [| apply Refl].
    destruct (truthy_question (Some q)); [| apply Refl].
    destruct (getitem q (lit "id")); left; reflexivity.
  - intros s. unfold ask_next. run.
    destruct (negb (phase_eqb (current_phase s) WRAPUP)); [| apply Refl].
    assert (First : phase_kept s
              (if phase_eqb (current_phase s) GREETING
               then set_current_phase WARMUP s else s)).
    { destruct (current_phase s) eqn:P; cbn; try apply Refl.
      right. split; [exact P | reflexivity]. }
    destruct (phase_eqb (current_phase s) GREETING); run;
      match goal with
      | |- context [_get_next_question self ?s1] =>
          destruct (_get_next_question self s1) as [q |]; [| exact First];
          destruct (truthy_question (Some q)); [| exact First];
          destruct (getitem q (lit "question")); [| exact First];
          destruct (getitem q (lit "id")); exact First
      end.
Qed.

Lemma ask_next_not_greeting now s :
  current_phase (snd (ask_next self now s)) <> GREETING.
Proof.
  unfold ask_next. run.
  destruct (current_phase s) eqn:P; cbn; try (rewrite P; discriminate);
    match goal with
    | |- context [_get_next_question self ?s1] =>
        destruct (_get_next_question self s1) as [q |];
          [| cbn; try rewrite P; discriminate];
        destruct (truthy_question (Some q));
          [| cbn; try rewrite P; discriminate];
        destruct (getitem q (lit "question"));
          [| cbn; try rewrite P; discriminate];
        destruct (getitem q (lit "id")); cbn; try rewrite P; discriminate
    end.
Qed.

Lemma check_transition_ok s :
  exists s',
    check_transition self s = (Ok tt, s')
    /\ conversation_history s' = conversation_history s.
Proof.
  unfold check_transition. run.
  destruct (total_questions (conversation_history s) >=? 18).
  - destruct (current_question s); eauto.
  - destruct (negb _); eauto.
Qed.

Lemma show_evaluation_settles now s :
  Forall (fun msg => phase msg <> WRAPUP) (conversation_history s) ->
  fst (show_evaluation self now s) = Ok tt
  /\ settled (snd (show_evaluation self now s)).
Proof.
  intros Clean. unfold show_evaluation. run.
  destruct (phase_eqb (current_phase s) WRAPUP) eqn:P; split; try reflexivity.
  - right. split.
    + change (current_phase s = WRAPUP).
      destruct (current_phase s); try discriminate. reflexivity.
    + exists (conversation_history s). eexists.
      split; [reflexivity |]. split; [reflexivity | exact Clean].
  - left. split; [| exact Clean].
    intros Wrap. rewrite Wrap in P. discriminate.
Qed.

Lemma phase_check_settles now s :
  before_wrapup s ->
  fst (phase_check self now s) = Ok tt
  /\ settled (snd (phase_check self now s)).
Proof.
  intros BW. unfold phase_check.
  change ((fun r : Res unit * InterviewState =>
             fst r = Ok tt /\ settled (snd r))
            ((if negb (phase_eqb (current_phase s) GREETING)
              then check_transition self >> show_evaluation self now
              else M.ret tt) s)).
  destruct (negb _); [| split; [reflexivity | left; exact BW]].
  destruct (check_transition_ok s) as (s' & Check & Same).
  run. rewrite Check.
  apply show_evaluation_settles. rewrite Same. apply BW.
Qed.

Lemma after_call_settles now response s :
  current_phase s <> FEEDBACK ->
  before_wrapup s ->
  settled (after_call self now response s).
Proof.
  intros N BW.
  unfold after_call, process_candidate_response. rewrite seq_snd.
  pose proof (before_check_phase now response s) as Kept.
  assert (Adv : advances s (snd (before_check self now response s))).
  { unfold before_check.
    repeat apply (keeps_seq advances advances_trans).
    - apply record_response_advances.
    - apply evaluate_pending_advances.
    - apply ask_next_advances. }
  destruct (before_check self now response s) as [[u | e] s1]; cbn in *.
  - apply phase_check_settles.
    apply (advances_before_wrapup s); auto.
    destruct BW as [NotWrap _].
    destruct Kept as [Same | [_ Warm]]; [rewrite Same; exact NotWrap |].
    rewrite Warm. discriminate.
  - left. apply (advances_before_wrapup s); auto.
    destruct BW as [NotWrap _].
    destruct Kept as [Same | [_ Warm]]; [rewrite Same; exact NotWrap |].
    rewrite Warm. discriminate.
Qed.

Lemma start_ordered now name s :
  start_interview now name = Some s -> ordered s /\ before_wrapup s.
Proof.
  unfold start_interview.
  destruct (strip name); [discriminate |].
  intros [= <-]. unfold ordered, before_wrapup. cbn.
  repeat split; try discriminate; repeat constructor; discriminate.
Qed.

Lemma reachable_ordered s : reachable self s -> ordered s.
Proof.
  induction 1 as [name started | now name s Start | now response s _ IH
                 | s _ IH].
  - unfold ordered. cbn. repeat split; [discriminate | constructor].
  - apply (start_ordered now name s Start).
  - apply (advances_ordered s); [exact IH |].
    apply process_advances.
  - apply (advances_ordered s); [exact IH |].
    apply adv_phase; [apply advances_refl | apply transition_rank].
Qed.

Lemma outside_wrapup_reachable s : outside_wrapup self s -> reachable self s.
Proof.
  induction 1 as [name started | now name s Start | now response s _ IH _].
  - apply reach_new.
  - apply (reach_start self now name s Start).
  - apply reach_call, IH.
Qed.

Lemma outside_wrapup_settled s : outside_wrapup self s -> settled s.
Proof.
  induction 1 as [name started | now name s Start
                  | now response s Outside IH NotWrapup].
  - left. split; [discriminate | constructor].
  - left. apply (start_ordered now name s Start).
  - apply after_call_settles.
    + apply reachable_ordered, outside_wrapup_reachable, Outside.
    + destruct IH as [BW | [Wrap _]]; [exact BW | contradiction].
Qed.
End DriverFacts.

Section DriverClaims.
Context `{Runtime}.
Variable self : ExcelInterviewAgent.

Lemma reachable_calls clicks : forall s,
  reachable self s -> reachable self (calls self clicks s).
Proof.
  induction clicks as [| [now response] rest IH]; intros s Reach;
    [exact Reach |].
  cbn [calls]. apply IH, reach_call, Reach.
Qed.

(** C2: when, at the phase-transition check of a call, eighteen or more
    interviewer messages outside the greeting are in the transcript and
    no question is pending, the call returns with the session in
    wrapup, whatever the per-phase counts are. *)
Theorem override_forces_wrapup now response s s1 :
  before_check self now response s = (Ok tt, s1) ->
  18 <= total_questions (conversation_history s1) ->
  current_question s1 = None ->
  exists s2,
    process_candidate_response self now response s = (Ok tt, s2)
    /\ current_phase s2 = WRAPUP
    /\ current_phase (after_call self now response s) = WRAPUP.
Proof.
  intros Before Count Pending.
  assert (NotGreeting : current_phase s1 <> GREETING).
  { unfold before_check in Before.
    apply seq_ok in Before. destruct Before as (u1 & s' & _ & Before).
    apply seq_ok in Before. destruct Before as (u2 & s'' & _ & Ask).
    pose proof (ask_next_not_greeting self now s'') as Phase.
    rewrite Ask in Phase. exact Phase. }
  apply Z.geb_le in Count.
  assert (Check : phase_check self now s1
                  = (Ok tt,
                     snd (show_evaluation self now
                            (set_current_phase WRAPUP s1)))
                    /\ current_phase
                         (snd (show_evaluation self now
                                 (set_current_phase WRAPUP s1)))
                       = WRAPUP).
  { unfold phase_check, check_transition, show_evaluation. run.
    destruct (current_phase s1) eqn:P; try contradiction; cbn;
      rewrite Count, Pending; cbn; split; reflexivity. }
  destruct Check as [Check Phase].
  unfold after_call, process_candidate_response.
  cbv beta iota delta [M.bind]. rewrite Before, Check.
  eexists. repeat split; exact Phase.
Qed.

(** X15.  A call only adds messages at the end of the transcript, whether
    it returns or raises, and the phase tags of the transcript of a
    reachable session never go down in the order greeting, warmup,
    core_skills, scenario_based, troubleshooting, wrapup, none of them
    being the seventh value of the enumeration. *)
Theorem transcript_append_only_and_ordered s :
  reachable self s ->
  nondecreasing (map phase (conversation_history s))
  /\ Forall (fun msg => In (phase msg) six_phases) (conversation_history s)
  /\ forall now response,
       exists added,
         conversation_history (after_call self now response s)
         = conversation_history s ++ added.
Proof.
  intros Reach.
  destruct (reachable_ordered self s Reach) as (N & Sorted & Below).
  repeat split; [exact Sorted | |].
  - eapply Forall_impl; [| exact Below].
    intros msg Le. cbv beta in Le. unfold six_phases.
    destruct (phase msg); cbn; auto 7.
    destruct (current_phase s); cbn in Le; try lia. contradiction.
  - intros now response.
    destruct (process_advances self now response s) as (added & Hist & _).
    exists added. exact Hist.
Qed.

(** C10: the phase of a reachable session is one of greeting, warmup,
    core_skills, scenario_based, troubleshooting and wrapup, never the
    seventh value of the enumeration; and from wrapup both
    [_transition_to_next_phase] and a call give wrapup again. *)
Theorem phases_of_reachable s :
  reachable self s ->
  In (current_phase s) six_phases
  /\ current_phase s <> FEEDBACK
  /\ (current_phase s = WRAPUP ->
      _transition_to_next_phase self s = WRAPUP
      /\ forall now response,
           current_phase (after_call self now response s) = WRAPUP).
Proof.
  intros Reach.
  destruct (reachable_ordered self s Reach) as (N & _ & _).
  split; [| split; [exact N |]].
  - unfold six_phases. destruct (current_phase s); cbn; auto 7.
    contradiction.
  - intros Wrap. split.
    + unfold _transition_to_next_phase. rewrite Wrap.
      destruct (_ && _); reflexivity.
    + intros now response.
      destruct (process_advances self now response s) as (added & _ & Mono).
      destruct (Mono N) as (N' & Up & _).
      fold (after_call self now response s) in N', Up.
      rewrite Wrap in Up.
      destruct (current_phase (after_call self now response s));
        cbn in Up; try lia; [reflexivity | contradiction].
Qed.
End DriverClaims.

(** X1.  While [process_candidate_response] is called only on sessions
    that are not in wrapup, the transcript holds no report before wrapup
    and exactly one in wrapup, which is its last message: the call that
    enters wrapup appends it. *)
Theorem report_once_outside_wrapup `{Runtime} self s :
  outside_wrapup self s ->
  reports (conversation_history s)
  = (if phase_eqb (current_phase s) WRAPUP then 1 else 0)%nat
  /\ (current_phase s = WRAPUP ->
      exists history report,
        conversation_history s = history ++ [report]
        /\ is_report report = true
        /\ reports history = 0%nat).
Proof.
  intros Outside.
  destruct (settled_reports s (outside_wrapup_settled self s Outside))
    as (AtMost & One & Last).
  split; [| exact Last].
  destruct (current_phase s) eqn:P; cbn;
    try (apply One; reflexivity);
    destruct (reports (conversation_history s)) as [| [| n]]; try lia;
    try reflexivity;
    destruct One as [One _]; specialize (One eq_refl); discriminate.
Qed.

(* ================================================================== *)
(** ** The properties at concrete inputs *)
(* ================================================================== *)

(** The VLOOKUP answer is scored 3.0 by the formula of C1. *)
Lemma ai_score_at_vlookup :
  (PrimFloat.leb (float_of_Z 1)
     (Evaluation.score
        (_ai_evaluate_response (H := ascii_runtime) vlookup_question
           vlookup_answer CORE_SKILLS)) = true
   /\ PrimFloat.leb
        (Evaluation.score
           (_ai_evaluate_response (H := ascii_runtime) vlookup_question
              vlookup_answer CORE_SKILLS))
        (float_of_Z 10) = true)
  /\ Evaluation.score
       (_ai_evaluate_response (H := ascii_runtime) vlookup_question
          vlookup_answer CORE_SKILLS)
     = score_of_sum 12.
Proof.
  destruct (ai_score_range_and_formula (H := ascii_runtime) vlookup_question
              vlookup_answer CORE_SKILLS) as (Range & Formula & _).
  split; [exact Range |].
  rewrite (Formula _ eq_refl). vm_compute. reflexivity.
Defined.

(** Against C1 as stated: for a question whose text is a number the
    score is 5.0, while the four sub-scores of the answer add up to 12 and
    the formula gives 3.0. *)
Lemma numbered_question_scores_five :
  Evaluation.score
    (_ai_evaluate_response (H := ascii_runtime) numbered_question
       vlookup_answer CORE_SKILLS) = float_of_Z 5
  /\ score_of_sum
       (Locals.technical_accuracy
          (scored (H := ascii_runtime) vlookup_answer CORE_SKILLS)
        + Locals.completeness
            (scored (H := ascii_runtime) vlookup_answer CORE_SKILLS)
        + Locals.clarity
            (scored (H := ascii_runtime) vlookup_answer CORE_SKILLS)
        + Locals.excel_knowledge
            (scored (H := ascii_runtime) vlookup_answer CORE_SKILLS))
     = float_of_Z 3
  /\ PrimFloat.eqb
       (Evaluation.score
          (_ai_evaluate_response (H := ascii_runtime) numbered_question
             vlookup_answer CORE_SKILLS))
       (score_of_sum
          (Locals.technical_accuracy
             (scored (H := ascii_runtime) vlookup_answer CORE_SKILLS)
           + Locals.completeness
               (scored (H := ascii_runtime) vlookup_answer CORE_SKILLS)
           + Locals.clarity
               (scored (H := ascii_runtime) vlookup_answer CORE_SKILLS)
           + Locals.excel_knowledge
               (scored (H := ascii_runtime) vlookup_answer CORE_SKILLS)))
     = false.
Proof. repeat split; vm_compute; reflexivity. Qed.

(** A question whose text is a number gets the neutral evaluation. *)
Example numbered_question_is_neutral :
  _ai_evaluate_body (H := ascii_runtime) numbered_question vlookup_answer
    CORE_SKILLS = Raise AttributeError
  /\ _ai_evaluate_response (H := ascii_runtime) numbered_question
       vlookup_answer CORE_SKILLS = neutral_evaluation.
Proof. split; reflexivity. Qed.

(** Against C3 as stated: with the document absent the bank holds six
    questions, two of them for warmup, not four with one per phase. *)
Lemma absent_bank_has_six_questions :
  List.length (List.concat (map snd (_load_question_bank Absent))) = 6%nat
  /\ List.length (get_default (_load_question_bank Absent) (lit "warmup") [])
     = 2%nat
  /\ List.length
       (get_default (_load_question_bank Absent) (lit "core_skills") [])
     = 2%nat.
Proof. repeat split. Qed.

(** A document whose entries include a number. *)
Lemma fallback_question_bank_at_number :
  _load_question_bank
    (Parsed (JDict [ (lit "questions", JList [warmup_entry 1; JInt 7]) ]))
  = _get_fallback_questions.
Proof.
  destruct fallback_question_bank as (_ & _ & _ & Entries & _).
  apply (Entries _ [warmup_entry 1; JInt 7]); reflexivity.
Defined.

(** Against C4 as stated: an answer of exactly twenty words is in the
    range 20 to 50 and its completeness sub-score is 1, not 2. *)
Lemma twenty_words_score_one :
  word_count vlookup_answer = 20
  /\ Locals.completeness (scored (H := ascii_runtime) vlookup_answer CORE_SKILLS)
     = 1
  /\ In more_detail
       (Locals.areas_for_improvement
          (scored (H := ascii_runtime) vlookup_answer CORE_SKILLS)).
Proof. repeat split. left. reflexivity. Qed.

Lemma completeness_thresholds_at_vlookup :
  Locals.completeness (scored (H := ascii_runtime) vlookup_answer CORE_SKILLS) = 1
  /\ In more_detail
       (Evaluation.areas_for_improvement
          (_ai_evaluate_response (H := ascii_runtime) vlookup_question
             vlookup_answer CORE_SKILLS)).
Proof.
  destruct (completeness_thresholds (H := ascii_runtime) vlookup_answer
              CORE_SKILLS) as (_ & _ & One & _ & Returned).
  assert (Words : word_count vlookup_answer <= 20) by (vm_compute; discriminate).
  split; [exact (One Words) |].
  exact (Returned vlookup_question _ eq_refl Words).
Defined.

(** Against C5 as stated: the score of the VLOOKUP answer in core_skills
    is 3.0, which is below 7. *)
Lemma vlookup_score_is_three :
  Evaluation.score
    (_ai_evaluate_response (H := ascii_runtime) vlookup_question
       vlookup_answer CORE_SKILLS) = float_of_Z 3
  /\ PrimFloat.leb (float_of_Z 7)
       (Evaluation.score
          (_ai_evaluate_response (H := ascii_runtime) vlookup_question
             vlookup_answer CORE_SKILLS)) = false.
Proof. split; vm_compute; reflexivity. Qed.

Lemma vlookup_scenario_at_c1 :
  word_count vlookup_answer = 20
  /\ (Locals.technical_accuracy
        (scored (H := ascii_runtime) vlookup_answer CORE_SKILLS),
      Locals.completeness
        (scored (H := ascii_runtime) vlookup_answer CORE_SKILLS),
      Locals.clarity (scored (H := ascii_runtime) vlookup_answer CORE_SKILLS),
      Locals.excel_knowledge
        (scored (H := ascii_runtime) vlookup_answer CORE_SKILLS))
     = (9, 1, 2, 0)
  /\ Evaluation.score
       (_ai_evaluate_response (H := ascii_runtime) vlookup_question
          vlookup_answer CORE_SKILLS) = float_of_Z 3
  /\ Evaluation.strengths
       (_ai_evaluate_response (H := ascii_runtime) vlookup_question
          vlookup_answer CORE_SKILLS)
     = [ lit "Demonstrates knowledge of Excel functions";
         lit "Shows understanding of data analysis tools";
         lit "Provides examples" ]
  /\ Evaluation.strengths
       (_ai_evaluate_response (H := ascii_runtime) vlookup_question
          vlookup_answer CORE_SKILLS) <> [].
Proof.
  exact (vlookup_scenario (H := ascii_runtime) vlookup_question _
           eq_refl eq_refl).
Defined.

Lemma ann_reachable : reachable (H := ascii_runtime) fallback_agent ann.
Proof. apply (reach_start _ noon (lit "Ann")). reflexivity. Qed.

Lemma wrapped_reachable : reachable (H := ascii_runtime) fallback_agent wrapped.
Proof. apply reachable_calls, ann_reachable. Qed.

Lemma wrapped_outside_wrapup :
  outside_wrapup (H := ascii_runtime) fallback_agent wrapped.
Proof.
  unfold wrapped, short_answer. cbn [repeat calls].
  repeat (apply outside_call; [| vm_compute; discriminate]).
  apply (outside_start _ noon (lit "Ann")). reflexivity.
Qed.

(** With eighteen warmup questions asked and answered, the per-phase rule
    would go to core_skills; the call goes to wrapup. *)
Lemma override_at_eighteen :
  _transition_to_next_phase eighteen_agent
    (snd (before_check (H := ascii_runtime) eighteen_agent noon
            (lit "I use sum.") asked_eighteen))
  = CORE_SKILLS
  /\ exists s2,
       process_candidate_response (H := ascii_runtime) eighteen_agent noon
         (lit "I use sum.") asked_eighteen = (Ok tt, s2)
       /\ current_phase s2 = WRAPUP
       /\ current_phase
            (after_call (H := ascii_runtime) eighteen_agent noon
               (lit "I use sum.") asked_eighteen) = WRAPUP.
Proof.
  split; [vm_compute; reflexivity |].
  apply (override_forces_wrapup (H := ascii_runtime) eighteen_agent noon
           (lit "I use sum.") asked_eighteen
           (snd (before_check (H := ascii_runtime) eighteen_agent noon
                   (lit "I use sum.") asked_eighteen))).
  - vm_compute. reflexivity.
  - vm_compute. discriminate.
  - vm_compute. reflexivity.
Defined.

(** C6: Ann's session is in wrapup, with its one report, after six
    answers; a seventh call of [process_candidate_response] on it appends
    a second report. *)
Theorem second_report_in_wrapup :
  current_phase wrapped = WRAPUP
  /\ reports (conversation_history wrapped) = 1%nat
  /\ reports
       (conversation_history
          (after_call (H := ascii_runtime) fallback_agent noon
             (lit "Thank you.") wrapped)) = 2%nat.
Proof. repeat split; vm_compute; reflexivity. Qed.

(** C8: Ann's session with the built-in bank is reachable by seven
    calls, and its transcript then ends report, answer, report: it holds
    two reports, and the first is followed by other messages. *)
Theorem two_reports_after_wrapup :
  reachable (H := ascii_runtime) fallback_agent
    (calls (H := ascii_runtime) fallback_agent (repeat short_answer 7) ann)
  /\ map is_report
       (skipn 13
          (conversation_history
             (calls (H := ascii_runtime) fallback_agent
                (repeat short_answer 7) ann)))
     = [true; false; true].
Proof.
  split; [| vm_compute; reflexivity].
  apply reachable_calls, ann_reachable.
Qed.

Lemma transcript_of_wrapped :
  nondecreasing (map phase (conversation_history wrapped))
  /\ Forall (fun msg => In (phase msg) six_phases)
       (conversation_history wrapped)
  /\ exists added,
       conversation_history
         (after_call (H := ascii_runtime) fallback_agent noon
            (lit "Thank you.") wrapped)
       = conversation_history wrapped ++ added.
Proof.
  destruct (transcript_append_only_and_ordered (H := ascii_runtime)
              fallback_agent wrapped wrapped_reachable)
    as (Sorted & Six & Appends).
  split; [exact Sorted |]. split; [exact Six | apply Appends].
Defined.

Lemma phases_of_wrapped :
  In (current_phase wrapped) six_phases
  /\ _transition_to_next_phase fallback_agent wrapped = WRAPUP
  /\ current_phase
       (after_call (H := ascii_runtime) fallback_agent noon
          (lit "Thank you.") wrapped) = WRAPUP.
Proof.
  destruct (phases_of_reachable (H := ascii_runtime) fallback_agent wrapped
              wrapped_reachable)
    as (Six & _ & Terminal).
  assert (Wrap : current_phase wrapped = WRAPUP) by (vm_compute; reflexivity).
  destruct (Terminal Wrap) as [Stay Call].
  split; [exact Six |]. split; [exact Stay | apply Call].
Defined.

Lemma report_once_at_wrapped :
  reports (conversation_history wrapped) = 1%nat.
Proof.
  rewrite (proj1 (report_once_outside_wrapup (H := ascii_runtime)
                    fallback_agent wrapped wrapped_outside_wrapup)).
  vm_compute. reflexivity.
Defined.

(* ================================================================== *)
(** ** Further properties of the scorers *)
(* ================================================================== *)

Section ScorerBounds.
Context `{Runtime}.

Lemma technical_reasoning rl l :
  Locals.reasoning (score_technical rl l) = Locals.reasoning l.
Proof. unfold score_technical. split_ifs; reflexivity. Qed.

Lemma completeness_reasoning r l :
  Locals.reasoning (score_completeness r l) = Locals.reasoning l.
Proof. unfold score_completeness. split_ifs; reflexivity. Qed.

Lemma clarity_reasoning r rl l :
  Locals.reasoning (score_clarity r rl l) = Locals.reasoning l.
Proof. unfold score_clarity. split_ifs; reflexivity. Qed.

Lemma excel_reasoning rl l :
  Locals.reasoning (score_excel rl l) = Locals.reasoning l.
Proof. unfold score_excel. split_ifs; reflexivity. Qed.

Lemma phase_reasoning p rl l :
  Locals.reasoning (score_phase p rl l) = Locals.reasoning l.
Proof. unfold score_phase. split_ifs; reflexivity. Qed.

Lemma scored_reasoning r p : Locals.reasoning (scored r p) = [].
Proof.
  unfold scored.
  rewrite phase_reasoning, excel_reasoning, clarity_reasoning,
    completeness_reasoning, technical_reasoning.
  reflexivity.
Qed.

Lemma sums_capped :
  forallb (fun k =>
             PrimFloat.leb (score_of_sum (Z.of_nat k)) (decimal 62 10)
             && negb (ge_int (final_of_sum (Z.of_nat k)) 8))
    (seq 0 26) = true.
Proof. vm_compute. reflexivity. Qed.

Lemma sum_capped n :
  0 <= n <= 25 ->
  PrimFloat.leb (score_of_sum n) (decimal 62 10) = true
  /\ ge_int (final_of_sum n) 8 = false.
Proof.
  intros Hn.
  pose proof sums_capped as All.
  rewrite forallb_forall in All.
  specialize (All (Z.to_nat n)).
  rewrite Z2Nat.id in All by lia.
  assert (Hin : In (Z.to_nat n) (seq 0 26)) by (apply in_seq; lia).
  apply All, andb_true_iff in Hin. destruct Hin as [Cap Band].
  split; [exact Cap |]. apply negb_true_iff, Band.
Qed.

(** The score of the advanced scorer never exceeds 6.2: the four
    sub-scores add up to 25 at most, 25 / 4 = 6.25 rounds to 6.2, and the
    neutral evaluation scores 5.0.  So the band of 8 and above is never
    reached and the reasoning is never the "Excellent response" sentence:
    it is one of the three other sentences or the neutral one. *)
Theorem advanced_score_capped q r p :
  PrimFloat.leb (Evaluation.score (_ai_evaluate_response q r p))
    (decimal 62 10) = true
  /\ In (Evaluation.reasoning (_ai_evaluate_response q r p))
       reachable_reasonings.
Proof.
  destruct (scorer_cases q r p)
    as [(text & _ & _ & Same) | (_ & _ & _ & Neutral)].
  - rewrite Same.
    pose proof (sum_of_subscores r p) as Sum. cbv zeta in Sum.
    destruct (sum_capped _ (conj (Z.le_trans 0 1 _ ltac:(lia) (proj1 Sum))
                              (proj2 Sum))) as [Cap Band].
    split; [rewrite returned_score; exact Cap |].
    unfold returned, score_reasoning.
    change (final_score (scored r p))
      with (final_of_sum
              (Locals.technical_accuracy (scored r p)
               + Locals.completeness (scored r p)
               + Locals.clarity (scored r p)
               + Locals.excel_knowledge (scored r p))).
    rewrite Band.
    unfold reachable_reasonings.
    split_ifs; cbn [Evaluation.reasoning Locals.reasoning
                      Locals.append_reasoning Locals.append_improvement];
      rewrite scored_reasoning; cbn [app join In]; auto 6.
  - rewrite Neutral. split; [vm_compute; reflexivity |].
    unfold reachable_reasonings. cbn [In]. auto 6.
Qed.

(** The score of the rule-based scorer's blocks. *)

Lemma quality_score r l :
  Basic.score (basic_quality r l)
  = (if quality_of r =? 1 then PrimFloat.add (Basic.score l) (float_of_Z 1)
     else if quality_of r =? 2 then PrimFloat.add (Basic.score l) (float_of_Z 2)
     else if quality_of r =? 3 then PrimFloat.add (Basic.score l) (float_of_Z 3)
     else Basic.score l).
Proof.
  unfold basic_quality, quality_of.
  destruct (len (strip r) <? 10); [reflexivity |].
  destruct (len (strip r) <? 30); [reflexivity |].
  destruct (len (strip r) >? 50); reflexivity.
Qed.

Lemma accuracy_score qt rl l :
  Basic.score (basic_accuracy qt rl l)
  = (if accurate_of qt rl
     then PrimFloat.add (Basic.score l) (float_of_Z 3)
     else Basic.score l).
Proof.
  unfold basic_accuracy, accurate_of, basic_topic.
  split_ifs; reflexivity.
Qed.

Lemma terms_score terms step cap note rl l :
  Basic.score (basic_terms terms step cap note rl l)
  = (if found terms rl >? 0
     then PrimFloat.add (Basic.score l)
            (Py.min (PrimFloat.mul (float_of_Z (found terms rl)) step) cap)
     else Basic.score l).
Proof. unfold basic_terms. split_ifs; reflexivity. Qed.

Lemma confidence_score rl l :
  Basic.score (basic_confidence rl l)
  = (if any_in confidence_phrases rl
     then PrimFloat.add (Basic.score l) (decimal 1 2)
     else Basic.score l).
Proof.
  unfold basic_confidence.
  change (any_in _ rl) with (any_in confidence_phrases rl).
  split_ifs; reflexivity.
Qed.

Lemma reasoning_score l : Basic.score (basic_reasoning l) = Basic.score l.
Proof. unfold basic_reasoning. split_ifs; reflexivity. Qed.

Lemma found_bounds terms rl : 0 <= found terms rl <= len terms.
Proof.
  unfold found, len. split; [apply Nat2Z.is_nonneg |].
  apply Nat2Z.inj_le, filter_length_le.
Qed.

Lemma quality_bounds r : 0 <= quality_of r <= 3.
Proof. unfold quality_of. split_ifs; lia. Qed.

(** What the rule-based body returns when the question's text is a
    string. *)
Lemma rule_based_score q r p text :
  get_default q (lit "question") (JStr []) = JStr text ->
  exists e,
    _rule_based_evaluate_body q r p = Ok e
    /\ Evaluation.score e
       = basic_final
           (basic_sum (quality_of r) (accurate_of (lower text) (lower r))
              (found basic_excel_terms (lower r))
              (found basic_technical_terms (lower r))
              (any_in confidence_phrases (lower r))).
Proof.
  intros Text. unfold _rule_based_evaluate_body. rewrite Text.
  cbn [lower_of Py.bind]. eexists. split; [reflexivity |].
  cbn [Evaluation.score Basic.score Basic.set_score].
  rewrite reasoning_score. cbn [Basic.score Basic.set_score].
  rewrite confidence_score, !terms_score, accuracy_score, quality_score.
  reflexivity.
Qed.

Lemma basic_cases_in_range :
  forallb (fun c =>
             match c with
             | (quality, accurate, excel, technical, confident) =>
                 in_range
                   (basic_final
                      (basic_sum quality accurate excel technical confident))
             end)
    basic_cases = true.
Proof. vm_compute. reflexivity. Qed.

Lemma basic_case_listed quality accurate excel technical confident :
  0 <= quality <= 3 -> 0 <= excel <= 7 -> 0 <= technical <= 6 ->
  In (quality, accurate, excel, technical, confident) basic_cases.
Proof.
  intros Hq He Ht. unfold basic_cases.
  apply in_flat_map. exists (Z.to_nat quality).
  split; [apply in_seq; lia |].
  apply in_flat_map. exists accurate.
  split; [destruct accurate; cbn; auto |].
  apply in_flat_map. exists (Z.to_nat excel).
  split; [apply in_seq; lia |].
  apply in_flat_map. exists (Z.to_nat technical).
  split; [apply in_seq; lia |].
  apply in_map_iff. exists confident.
  rewrite !Z2Nat.id by lia.
  split; [reflexivity | destruct confident; cbn; auto].
Qed.

(** The score of [_rule_based_evaluate_response] lies in [1, 10] for every
    question, answer and phase: the additions of its tests, clamped and
    rounded, over all the values the tests can take, and 5.0 from the
    [except] branch. *)
Theorem rule_based_score_in_range q r p :
  PrimFloat.leb (float_of_Z 1)
    (Evaluation.score (_rule_based_evaluate_response q r p)) = true
  /\ PrimFloat.leb (Evaluation.score (_rule_based_evaluate_response q r p))
       (float_of_Z 10) = true.
Proof.
  apply andb_true_iff.
  change (in_range (Evaluation.score (_rule_based_evaluate_response q r p))
          = true).
  unfold _rule_based_evaluate_response.
  destruct (scorer_cases q r p)
    as [(text & Text & _ & _) | (_ & _ & Raised & _)].
  - destruct (rule_based_score q r p text Text) as (e & Body & Score).
    rewrite Body. cbn [try_except]. rewrite Score.
    pose proof basic_cases_in_range as All.
    rewrite forallb_forall in All.
    apply (All (quality_of r, accurate_of (lower text) (lower r),
                found basic_excel_terms (lower r),
                found basic_technical_terms (lower r),
                any_in confidence_phrases (lower r))).
    apply basic_case_listed.
    + apply quality_bounds.
    + apply (found_bounds basic_excel_terms).
    + apply (found_bounds basic_technical_terms).
  - rewrite Raised. reflexivity.
Qed.
End ScorerBounds.

(* ================================================================== *)
(** ** Further properties of the question bank and of the grouping of
       scores *)
(* ================================================================== *)

Lemma str_eqb_eq a : forall b, str_eqb a b = true <-> a = b.
Proof.
  induction a as [| c a IH]; intros [| d b]; cbn; split;
    try discriminate; try reflexivity.
  - intros Both. apply andb_true_iff in Both. destruct Both as [Head Tail].
    apply N.eqb_eq in Head. apply IH in Tail. congruence.
  - intros [= -> ->]. rewrite N.eqb_refl. apply IH. reflexivity.
Qed.

Lemma str_eqb_refl a : str_eqb a a = true.
Proof. apply str_eqb_eq. reflexivity. Qed.

Lemma str_eqb_sym a b : str_eqb a b = str_eqb b a.
Proof.
  destruct (str_eqb a b) eqn:AB, (str_eqb b a) eqn:BA; try reflexivity.
  - apply str_eqb_eq in AB. subst. rewrite str_eqb_refl in BA. discriminate.
  - apply str_eqb_eq in BA. subst. rewrite str_eqb_refl in AB. discriminate.
Qed.

Lemma dict_get_set {V} k (v : V) k' : forall d,
  dict_get k' (dict_set k v d)
  = if str_eqb k' k then Some v else dict_get k' d.
Proof.
  induction d as [| [k'' v''] d IH]; cbn; [reflexivity |].
  destruct (str_eqb k k'') eqn:Here; cbn.
  - apply str_eqb_eq in Here. subst k''.
    destruct (str_eqb k' k); reflexivity.
  - rewrite IH.
    destruct (str_eqb k' k'') eqn:There, (str_eqb k' k) eqn:New;
      try reflexivity.
    apply str_eqb_eq in There, New. subst.
    rewrite str_eqb_refl in Here. discriminate.
Qed.

Lemma dict_set_keys {V} k (v : V) : forall d,
  map fst (dict_set k v d)
  = if existsb (str_eqb k) (map fst d) then map fst d else map fst d ++ [k].
Proof.
  induction d as [| [k'' v''] d IH]; cbn; [reflexivity |].
  destruct (str_eqb k k'') eqn:Here; cbn; [reflexivity |].
  rewrite IH. destruct (existsb _ _); reflexivity.
Qed.

Lemma json_is_unique v a b :
  json_is v a = true -> json_is v b = true -> a = b.
Proof.
  destruct v; cbn; try discriminate.
  intros A B. apply str_eqb_eq in A, B. congruence.
Qed.

Lemma sort_one a b x y entry :
  organize_one
    [ (lit "warmup", a); (lit "core_skills", b);
      (lit "scenario_based", x); (lit "troubleshooting", y) ]
    (JDict entry)
  = Ok [ (lit "warmup",
           a ++ filter (in_section (lit "warmup")) [entry]);
         (lit "core_skills",
           b ++ filter (in_section (lit "core")) [entry]);
         (lit "scenario_based",
           x ++ filter (in_section (lit "scenario")) [entry]);
         (lit "troubleshooting",
           y ++ filter (in_section (lit "troubleshoot")) [entry]) ].
Proof.
  unfold organize_one.
  cbn [json_get Py.bind filter].
  fold (in_section (lit "warmup") entry).
  fold (in_section (lit "core") entry).
  fold (in_section (lit "scenario") entry).
  fold (in_section (lit "troubleshoot") entry).
  assert (Apart : forall n m,
             in_section n entry = true -> in_section m entry = true -> n = m)
    by (intros n m; apply json_is_unique).
  destruct (in_section (lit "warmup") entry) eqn:W;
    destruct (in_section (lit "core") entry) eqn:C;
    destruct (in_section (lit "scenario") entry) eqn:S;
    destruct (in_section (lit "troubleshoot") entry) eqn:T;
    try (specialize (Apart _ _ W C); vm_compute in Apart; discriminate);
    try (specialize (Apart _ _ W S); vm_compute in Apart; discriminate);
    try (specialize (Apart _ _ W T); vm_compute in Apart; discriminate);
    try (specialize (Apart _ _ C S); vm_compute in Apart; discriminate);
    try (specialize (Apart _ _ C T); vm_compute in Apart; discriminate);
    try (specialize (Apart _ _ S T); vm_compute in Apart; discriminate);
    rewrite ?app_nil_r; reflexivity.
Qed.

Lemma sort_all entries : forall a b x y,
  organize
    [ (lit "warmup", a); (lit "core_skills", b);
      (lit "scenario_based", x); (lit "troubleshooting", y) ]
    (map JDict entries)
  = Ok [ (lit "warmup", a ++ filter (in_section (lit "warmup")) entries);
         (lit "core_skills", b ++ filter (in_section (lit "core")) entries);
         (lit "scenario_based",
           x ++ filter (in_section (lit "scenario")) entries);
         (lit "troubleshooting",
           y ++ filter (in_section (lit "troubleshoot")) entries) ].
Proof.
  induction entries as [| entry rest IH]; intros a b x y.
  - cbn. rewrite !app_nil_r. reflexivity.
  - cbn [map organize]. rewrite sort_one. cbn [Py.bind].
    rewrite IH.
    change (entry :: rest) with ([entry] ++ rest).
    rewrite !filter_app, !app_assoc. reflexivity.
Qed.

(** When the document is an object whose [questions] entry (an empty list
    when the key is missing) lists objects only, the bank holds, for each
    phase, the entries of its section in the order of the document:
    warmup takes the entries whose section is "warmup" or missing,
    core_skills those of "core", scenario_based those of "scenario",
    troubleshooting those of "troubleshoot", and entries of any other
    section are dropped. *)
Theorem bank_sorts_document d entries :
  get_default d (lit "questions") (JList []) = JList (map JDict entries) ->
  _load_question_bank (Parsed (JDict d)) = sorted_bank entries.
Proof.
  intros Listed. unfold _load_question_bank.
  cbn [read_source Py.bind json_get]. rewrite Listed.
  cbn [iterate Py.bind]. rewrite sort_all. reflexivity.
Qed.

Lemma organize_keys qs : forall organized organized',
  map fst organized = bank_keys ->
  organize organized qs = Ok organized' ->
  map fst organized' = bank_keys.
Proof.
  induction qs as [| q rest IH]; intros organized organized' Keys Run.
  - cbn in Run. congruence.
  - cbn [organize] in Run.
    destruct (organize_one organized q) as [step | e] eqn:One;
      [| discriminate].
    cbn [Py.bind] in Run. apply (IH step organized'); [| exact Run].
    unfold organize_one in One.
    destruct q; cbn [json_get Py.bind] in One; try discriminate.
    unfold append_question in One.
    revert One. split_ifs; intros [= <-]; try exact Keys;
      rewrite dict_set_keys, Keys; reflexivity.
Qed.

(** Whatever the document, the bank has exactly the four keys warmup,
    core_skills, scenario_based and troubleshooting, in this order; so
    the agent has no question for greeting, wrapup or feedback. *)
Theorem bank_has_four_phases src :
  map fst (_load_question_bank src) = bank_keys
  /\ phase_questions (__init__ src) GREETING = []
  /\ phase_questions (__init__ src) WRAPUP = []
  /\ phase_questions (__init__ src) FEEDBACK = [].
Proof.
  assert (Keys : map fst (_load_question_bank src) = bank_keys).
  { unfold _load_question_bank.
    destruct src as [| | data]; try reflexivity.
    cbn [read_source Py.bind].
    destruct (json_get data (lit "questions") (JList [])) as [listed | e];
      [| reflexivity].
    cbn [Py.bind].
    destruct (iterate listed) as [qs | e]; [| reflexivity].
    cbn [Py.bind].
    destruct (organize _ qs) as [organized | e] eqn:Run; [| reflexivity].
    cbn [try_except]. eapply organize_keys; [| exact Run]. reflexivity. }
  split; [exact Keys |].
  unfold phase_questions, get_default. cbn [questions __init__].
  destruct (_load_question_bank src)
    as [| [k1 v1] [| [k2 v2] [| [k3 v3] [| [k4 v4] [| more rest]]]]];
    try discriminate.
  injection Keys as -> -> -> ->.
  repeat split; reflexivity.
Qed.

Lemma grouping_step p : forall scores grouped,
  get_default
    (fold_left
       (fun phase_scores entry =>
          dict_set (entry_phase entry)
            (get_default phase_scores (entry_phase entry) []
             ++ [entry_score entry])
            phase_scores)
       scores grouped) p []
  = get_default grouped p []
    ++ map entry_score
         (filter (fun entry => str_eqb (entry_phase entry) p) scores).
Proof.
  induction scores as [| entry rest IH]; intros grouped.
  - cbn. rewrite app_nil_r. reflexivity.
  - cbn [fold_left filter]. rewrite IH.
    unfold get_default at 1. rewrite dict_get_set.
    rewrite (str_eqb_sym (entry_phase entry) p).
    destruct (str_eqb p (entry_phase entry)) eqn:Same.
    + apply str_eqb_eq in Same. subst p.
      cbn [map]. rewrite <- app_assoc. reflexivity.
    + reflexivity.
Qed.

Lemma grouping_keys : forall scores grouped,
  NoDup (map fst grouped) ->
  NoDup
    (map fst
       (fold_left
          (fun phase_scores entry =>
             dict_set (entry_phase entry)
               (get_default phase_scores (entry_phase entry) []
                ++ [entry_score entry])
               phase_scores)
          scores grouped)).
Proof.
  induction scores as [| entry rest IH]; intros grouped Distinct;
    [exact Distinct |].
  cbn [fold_left]. apply IH. rewrite dict_set_keys.
  destruct (existsb _ _) eqn:Known; [exact Distinct |].
  apply NoDup_app; [exact Distinct | repeat constructor; intros [] |].
  intros k Old [<- | []].
  assert (Hit : existsb (str_eqb (entry_phase entry)) (map fst grouped) = true).
  { apply existsb_exists. exists (entry_phase entry).
    split; [exact Old | apply str_eqb_refl]. }
  congruence.
Qed.

(** The grouping of the evaluations for the report loses and invents
    nothing: each phase is listed once, and its list holds the scores of
    the evaluations recorded under this phase, in the order they were
    recorded. *)
Theorem scores_grouped_by_phase scores p :
  get_default (scores_by_phase scores) p []
  = map entry_score
      (filter (fun entry => str_eqb (entry_phase entry) p) scores)
  /\ NoDup (map fst (scores_by_phase scores)).
Proof.
  unfold scores_by_phase. split.
  - rewrite grouping_step. reflexivity.
  - apply grouping_keys. constructor.
Qed.

Lemma bank_sorts_mixed_entries :
  _load_question_bank
    (Parsed (JDict [ (lit "questions", JList (map JDict mixed_entries)) ]))
  = sorted_bank mixed_entries
  /\ bank_sizes (sorted_bank mixed_entries)
     = [ (lit "warmup", 1%nat); (lit "core_skills", 1%nat);
         (lit "scenario_based", 0%nat); (lit "troubleshooting", 0%nat) ].
Proof.
  split; [| reflexivity].
  apply (bank_sorts_document
           [ (lit "questions", JList (map JDict mixed_entries)) ]
           mixed_entries).
  reflexivity.
Defined.

(* ================================================================== *)
(** ** Properties of the follow-up replies *)
(* ================================================================== *)

(** The instance has no attribute [ai_model_url] either, so
    [_generate_ai_follow_up] never reaches the model: its reply is the
    reply of [_generate_follow_up], which is always one of nine canned
    sentences, also with an endpoint that would answer.  The test for a
    greeting looks for the letters "hi" anywhere: an answer that has them
    (as in "matching" or "this") and speaks neither of nervous nor of
    anxious gets the greeting reply in every phase. *)
Theorem follow_up_is_canned `{Runtime} self q response p :
  _generate_ai_follow_up self q response p = _generate_follow_up q response p
  /\ In (_generate_ai_follow_up self q response p) canned_replies
  /\ (contains (lit "hi") (lower response) = true ->
      contains (lit "nervous") (lower response) = false ->
      contains (lit "anxious") (lower response) = false ->
      _generate_ai_follow_up self q response p = greeting_reply).
Proof.
  assert (Same : _generate_ai_follow_up self q response p
                 = _generate_follow_up q response p) by reflexivity.
  split; [exact Same |]. rewrite Same.
  unfold _generate_follow_up, canned_replies. split.
  - split_ifs; cbn [In]; auto 6.
    destruct p; cbn; auto 12.
  - intros Hi Nervous Anxious. rewrite Hi, Nervous, Anxious.
    rewrite orb_true_r. reflexivity.
Qed.

Lemma follow_up_with_answering_endpoint :
  _call_ai_model (H := answering_runtime) [] (AStr (model_url fallback_agent))
  = JStr (lit "A generated reply that is long enough to be used by the caller.")
  /\ _generate_ai_follow_up (H := answering_runtime) fallback_agent
       vlookup_question vlookup_answer CORE_SKILLS
     = greeting_reply.
Proof.
  split; [reflexivity |].
  destruct (follow_up_is_canned (H := answering_runtime) fallback_agent
              vlookup_question vlookup_answer CORE_SKILLS) as (_ & _ & Hi).
  apply Hi; vm_compute; reflexivity.
Defined.

(* ================================================================== *)
(** ** Blank input at the start form and at the answer box *)
(* ================================================================== *)

Lemma lstrip_blank s : lstrip s = [] <-> forallb isspace s = true.
Proof.
  induction s as [|c s IH]; cbn; [tauto|].
  destruct (isspace c); cbn; [exact IH|].
  split; discriminate.
Qed.

Lemma lstrip_head s c rest : lstrip s = c :: rest -> isspace c = false.
Proof.
  induction s as [|a s IH]; cbn; [discriminate|].
  destruct (isspace a) eqn:Space; [exact IH|].
  intros E. injection E as -> _. exact Space.
Qed.

Lemma forallb_rev {A} (f : A -> bool) l : forallb f (rev l) = forallb f l.
Proof.
  destruct (forallb f l) eqn:All.
  - rewrite forallb_forall in *. intros x In_x. apply All, in_rev, In_x.
  - destruct (forallb f (rev l)) eqn:All'; [|reflexivity].
    rewrite <- All. symmetry. rewrite forallb_forall in *.
    intros x In_x. apply All'. rewrite <- in_rev. exact In_x.
Qed.

Lemma strip_blank s : strip s = [] <-> forallb isspace s = true.
Proof.
  unfold strip. rewrite <- lstrip_blank.
  split.
  - intros E. apply (f_equal (@rev _)) in E. rewrite rev_involutive in E.
    cbn in E. apply lstrip_blank in E. rewrite forallb_rev in E.
    destruct (lstrip s) as [|c rest] eqn:L; [reflexivity|].
    apply lstrip_head in L. cbn in E. rewrite L in E. discriminate.
  - intros ->. reflexivity.
Qed.

(** X8.  A name of whitespace only starts no session, and any other
    name starts one; an answer of whitespace only leaves the session as
    it is, and every other answer is passed on stripped. *)
Theorem blank_input_is_refused `{Runtime} self now name response s :
  (start_interview now name = None <-> forallb isspace name = true)
  /\ (forallb isspace response = true ->
      send_response self now response s = s)
  /\ (forallb isspace response = false ->
      send_response self now response s
      = after_call self now (strip response) s).
Proof.
  repeat split.
  - unfold start_interview. intros E. apply strip_blank.
    destruct (strip name); [reflexivity | discriminate].
  - intros Blank. apply strip_blank in Blank. unfold start_interview.
    rewrite Blank. reflexivity.
  - intros Blank. apply strip_blank in Blank. unfold send_response.
    rewrite Blank. reflexivity.
  - intros Some_text. unfold send_response.
    destruct (strip response) eqn:E; [| reflexivity].
    apply strip_blank in E. congruence.
Qed.

Lemma blank_answer_to_ann :
  forallb isspace (lit "   ") = true
  /\ send_response (H := ascii_runtime) fallback_agent noon (lit "   ") ann
     = ann.
Proof.
  split; [reflexivity |].
  apply (proj1 (proj2 (blank_input_is_refused (H := ascii_runtime)
                         fallback_agent noon (lit "Ann") (lit "   ") ann))).
  reflexivity.
Defined.

(* ================================================================== *)
(** ** One call, step by step *)
(* ================================================================== *)

Lemma set_same_phase s : set_current_phase (current_phase s) s = s.
Proof. destruct s; reflexivity. Qed.

Lemma phase_eqb_eq p q : phase_eqb p q = true <-> p = q.
Proof. destruct p, q; cbn; split; congruence. Qed.

Lemma well_formed_items q :
  well_formed q = true ->
  truthy_question (Some q) = true
  /\ getitem q (lit "id") = Ok (id_of q)
  /\ getitem q (lit "question") = Ok (text_of q)
  /\ truthy (id_of q) = true.
Proof.
  unfold well_formed, getitem, id_of, text_of, get_default.
  destruct q as [| kv q]; [discriminate |].
  destruct (dict_get (lit "id") (kv :: q)); [| discriminate].
  destruct (dict_get (lit "question") (kv :: q)); [| discriminate].
  auto.
Qed.

Lemma bank_well_formed self p q :
  well_formed_bank self = true ->
  In q (phase_questions self p) -> well_formed q = true.
Proof.
  unfold well_formed_bank. rewrite forallb_forall. intros Bank In_q.
  assert (Listed : In p every_phase) by (destruct p; cbn; tauto).
  specialize (Bank p Listed). rewrite forallb_forall in Bank. auto.
Qed.

Lemma next_question_listed self s q :
  _get_next_question self s = Some q ->
  In q (phase_questions self (current_phase s)).
Proof.
  unfold _get_next_question.
  destruct (phase_questions self (current_phase s)) as [| q0 qs];
    [discriminate |].
  apply nth_error_In.
Qed.

Section CallSteps.
Context `{Runtime}.
Variable self : ExcelInterviewAgent.
Variable now : nat -> datetime.

Lemma evaluate_pending_answered response s :
  pending_ok s ->
  evaluate_pending response s = (Ok tt, answered response s).
Proof.
  intros Pending. unfold evaluate_pending, answered. run.
  destruct (current_question s) as [q |] eqn:Q; [| reflexivity].
  destruct (well_formed_items q (Pending q Q)) as (T & Id & _ & _).
  rewrite T, Id. reflexivity.
Qed.

Lemma ask_next_asked s :
  well_formed_bank self = true ->
  ask_next self now s = (Ok tt, asked self now s).
Proof.
  intros Bank. unfold ask_next, asked, entered. run.
  destruct (phase_eqb (current_phase s) WRAPUP); [reflexivity |]. cbn.
  destruct (phase_eqb (current_phase s) GREETING);
    match goal with
    | |- context [_get_next_question self ?s1] =>
        destruct (_get_next_question self s1) as [q |] eqn:Next;
          [| reflexivity];
        apply next_question_listed, (bank_well_formed _ _ _ Bank) in Next;
        destruct (well_formed_items q Next) as (T & Id & Text & _);
        rewrite T, Id, Text; reflexivity
    end.
Qed.

Lemma phase_check_checked s :
  phase_check self now s = (Ok tt, checked self now s).
Proof.
  assert (Shown : forall s1,
             show_evaluation self now s1 = (Ok tt, reported self now s1)).
  { intros s1. unfold show_evaluation, reported. run.
    destruct (phase_eqb (current_phase s1) WRAPUP); reflexivity. }
  unfold phase_check, checked, phase_after_check, check_transition.
  run.
  destruct (phase_eqb (current_phase s) GREETING) eqn:G;
    cbn [negb]; cbv beta iota.
  - rewrite set_same_phase. unfold reported.
    apply phase_eqb_eq in G. rewrite G. reflexivity.
  - destruct (total_questions (conversation_history s) >=? 18).
    + destruct (current_question s); cbv beta iota; [| apply Shown].
      rewrite set_same_phase. apply Shown.
    + destruct (phase_eqb (_transition_to_next_phase self s)
                  (current_phase s)) eqn:Same;
        cbn [negb]; cbv beta iota; [| apply Shown].
      apply phase_eqb_eq in Same. rewrite Same, set_same_phase.
      apply Shown.
Qed.

Lemma call_steps response s :
  well_formed_bank self = true ->
  pending_ok s ->
  process_candidate_response self now response s
  = (Ok tt,
     checked self now
       (asked self now
          (answered response
             (append_message (answer_message now response s) s)))).
Proof.
  intros Bank Pending.
  unfold process_candidate_response, before_check, record_response.
  run.
  change (append_message _ s)
    with (append_message (answer_message now response s) s).
  rewrite evaluate_pending_answered by exact Pending.
  rewrite ask_next_asked by exact Bank.
  apply phase_check_checked.
Qed.
End CallSteps.

(* ================================================================== *)
(** ** Sessions of an agent whose questions are well formed *)
(* ================================================================== *)

Lemma question_messages_app h1 h2 :
  question_messages (h1 ++ h2) = question_messages h1 ++ question_messages h2.
Proof. apply filter_app. Qed.

Lemma asked_in_app p h1 h2 :
  asked_in p (h1 ++ h2) = asked_in p h1 ++ asked_in p h2.
Proof.
  unfold asked_in. rewrite question_messages_app. apply filter_app.
Qed.

Lemma no_questions shown :
  Forall (fun msg => is_question msg = false) shown ->
  question_messages shown = [].
Proof.
  induction 1 as [| msg shown No _ IH]; [reflexivity |].
  unfold question_messages in *. cbn. rewrite No. exact IH.
Qed.

Lemma question_messages_one msg :
  question_messages [msg] = if is_question msg then [msg] else [].
Proof. reflexivity. Qed.

Lemma asked_in_one p msg :
  asked_in p [msg]
  = if is_question msg && phase_eqb (phase msg) p then [msg] else [].
Proof.
  unfold asked_in. rewrite question_messages_one.
  destruct (is_question msg); cbn; [| reflexivity].
  destruct (phase_eqb (phase msg) p); reflexivity.
Qed.

Lemma asked_count p history :
  List.length
    (filter (fun msg =>
               phase_eqb (phase msg) p && str_eqb (role msg) interviewer
               && truthy (question_id msg))
       history)
  = List.length (asked_in p history).
Proof.
  unfold asked_in, question_messages, is_question.
  induction history as [| msg history IH]; [reflexivity |]. cbn.
  destruct (phase_eqb (phase msg) p) eqn:P,
    (str_eqb (role msg) interviewer), (truthy (question_id msg));
    cbn; rewrite ?P; cbn; rewrite IH; reflexivity.
Qed.

Lemma firstn_next {A} (l : list A) : forall k x,
  nth_error l k = Some x -> firstn (S k) l = firstn k l ++ [x].
Proof.
  induction l as [| a l IH]; intros [| k] x E; try discriminate.
  - cbn in E. injection E as ->. reflexivity.
  - cbn in E. cbn [firstn app]. f_equal. apply IH, E.
Qed.

Lemma entered_fields s :
  conversation_history (entered s) = conversation_history s
  /\ current_question (entered s) = current_question s
  /\ evaluation_scores (entered s) = evaluation_scores s.
Proof. unfold entered. destruct (phase_eqb _ _); auto. Qed.

Lemma checked_fields `{Runtime} self now s :
  exists shown,
    conversation_history (checked self now s)
    = conversation_history s ++ shown
    /\ current_question (checked self now s) = current_question s
    /\ evaluation_scores (checked self now s) = evaluation_scores s
    /\ current_phase (checked self now s) = phase_after_check self s
    /\ (phase_after_check self s = WRAPUP ->
        exists text, shown = [report_message now text])
    /\ (phase_after_check self s <> WRAPUP -> shown = []).
Proof.
  unfold checked, reported. cbn [current_phase set_current_phase].
  destruct (phase_eqb (phase_after_check self s) WRAPUP) eqn:P.
  - eexists. split; [reflexivity |]. repeat split; eauto.
    intros N. apply phase_eqb_eq in P. contradiction.
  - exists []. cbn. rewrite app_nil_r. repeat split; auto.
    intros W. rewrite W in P. discriminate.
Qed.

Lemma invariant_phase self s p :
  invariant self s -> invariant self (set_current_phase p s).
Proof. intros I. exact I. Qed.

Lemma invariant_call `{Runtime} self now response s :
  well_formed_bank self = true ->
  invariant self s ->
  invariant self
    (checked self now
       (asked self now
          (answered response
             (append_message (answer_message now response s) s)))).
Proof.
  intros Bank (Pending & Ledger & Order).
  set (s2 := answered response
               (append_message (answer_message now response s) s)).
  assert (S2 : current_question s2 = None
               /\ map entry_question_id (evaluation_scores s2)
                  = map question_id
                      (question_messages (conversation_history s2))
               /\ in_bank_order self s2).
  { assert (Same : forall history,
               question_messages
                 (history ++ [answer_message now response s])
               = question_messages history).
    { intros history. rewrite question_messages_app.
      change (question_messages [answer_message now response s])
        with (@nil InterviewMessage).
      apply app_nil_r. }
    assert (Order2 : in_bank_order self s2).
    { intros p. replace (conversation_history s2)
        with (conversation_history s ++ [answer_message now response s])
        by (unfold s2, answered, append_message; cbn;
            destruct (current_question s); reflexivity).
      unfold asked_in. rewrite Same. apply Order. }
    split; [| split; [| exact Order2]].
    - unfold s2, answered, append_message. cbn.
      destruct (current_question s); reflexivity.
    - unfold ledger, pending_ids in Ledger.
      unfold s2, answered, append_message. cbn.
      destruct (current_question s) as [q |]; cbn; rewrite Same.
      + rewrite map_app. exact Ledger.
      + rewrite app_nil_r in Ledger. exact Ledger. }
  destruct S2 as (None2 & Ledger2 & Order2).
  set (s3 := asked self now s2).
  assert (S3 : invariant self s3).
  { unfold s3, asked.
    destruct (phase_eqb (current_phase s2) WRAPUP).
    { repeat split; auto.
      - intros q Q. congruence.
      - unfold ledger, pending_ids. rewrite None2, app_nil_r.
        exact Ledger2. }
    destruct (entered_fields s2) as (History & Question & Scores).
    destruct (_get_next_question self (entered s2)) as [q |] eqn:Next.
    - assert (Listed := next_question_listed _ _ _ Next).
      assert (Well := bank_well_formed _ _ _ Bank Listed).
      destruct (well_formed_items q Well) as (_ & _ & _ & Id).
      assert (Asks : is_question
                       (question_message now q
                          (current_phase (entered s2))) = true).
      { unfold is_question. cbn. rewrite Id. reflexivity. }
      repeat split.
      + intros q' Q. cbn in Q. injection Q as <-. exact Well.
      + unfold ledger, pending_ids.
        cbn [conversation_history evaluation_scores current_question
             append_message set_current_question].
        rewrite Scores, History.
        rewrite question_messages_app, map_app, Ledger2.
        rewrite question_messages_one, Asks. reflexivity.
      + intros p.
        cbn [conversation_history append_message set_current_question].
        rewrite History, asked_in_app, asked_in_one, Asks.
        cbn [andb phase question_message].
        destruct (phase_eqb (current_phase (entered s2)) p) eqn:P.
        * apply phase_eqb_eq in P. subst p.
          rewrite length_app, Nat.add_1_r, map_app. cbn [List.length map].
          unfold _get_next_question in Next.
          destruct (phase_questions self (current_phase (entered s2)))
            as [| q0 qs] eqn:Bank_p; [discriminate |].
          rewrite asked_count, History in Next.
          rewrite (firstn_next _ _ _ Next), map_app.
          pose proof (Order2 (current_phase (entered s2))) as Before.
          rewrite Bank_p in Before. rewrite <- Before. reflexivity.
        * rewrite app_nil_r. apply Order2.
    - repeat split.
      + intros q Q. rewrite Question in Q. congruence.
      + unfold ledger, pending_ids. rewrite Question, Scores, History.
        rewrite None2, app_nil_r. exact Ledger2.
      + intros p. rewrite History. apply Order2. }
  destruct S3 as (Pending3 & Ledger3 & Order3).
  destruct (checked_fields self now s3)
    as (shown & History & Question & Scores & _ & Report & NoReport).
  assert (Same : question_messages shown = []).
  { destruct (phase_eqb (phase_after_check self s3) WRAPUP) eqn:P.
    - apply phase_eqb_eq in P. destruct (Report P) as (text & ->).
      reflexivity.
    - rewrite NoReport; [reflexivity |].
      intros W. rewrite W in P. discriminate. }
  repeat split.
  - intros q Q. rewrite Question in Q. auto.
  - unfold ledger, pending_ids. rewrite Question, Scores, History.
    rewrite question_messages_app, Same, app_nil_r. exact Ledger3.
  - intros p. rewrite History. unfold asked_in.
    rewrite question_messages_app, Same, app_nil_r. apply Order3.
Qed.

Lemma reachable_invariant `{Runtime} self s :
  well_formed_bank self = true -> reachable self s -> invariant self s.
Proof.
  intros Bank. induction 1 as [name started | now name s Start
                               | now response s _ IH | s _ IH].
  - split; [intros q Q; discriminate |].
    split; [reflexivity | intros p; reflexivity].
  - unfold start_interview in Start.
    destruct (strip name); [discriminate |]. injection Start as <-.
    split; [intros q Q; discriminate |].
    split; [reflexivity | intros p; reflexivity].
  - unfold after_call. destruct IH as (Pending & Rest).
    rewrite call_steps by assumption.
    apply invariant_call; [exact Bank |]. split; assumption.
  - apply invariant_phase, IH.
Qed.

(** X9.  With a bank whose questions all have a text and an id that
    counts as true, no call of a reachable session raises, and the
    evaluations recorded, followed by the pending question if there is
    one, are the questions asked: one for one, and in the order of the
    transcript. *)
Theorem well_formed_bank_never_raises `{Runtime} self s :
  well_formed_bank self = true ->
  reachable self s ->
  (forall now response,
      fst (process_candidate_response self now response s) = Ok tt)
  /\ map entry_question_id (evaluation_scores s) ++ pending_ids s
     = map question_id (question_messages (conversation_history s)).
Proof.
  intros Bank Reached.
  destruct (reachable_invariant self s Bank Reached) as (Pending & Ledger & _).
  split; [| exact Ledger].
  intros now response. rewrite call_steps by assumption. reflexivity.
Qed.

(** X10.  With such a bank, the questions asked in a phase are the first
    questions of the phase's list, each once and in the order of the list;
    no phase asks more questions than its list holds. *)
Theorem questions_asked_in_bank_order `{Runtime} self s p :
  well_formed_bank self = true ->
  reachable self s ->
  map question_id (asked_in p (conversation_history s))
  = map id_of
      (firstn (List.length (asked_in p (conversation_history s)))
         (phase_questions self p))
  /\ (List.length (asked_in p (conversation_history s))
      <= List.length (phase_questions self p))%nat.
Proof.
  intros Bank Reached.
  destruct (reachable_invariant self s Bank Reached) as (_ & _ & Order).
  split; [apply Order |].
  pose proof (f_equal (@List.length _) (Order p)) as Len.
  rewrite !length_map, length_firstn in Len. lia.
Qed.

Lemma ledger_of_wrapped :
  map entry_question_id (evaluation_scores wrapped) ++ pending_ids wrapped
  = map (fun id => JStr (lit id)) ["w1"; "w2"; "c1"; "c2"; "s1"; "t1"]%string
  /\ pending_ids wrapped = [JStr (lit "t1")]
  /\ map question_id (question_messages (conversation_history wrapped))
     = map (fun id => JStr (lit id)) ["w1"; "w2"; "c1"; "c2"; "s1"; "t1"]%string.
Proof.
  assert (Bank : well_formed_bank fallback_agent = true) by reflexivity.
  destruct (well_formed_bank_never_raises (H := ascii_runtime)
              fallback_agent wrapped Bank wrapped_reachable)
    as (_ & Ledger).
  rewrite <- Ledger. vm_compute. repeat split.
Defined.

Lemma warmup_order_of_wrapped :
  map question_id (asked_in WARMUP (conversation_history wrapped))
  = map id_of (phase_questions fallback_agent WARMUP).
Proof.
  assert (Bank : well_formed_bank fallback_agent = true) by reflexivity.
  destruct (questions_asked_in_bank_order (H := ascii_runtime)
              fallback_agent wrapped WARMUP Bank wrapped_reachable)
    as (Order & _).
  rewrite Order. vm_compute. reflexivity.
Defined.

(* ================================================================== *)
(** ** A phase that has no questions *)
(* ================================================================== *)

Lemma phase_eqb_neq p q : p <> q -> phase_eqb p q = false.
Proof.
  intros N. destruct (phase_eqb p q) eqn:E; [| reflexivity].
  apply phase_eqb_eq in E. contradiction.
Qed.

Lemma evaluate_pending_frame `{Runtime} response s :
  conversation_history (snd (evaluate_pending response s))
  = conversation_history s
  /\ current_phase (snd (evaluate_pending response s)) = current_phase s.
Proof.
  unfold evaluate_pending. run.
  destruct (current_question s) as [q |]; [| auto].
  destruct (truthy_question (Some q)); [| auto].
  destruct (getitem q (lit "id")); auto.
Qed.

Lemma total_questions_answer now response s history :
  total_questions (history ++ [answer_message now response s])
  = total_questions history.
Proof.
  unfold total_questions. rewrite filter_app.
  change (filter _ [answer_message now response s])
    with (@nil InterviewMessage).
  rewrite app_nil_r. reflexivity.
Qed.

Lemma empty_phase_call `{Runtime} self now response s :
  phase_questions self (current_phase s) = [] ->
  current_phase s <> GREETING ->
  current_phase s <> WRAPUP ->
  total_questions (conversation_history s) < 18 ->
  current_phase (after_call self now response s) = current_phase s
  /\ conversation_history (after_call self now response s)
     = conversation_history s ++ [answer_message now response s].
Proof.
  intros Empty NotGreeting NotWrapup Below.
  unfold after_call, process_candidate_response, before_check.
  rewrite seq_snd.
  change ((record_response now response
           >> evaluate_pending response >> ask_next self now) s)
    with ((evaluate_pending response >> ask_next self now)
            (append_message (answer_message now response s) s)).
  set (s1 := append_message (answer_message now response s) s).
  destruct (evaluate_pending_frame response s1) as (History & Phase).
  change (conversation_history s1)
    with (conversation_history s ++ [answer_message now response s])
    in History.
  change (current_phase s1) with (current_phase s) in Phase.
  unfold M.bind.
  destruct (evaluate_pending response s1) as [[u | e] s2];
    cbn [snd] in History, Phase; cbv beta iota; [| auto].
  assert (Asked : ask_next self now s2 = (Ok tt, s2)).
  { unfold ask_next, _get_next_question. run.
    rewrite Phase, (phase_eqb_neq _ _ NotWrapup),
      (phase_eqb_neq _ _ NotGreeting).
    cbn [negb]. cbv beta iota. rewrite Phase, Empty. reflexivity. }
  rewrite Asked, phase_check_checked. cbn [snd].
  assert (Stays : phase_after_check self s2 = current_phase s2).
  { unfold phase_after_check, _transition_to_next_phase.
    rewrite History, total_questions_answer, Phase, Empty.
    rewrite (phase_eqb_neq _ _ NotGreeting).
    replace (total_questions (conversation_history s) >=? 18) with false
      by (symmetry; rewrite Z.geb_leb; apply Z.leb_gt; lia).
    rewrite andb_false_r. reflexivity. }
  unfold checked. rewrite Stays, set_same_phase. unfold reported.
  rewrite Phase, (phase_eqb_neq _ _ NotWrapup). auto.
Qed.

(** X11.  A session in a phase for which the bank has no question, other
    than greeting and wrapup and with fewer than eighteen questions asked,
    never leaves that phase: every call only records the candidate's
    answer, the interviewer says nothing more and no report is made. *)
Theorem empty_phase_is_never_left `{Runtime} self clicks : forall s,
  phase_questions self (current_phase s) = [] ->
  current_phase s <> GREETING ->
  current_phase s <> WRAPUP ->
  total_questions (conversation_history s) < 18 ->
  current_phase (calls self clicks s) = current_phase s
  /\ exists answers,
       conversation_history (calls self clicks s)
       = conversation_history s ++ answers
       /\ List.length answers = List.length clicks
       /\ Forall (fun msg => role msg = candidate) answers.
Proof.
  induction clicks as [| [now response] clicks IH];
    intros s Empty NotGreeting NotWrapup Below.
  - split; [reflexivity |]. exists []. rewrite app_nil_r. auto.
  - destruct (empty_phase_call self now response s Empty NotGreeting
                NotWrapup Below) as (Phase & History).
    cbn [calls].
    destruct (IH (after_call self now response s)) as (Phase' & rest & H' & Len & Cand).
    + rewrite Phase. exact Empty.
    + rewrite Phase. exact NotGreeting.
    + rewrite Phase. exact NotWrapup.
    + rewrite History, total_questions_answer. exact Below.
    + split; [congruence |].
      exists (answer_message now response s :: rest).
      rewrite H', History, <- app_assoc. cbn.
      repeat split; auto.
Qed.

Lemma stalled_in_core_skills :
  current_phase stalled = CORE_SKILLS
  /\ current_phase
       (calls (H := ascii_runtime) two_warmup_agent (repeat short_answer 5)
          stalled) = CORE_SKILLS.
Proof.
  assert (Phase : current_phase stalled = CORE_SKILLS)
    by (vm_compute; reflexivity).
  split; [exact Phase |].
  transitivity (current_phase stalled); [| exact Phase].
  refine (proj1 (empty_phase_is_never_left (H := ascii_runtime)
                   two_warmup_agent (repeat short_answer 5) stalled
                   _ _ _ _)).
  - vm_compute. reflexivity.
  - rewrite Phase. discriminate.
  - rewrite Phase. discriminate.
  - vm_compute. reflexivity.
Defined.

(* ================================================================== *)
(** ** The call that asks a question *)
(* ================================================================== *)

Lemma answered_fields `{Runtime} response s :
  current_phase (answered response s) = current_phase s
  /\ conversation_history (answered response s) = conversation_history s
  /\ current_question (answered response s) = None.
Proof.
  unfold answered.
  destruct (current_question s) eqn:Q; repeat split; auto.
Qed.

Lemma asked_scores self now s :
  evaluation_scores (asked self now s) = evaluation_scores s.
Proof.
  unfold asked. destruct (phase_eqb (current_phase s) WRAPUP); [reflexivity |].
  destruct (entered_fields s) as (_ & _ & Scores).
  destruct (_get_next_question self (entered s)); exact Scores.
Qed.

Lemma next_question_after self s s' msg :
  current_phase s' = current_phase s ->
  conversation_history s' = conversation_history s ++ [msg] ->
  is_question msg = false ->
  _get_next_question self s' = _get_next_question self s.
Proof.
  intros Phase History No. unfold _get_next_question.
  rewrite Phase, History, filter_app. cbn [filter].
  unfold is_question in No.
  rewrite <- andb_assoc, No, andb_false_r, app_nil_r. reflexivity.
Qed.

Lemma asked_some self now s q :
  current_phase s <> GREETING ->
  current_phase s <> WRAPUP ->
  _get_next_question self s = Some q ->
  asked self now s
  = append_message (question_message now q (current_phase s))
      (set_current_question (Some q) s).
Proof.
  intros NotGreeting NotWrapup Next. unfold asked, entered.
  rewrite (phase_eqb_neq _ _ NotGreeting), (phase_eqb_neq _ _ NotWrapup).
  rewrite Next. reflexivity.
Qed.

Lemma total_questions_question now q p history :
  p <> GREETING ->
  total_questions (history ++ [question_message now q p])
  = total_questions history + 1.
Proof.
  intros NotGreeting. unfold total_questions. rewrite filter_app.
  cbn [filter role phase question_message].
  rewrite (phase_eqb_neq _ _ NotGreeting).
  change (str_eqb interviewer interviewer && negb false) with true.
  cbv iota. unfold len. rewrite length_app. cbn [List.length]. lia.
Qed.

Lemma spoken_in_question now q p history :
  spoken_in p (history ++ [question_message now q p])
  = spoken_in p history + 1.
Proof.
  unfold spoken_in. rewrite filter_app.
  cbn [filter role phase question_message].
  replace (phase_eqb p p) with true by (destruct p; reflexivity).
  change (true && str_eqb interviewer interviewer) with true.
  cbv iota. unfold len. rewrite length_app. cbn [List.length]. lia.
Qed.

Lemma spoken_in_answer now response s p history :
  spoken_in p (history ++ [answer_message now response s])
  = spoken_in p history.
Proof.
  unfold spoken_in. rewrite filter_app.
  cbn [filter role phase answer_message].
  change (str_eqb candidate interviewer) with false.
  rewrite andb_false_r, app_nil_r. reflexivity.
Qed.

Section AskingCall.
Context `{Runtime}.
Variable self : ExcelInterviewAgent.
Variable now : nat -> datetime.
Variable response : str.
Variable s : InterviewState.
Variable q : question.
Hypothesis Bank : well_formed_bank self = true.
Hypothesis Pending : pending_ok s.
Hypothesis NotGreeting : current_phase s <> GREETING.
Hypothesis NotWrapup : current_phase s <> WRAPUP.
Hypothesis Next : _get_next_question self s = Some q.

(** The session once the answer is scored and [q] is asked. *)
Lemma asking_call :
  exists s3,
    after_call self now response s = checked self now s3
    /\ current_phase s3 = current_phase s
    /\ current_question s3 = Some q
    /\ conversation_history s3
       = conversation_history s
         ++ [answer_message now response s;
             question_message now q (current_phase s)].
Proof.
  unfold after_call. rewrite call_steps by assumption. cbn [snd].
  set (s1 := append_message (answer_message now response s) s).
  destruct (answered_fields response s1) as (Phase & History & _).
  change (current_phase s1) with (current_phase s) in Phase.
  change (conversation_history s1)
    with (conversation_history s ++ [answer_message now response s])
    in History.
  assert (Next2 : _get_next_question self (answered response s1) = Some q).
  { rewrite <- Next.
    apply (next_question_after self s _ (answer_message now response s));
      auto. }
  rewrite (asked_some self now (answered response s1) q);
    try (rewrite Phase; assumption); [| exact Next2].
  eexists. split; [reflexivity |].
  cbn [current_phase current_question conversation_history append_message
       set_current_question].
  rewrite Phase, History, <- app_assoc. auto.
Qed.
End AskingCall.

(** X12.  The call that asks the last question of a phase moves the
    session to the next phase at once, with that question pending; its
    answer is therefore scored, and listed in the report, under the next
    phase.  When the next phase is wrapup the report is made in the same
    call, before the question is answered. *)
Theorem last_question_is_scored_in_next_phase `{Runtime} self now response
    s q :
  well_formed_bank self = true ->
  pending_ok s ->
  In (current_phase s) [WARMUP; CORE_SKILLS; SCENARIO_BASED; TROUBLESHOOTING] ->
  _get_next_question self s = Some q ->
  spoken_in (current_phase s) (conversation_history s) + 1
  >= len (phase_questions self (current_phase s)) ->
  total_questions (conversation_history s) < 17 ->
  let s1 := after_call self now response s in
  current_question s1 = Some q
  /\ rank (current_phase s1) = S (rank (current_phase s))
  /\ (current_phase s1 = WRAPUP ->
      exists text,
        conversation_history s1
        = conversation_history s
          ++ [answer_message now response s;
              question_message now q (current_phase s);
              report_message now text])
  /\ forall now' response',
       evaluation_scores (after_call self now' response' s1)
       = evaluation_scores s1
         ++ [ {| entry_question_id := id_of q;
                 entry_score :=
                   Evaluation.score
                     (_ai_evaluate_response q response' (current_phase s1));
                 entry_phase := value (current_phase s1) |} ].
Proof.
  intros Bank Pending Phases Next Last Below s1.
  assert (NotGreeting : current_phase s <> GREETING)
    by (cbn [In] in Phases; intuition congruence).
  assert (NotWrapup : current_phase s <> WRAPUP)
    by (cbn [In] in Phases; intuition congruence).
  destruct (asking_call self now response s q Bank Pending NotGreeting
              NotWrapup Next) as (s3 & Call & Phase3 & Question3 & History3).
  destruct (checked_fields self now s3)
    as (shown & History & Question & _ & Phase & Report & _).
  assert (Moves : rank (phase_after_check self s3) = S (rank (current_phase s))).
  { unfold phase_after_check, _transition_to_next_phase.
    rewrite Phase3, (phase_eqb_neq _ _ NotGreeting), History3.
    change (conversation_history s
            ++ [answer_message now response s;
                question_message now q (current_phase s)])
      with (conversation_history s
            ++ [answer_message now response s]
            ++ [question_message now q (current_phase s)]).
    rewrite app_assoc.
    rewrite (total_questions_question _ _ _ _ NotGreeting),
      total_questions_answer.
    replace (total_questions (conversation_history s) + 1 >=? 18) with false
      by (symmetry; rewrite Z.geb_leb; apply Z.leb_gt; lia).
    fold (spoken_in (current_phase s)
            ((conversation_history s ++ [answer_message now response s])
             ++ [question_message now q (current_phase s)])).
    rewrite spoken_in_question, spoken_in_answer.
    replace (_ >=? _) with true
      by (symmetry; rewrite Z.geb_leb; apply Z.leb_le; lia).
    apply next_question_listed in Next.
    destruct (phase_questions self (current_phase s)); [contradiction |].
    cbn [andb]. cbn [In] in Phases.
    destruct (current_phase s); cbn; try reflexivity;
      intuition discriminate. }
  assert (Q1 : current_question s1 = Some q)
    by (unfold s1; rewrite Call, Question; exact Question3).
  assert (P1 : current_phase s1 = phase_after_check self s3)
    by (unfold s1; rewrite Call; exact Phase).
  split; [exact Q1 |]. split; [rewrite P1; exact Moves |]. split.
  - intros Wrapup. rewrite P1 in Wrapup.
    destruct (Report Wrapup) as (text & ->). exists text.
    unfold s1. rewrite Call, History, History3, <- app_assoc. reflexivity.
  - intros now' response'. unfold after_call at 1.
    rewrite call_steps; [| exact Bank |].
    + cbn [snd].
      destruct (checked_fields self now'
                  (asked self now'
                     (answered response'
                        (append_message (answer_message now' response' s1)
                           s1))))
        as (_ & _ & _ & Scores & _).
      rewrite Scores, asked_scores. unfold answered.
      cbn [current_question append_message]. rewrite Q1. reflexivity.
    + intros q' Q'. rewrite Q1 in Q'. injection Q' as <-.
      apply (bank_well_formed self (current_phase s)); [exact Bank |].
      apply next_question_listed, Next.
Qed.

Lemma second_warmup_scored_in_core_skills :
  current_question
    (after_call (H := ascii_runtime) fallback_agent noon (lit "I use sum.")
       first_asked) = Some second_warmup
  /\ map (fun entry => (entry_question_id entry, entry_phase entry))
       (evaluation_scores
          (after_call (H := ascii_runtime) fallback_agent noon
             (lit "Rows and columns.")
             (after_call (H := ascii_runtime) fallback_agent noon
                (lit "I use sum.") first_asked)))
     = [ (JStr (lit "w1"), lit "warmup");
         (JStr (lit "w2"), lit "core_skills") ].
Proof.
  assert (Bank : well_formed_bank fallback_agent = true) by reflexivity.
  assert (Pending : pending_ok first_asked).
  { intros q Q. vm_compute in Q. injection Q as <-. reflexivity. }
  assert (Phases : In (current_phase first_asked)
                     [WARMUP; CORE_SKILLS; SCENARIO_BASED; TROUBLESHOOTING])
    by (left; reflexivity).
  assert (Next : _get_next_question fallback_agent first_asked
                 = Some second_warmup) by reflexivity.
  assert (Last : spoken_in (current_phase first_asked)
                   (conversation_history first_asked) + 1
                 >= len (phase_questions fallback_agent
                           (current_phase first_asked)))
    by (vm_compute; discriminate).
  assert (Below : total_questions (conversation_history first_asked) < 17)
    by reflexivity.
  destruct (last_question_is_scored_in_next_phase (H := ascii_runtime)
              fallback_agent noon (lit "I use sum.") first_asked
              second_warmup Bank Pending Phases Next Last Below)
    as (Question & _ & _ & Scores).
  split; [exact Question |].
  rewrite (Scores noon (lit "Rows and columns.")).
  vm_compute. reflexivity.
Defined.

(** X13.  The count of eighteen questions does not end the questions:
    while the current phase has a question left, a call made with
    seventeen or more questions asked scores the answer and asks the next
    question as before, and the phase stays as it is. *)
Theorem questions_continue_past_eighteen `{Runtime} self now response s q :
  well_formed_bank self = true ->
  pending_ok s ->
  current_phase s <> GREETING ->
  current_phase s <> WRAPUP ->
  _get_next_question self s = Some q ->
  17 <= total_questions (conversation_history s) ->
  let s1 := after_call self now response s in
  current_phase s1 = current_phase s
  /\ current_question s1 = Some q
  /\ conversation_history s1
     = conversation_history s
       ++ [answer_message now response s;
           question_message now q (current_phase s)]
  /\ total_questions (conversation_history s1)
     = total_questions (conversation_history s) + 1.
Proof.
  intros Bank Pending NotGreeting NotWrapup Next Many s1.
  destruct (asking_call self now response s q Bank Pending NotGreeting
              NotWrapup Next) as (s3 & Call & Phase3 & Question3 & History3).
  assert (Total : total_questions (conversation_history s3)
                  = total_questions (conversation_history s) + 1).
  { rewrite History3.
    change (conversation_history s
            ++ [answer_message now response s;
                question_message now q (current_phase s)])
      with (conversation_history s
            ++ [answer_message now response s]
            ++ [question_message now q (current_phase s)]).
    rewrite app_assoc.
    rewrite (total_questions_question _ _ _ _ NotGreeting),
      total_questions_answer. reflexivity. }
  assert (Stays : phase_after_check self s3 = current_phase s3).
  { unfold phase_after_check.
    rewrite Phase3 at 1. rewrite (phase_eqb_neq _ _ NotGreeting), Total.
    replace (total_questions (conversation_history s) + 1 >=? 18) with true
      by (symmetry; rewrite Z.geb_leb; apply Z.leb_le; lia).
    rewrite Question3. reflexivity. }
  assert (Same : checked self now s3 = s3).
  { unfold checked. rewrite Stays, set_same_phase. unfold reported.
    rewrite Phase3, (phase_eqb_neq _ _ NotWrapup). reflexivity. }
  unfold s1. rewrite Call, Same. auto.
Qed.

Lemma twentieth_question_is_asked :
  total_questions (conversation_history asked_nineteen) = 19
  /\ current_phase
       (after_call (H := ascii_runtime) twenty_agent noon (lit "I use sum.")
          asked_nineteen) = WARMUP
  /\ total_questions
       (conversation_history
          (after_call (H := ascii_runtime) twenty_agent noon
             (lit "I use sum.") asked_nineteen)) = 20.
Proof.
  assert (Bank : well_formed_bank twenty_agent = true)
    by (vm_compute; reflexivity).
  assert (Pending : pending_ok asked_nineteen).
  { intros q Q. vm_compute in Q. injection Q as <-. reflexivity. }
  assert (Phase : current_phase asked_nineteen = WARMUP)
    by (vm_compute; reflexivity).
  assert (NotGreeting : current_phase asked_nineteen <> GREETING)
    by (rewrite Phase; discriminate).
  assert (NotWrapup : current_phase asked_nineteen <> WRAPUP)
    by (rewrite Phase; discriminate).
  assert (Next : _get_next_question twenty_agent asked_nineteen
                 = Some twentieth) by (vm_compute; reflexivity).
  assert (Total : total_questions (conversation_history asked_nineteen) = 19)
    by (vm_compute; reflexivity).
  assert (Many : 17 <= total_questions (conversation_history asked_nineteen))
    by (rewrite Total; lia).
  destruct (questions_continue_past_eighteen (H := ascii_runtime)
              twenty_agent noon (lit "I use sum.") asked_nineteen twentieth
              Bank Pending NotGreeting NotWrapup Next Many)
    as (Stays & _ & _ & More).
  split; [exact Total |].
  split; [rewrite Stays; exact Phase |].
  rewrite More, Total. reflexivity.
Defined.

(* ================================================================== *)
(** ** What one call adds *)
(* ================================================================== *)

Lemma evaluate_pending_adds `{Runtime} response s :
  exists added,
    evaluation_scores (snd (evaluate_pending response s))
    = evaluation_scores s ++ added
    /\ (List.length added <= 1)%nat
    /\ (current_question s = None -> added = []).
Proof.
  unfold evaluate_pending. run.
  destruct (current_question s) as [q |].
  - destruct (truthy_question (Some q)).
    + destruct (getitem q (lit "id")).
      * eexists. split; [reflexivity |]. split; [cbn; lia | discriminate].
      * exists []. cbn. rewrite app_nil_r. split; [reflexivity |].
        split; [lia | discriminate].
    + exists []. cbn. rewrite app_nil_r. split; [reflexivity |].
      split; [lia | discriminate].
  - exists []. cbn. rewrite app_nil_r. split; [reflexivity |].
    split; [lia | reflexivity].
Qed.

Lemma ask_next_adds self now s :
  evaluation_scores (snd (ask_next self now s)) = evaluation_scores s
  /\ (conversation_history (snd (ask_next self now s))
      = conversation_history s
      \/ exists msg,
           conversation_history (snd (ask_next self now s))
           = conversation_history s ++ [msg]
           /\ role msg = interviewer
           /\ phase msg <> GREETING
           /\ phase msg <> WRAPUP
           /\ current_phase s <> WRAPUP).
Proof.
  unfold ask_next. run.
  destruct (current_phase s) eqn:P; cbn [phase_eqb negb]; cbv beta iota;
    try (split; [reflexivity | left; reflexivity]);
    match goal with
    | |- context [_get_next_question self ?s1] =>
        destruct (_get_next_question self s1) as [q |];
          [| split; [reflexivity | left; reflexivity]];
        destruct (truthy_question (Some q));
          [| split; [reflexivity | left; reflexivity]];
        destruct (getitem q (lit "question"));
          [| split; [reflexivity | left; reflexivity]];
        destruct (getitem q (lit "id"));
          [| split; [reflexivity | left; reflexivity]];
        split; [reflexivity |]; right; eexists;
        split; [reflexivity |]; cbn; rewrite ?P;
        repeat split; discriminate
    end.
Qed.

(** X14.  Whatever the bank and the session, and whether the call returns
    or raises, a call appends the candidate's answer first, then at most
    one question (none in wrapup) and at most one report, in this order,
    and records at most one evaluation (none when no question was
    pending). *)
Theorem call_appends_answer_first `{Runtime} self now response s :
  exists asking reporting added,
    conversation_history (after_call self now response s)
    = conversation_history s
      ++ answer_message now response s :: asking ++ reporting
    /\ evaluation_scores (after_call self now response s)
       = evaluation_scores s ++ added
    /\ (List.length asking <= 1)%nat
    /\ (List.length reporting <= 1)%nat
    /\ (List.length added <= 1)%nat
    /\ Forall (fun msg =>
                 role msg = interviewer
                 /\ phase msg <> GREETING /\ phase msg <> WRAPUP)
         asking
    /\ Forall (fun msg => is_report msg = true) reporting
    /\ (current_question s = None -> added = [])
    /\ (current_phase s = WRAPUP -> asking = []).
Proof.
  unfold after_call, process_candidate_response, before_check.
  rewrite seq_snd.
  change ((record_response now response
           >> evaluate_pending response >> ask_next self now) s)
    with ((evaluate_pending response >> ask_next self now)
            (append_message (answer_message now response s) s)).
  set (s1 := append_message (answer_message now response s) s).
  destruct (evaluate_pending_frame response s1) as (History2 & Phase2).
  destruct (evaluate_pending_adds response s1)
    as (added & Scores2 & One & NoPending).
  change (conversation_history s1)
    with (conversation_history s ++ [answer_message now response s])
    in History2.
  change (current_phase s1) with (current_phase s) in Phase2.
  change (evaluation_scores s1) with (evaluation_scores s) in Scores2.
  change (current_question s1) with (current_question s) in NoPending.
  unfold M.bind.
  destruct (evaluate_pending response s1) as [[u | e] s2];
    cbn [snd] in History2, Phase2, Scores2; cbv beta iota.
  2:{ exists [], [], added. rewrite History2, Scores2.
      repeat split; auto. }
  destruct (ask_next_adds self now s2) as (Scores3 & Asked).
  assert (Asking : exists asking,
             conversation_history (snd (ask_next self now s2))
             = conversation_history s2 ++ asking
             /\ (List.length asking <= 1)%nat
             /\ Forall (fun msg =>
                          role msg = interviewer
                          /\ phase msg <> GREETING /\ phase msg <> WRAPUP)
                  asking
             /\ (current_phase s = WRAPUP -> asking = [])).
  { destruct Asked as [Same | (msg & Same & Role & G & W & NotWrapup)].
    - exists []. rewrite app_nil_r. repeat split; auto.
    - exists [msg]. repeat split; auto.
      intros Wrapup. rewrite Phase2 in NotWrapup. contradiction. }
  destruct Asking as (asking & History3 & OneAsked & Tags & InWrapup).
  destruct (ask_next self now s2) as [[u' | e'] s3];
    cbn [snd] in Scores3, History3; cbv beta iota.
  2:{ exists asking, [], added.
      rewrite History3, History2, Scores3, Scores2, app_nil_r, <- app_assoc.
      repeat split; auto. }
  rewrite phase_check_checked. cbn [snd].
  destruct (checked_fields self now s3)
    as (shown & History4 & _ & Scores4 & _ & Report & NoReport).
  exists asking, shown, added.
  rewrite History4, History3, History2, Scores4, Scores3, Scores2.
  rewrite <- !app_assoc.
  assert (Shown : (List.length shown <= 1)%nat
                  /\ Forall (fun msg => is_report msg = true) shown).
  { destruct (phase_eqb (phase_after_check self s3) WRAPUP) eqn:P.
    - apply phase_eqb_eq in P. destruct (Report P) as (text & ->).
      split; [cbn; lia |]. constructor; [reflexivity | constructor].
    - rewrite NoReport; [split; [cbn; lia | constructor] |].
      intros W. rewrite W in P. discriminate. }
  destruct Shown. repeat split; auto.
Qed.

(* ================================================================== *)
(** ** From the first question to the report *)
(* ================================================================== *)

Lemma spoken_in_step now response s q cur p history :
  spoken_in p
    (history
     ++ [answer_message now response s; question_message now q cur])
  = spoken_in p history + (if phase_eqb cur p then 1 else 0).
Proof.
  change (history
          ++ [answer_message now response s; question_message now q cur])
    with (history
          ++ [answer_message now response s]
          ++ [question_message now q cur]).
  rewrite app_assoc.
  unfold spoken_in at 1. rewrite filter_app.
  fold (spoken_in p (history ++ [answer_message now response s])).
  cbn [filter role phase question_message].
  change (str_eqb interviewer interviewer) with true.
  rewrite andb_true_r. unfold len. rewrite length_app.
  destruct (phase_eqb cur p); cbn [List.length];
    rewrite Nat2Z.inj_add;
    fold (len (filter
                 (fun msg =>
                    phase_eqb (phase msg) p
                    && str_eqb (role msg) interviewer)
                 (history ++ [answer_message now response s])));
    fold (spoken_in p (history ++ [answer_message now response s]));
    rewrite spoken_in_answer; reflexivity.
Qed.

Lemma asked_in_step now response s q cur p history :
  truthy (id_of q) = true ->
  Z.of_nat
    (List.length
       (asked_in p
          (history
           ++ [answer_message now response s; question_message now q cur])))
  = Z.of_nat (List.length (asked_in p history))
    + (if phase_eqb cur p then 1 else 0).
Proof.
  intros Id.
  change (history
          ++ [answer_message now response s; question_message now q cur])
    with (history
          ++ [answer_message now response s]
          ++ [question_message now q cur]).
  rewrite !asked_in_app, !asked_in_one.
  change (is_question (answer_message now response s)) with false.
  assert (Asks : is_question (question_message now q cur) = true).
  { unfold is_question. cbn [role question_id question_message].
    rewrite Id. reflexivity. }
  rewrite Asks. cbn [andb phase question_message app].
  rewrite length_app.
  destruct (phase_eqb cur p); cbn [List.length]; lia.
Qed.

Lemma asking_call_state `{Runtime} self now response s q :
  well_formed_bank self = true ->
  pending_ok s ->
  current_phase s <> GREETING ->
  current_phase s <> WRAPUP ->
  _get_next_question self s = Some q ->
  after_call self now response s
  = checked self now
      (append_message (question_message now q (current_phase s))
         (set_current_question (Some q)
            (answered response
               (append_message (answer_message now response s) s)))).
Proof.
  intros Bank Pending NotGreeting NotWrapup Next.
  unfold after_call. rewrite call_steps by assumption. cbn [snd].
  set (s1 := append_message (answer_message now response s) s).
  destruct (answered_fields response s1) as (Phase & History & _).
  change (current_phase s1) with (current_phase s) in Phase.
  change (conversation_history s1)
    with (conversation_history s ++ [answer_message now response s])
    in History.
  rewrite (asked_some self now (answered response s1) q);
    try (rewrite Phase; assumption).
  - rewrite Phase. reflexivity.
  - rewrite <- Next.
    apply (next_question_after self s _ (answer_message now response s));
      auto.
Qed.

Lemma answered_scores `{Runtime} response s :
  len (evaluation_scores (answered response s))
  = len (evaluation_scores s) + len (pending_ids s).
Proof.
  unfold answered, pending_ids, len.
  destruct (current_question s); cbn.
  - rewrite length_app. cbn. lia.
  - lia.
Qed.

Section OnTrack.
Context `{Runtime}.
Variable self : ExcelInterviewAgent.
Hypothesis Bank : well_formed_bank self = true.
Hypothesis Full :
  forall p, In p interview_phases -> phase_questions self p <> [].
Hypothesis Small : bank_size self <= 17.

Lemma len_positive p : In p interview_phases -> 0 < len (phase_questions self p).
Proof.
  intros Listed. specialize (Full p Listed). unfold len.
  destruct (phase_questions self p); [contradiction | cbn; lia].
Qed.

Lemma on_track_below s :
  on_track self s ->
  total_questions (conversation_history s) < bank_size self.
Proof.
  intros (_ & Cur & Total & _ & Counts). rewrite Total.
  unfold spoken, bank_size.
  destruct (Counts WARMUP) as (_ & B1 & C1 & D1); [cbn; tauto |].
  destruct (Counts CORE_SKILLS) as (_ & B2 & C2 & D2); [cbn; tauto |].
  destruct (Counts SCENARIO_BASED) as (_ & B3 & C3 & D3); [cbn; tauto |].
  destruct (Counts TROUBLESHOOTING) as (_ & B4 & C4 & D4); [cbn; tauto |].
  pose proof (len_positive WARMUP ltac:(cbn; tauto)).
  pose proof (len_positive CORE_SKILLS ltac:(cbn; tauto)).
  pose proof (len_positive SCENARIO_BASED ltac:(cbn; tauto)).
  pose proof (len_positive TROUBLESHOOTING ltac:(cbn; tauto)).
  destruct Cur as [E | [E | [E | [E | []]]]]; rewrite <- E in *;
    cbn [rank] in *.
  - specialize (D1 eq_refl). lia.
  - specialize (D2 eq_refl). lia.
  - specialize (D3 eq_refl). lia.
  - specialize (D4 eq_refl). lia.
Qed.

Lemma on_track_next s :
  on_track self s -> exists q, _get_next_question self s = Some q.
Proof.
  intros (_ & Cur & _ & _ & Counts).
  destruct (Counts _ Cur) as (Same & _ & _ & Less).
  specialize (Less eq_refl). specialize (Full _ Cur).
  unfold _get_next_question. rewrite asked_count.
  destruct (phase_questions self (current_phase s)) as [| q0 qs];
    [contradiction |].
  destruct (nth_error (q0 :: qs)
              (List.length
                 (asked_in (current_phase s) (conversation_history s))))
    as [q |] eqn:Nth; [eauto |].
  apply nth_error_None in Nth. unfold len in Less. lia.
Qed.

Lemma on_track_call now response s :
  on_track self s ->
  (total_questions (conversation_history s) + 1 < bank_size self
   /\ on_track self (after_call self now response s)
   /\ total_questions (conversation_history (after_call self now response s))
      = total_questions (conversation_history s) + 1)
  \/ (total_questions (conversation_history s) + 1 = bank_size self
      /\ current_phase (after_call self now response s) = WRAPUP
      /\ len (evaluation_scores (after_call self now response s))
         = total_questions (conversation_history s)
      /\ current_question (after_call self now response s) <> None).
Proof.
  intros Track.
  destruct (on_track_next s Track) as (q & Next).
  pose proof (on_track_below s Track) as Below.
  destruct Track as (Pending & Cur & Total & Ledger & Counts).
  assert (NotGreeting : current_phase s <> GREETING)
    by (cbn [In interview_phases] in Cur; intuition congruence).
  assert (NotWrapup : current_phase s <> WRAPUP)
    by (cbn [In interview_phases] in Cur; intuition congruence).
  assert (Well : well_formed q = true).
  { apply (bank_well_formed self (current_phase s)); [exact Bank |].
    apply next_question_listed, Next. }
  destruct (well_formed_items q Well) as (_ & _ & _ & Id).
  rewrite (asking_call_state self now response s q) by assumption.
  set (s1 := append_message (answer_message now response s) s).
  set (s3 := append_message (question_message now q (current_phase s))
               (set_current_question (Some q) (answered response s1))).
  destruct (answered_fields response s1) as (Phase2 & History2 & _).
  assert (Phase3 : current_phase s3 = current_phase s) by exact Phase2.
  assert (History3 : conversation_history s3
                     = conversation_history s
                       ++ [answer_message now response s;
                           question_message now q (current_phase s)]).
  { unfold s3. cbn [conversation_history append_message set_current_question].
    rewrite History2. unfold s1. cbn [conversation_history append_message].
    rewrite <- app_assoc. reflexivity. }
  assert (Question3 : current_question s3 = Some q) by reflexivity.
  assert (Scores3 : len (evaluation_scores s3)
                    = total_questions (conversation_history s)).
  { rewrite <- Ledger. unfold s3.
    cbn [evaluation_scores append_message set_current_question].
    rewrite answered_scores. reflexivity. }
  assert (Total3 : total_questions (conversation_history s3)
                   = total_questions (conversation_history s) + 1).
  { rewrite History3.
    change (conversation_history s
            ++ [answer_message now response s;
                question_message now q (current_phase s)])
      with (conversation_history s
            ++ [answer_message now response s]
            ++ [question_message now q (current_phase s)]).
    rewrite app_assoc.
    rewrite (total_questions_question _ _ _ _ NotGreeting),
      total_questions_answer. reflexivity. }
  assert (Spoken3 : forall p,
             spoken_in p (conversation_history s3)
             = spoken_in p (conversation_history s)
               + (if phase_eqb (current_phase s) p then 1 else 0))
    by (intros p; rewrite History3; apply spoken_in_step).
  assert (Asked3 : forall p,
             Z.of_nat (List.length (asked_in p (conversation_history s3)))
             = Z.of_nat (List.length (asked_in p (conversation_history s)))
               + (if phase_eqb (current_phase s) p then 1 else 0))
    by (intros p; rewrite History3; apply asked_in_step, Id).
  destruct (checked_fields self now s3)
    as (shown & History4 & Question4 & Scores4 & Phase4 & Report & NoReport).
  assert (After : phase_after_check self s3
                  = _transition_to_next_phase self s3).
  { unfold phase_after_check.
    rewrite Phase3, (phase_eqb_neq _ _ NotGreeting), Total3.
    replace (total_questions (conversation_history s) + 1 >=? 18) with false
      by (symmetry; rewrite Z.geb_leb; apply Z.leb_gt; lia).
    reflexivity. }
  assert (Next_phase : _transition_to_next_phase self s3
            = if spoken_in (current_phase s) (conversation_history s) + 1
                 >=? len (phase_questions self (current_phase s))
              then match current_phase s with
                   | GREETING => WARMUP
                   | WARMUP => CORE_SKILLS
                   | CORE_SKILLS => SCENARIO_BASED
                   | SCENARIO_BASED => TROUBLESHOOTING
                   | _ => WRAPUP
                   end
              else current_phase s).
  { unfold _transition_to_next_phase. rewrite Phase3.
    fold (spoken_in (current_phase s) (conversation_history s3)).
    rewrite Spoken3.
    replace (phase_eqb (current_phase s) (current_phase s)) with true
      by (destruct (current_phase s); reflexivity).
    specialize (Full _ Cur).
    destruct (phase_questions self (current_phase s)); [contradiction |].
    rewrite andb_true_r.
    destruct (_ >=? _); [| reflexivity].
    destruct (current_phase s); reflexivity. }
  rewrite After, Next_phase in *. clear After Next_phase.
  destruct (Counts WARMUP) as (A1 & B1 & C1 & D1); [cbn; tauto |].
  destruct (Counts CORE_SKILLS) as (A2 & B2 & C2 & D2); [cbn; tauto |].
  destruct (Counts SCENARIO_BASED) as (A3 & B3 & C3 & D3); [cbn; tauto |].
  destruct (Counts TROUBLESHOOTING) as (A4 & B4 & C4 & D4); [cbn; tauto |].
  pose proof (len_positive WARMUP ltac:(cbn; tauto)) as P1.
  pose proof (len_positive CORE_SKILLS ltac:(cbn; tauto)) as P2.
  pose proof (len_positive SCENARIO_BASED ltac:(cbn; tauto)) as P3.
  pose proof (len_positive TROUBLESHOOTING ltac:(cbn; tauto)) as P4.
  pose proof (Spoken3 WARMUP) as S1. pose proof (Spoken3 CORE_SKILLS) as S2.
  pose proof (Spoken3 SCENARIO_BASED) as S3.
  pose proof (Spoken3 TROUBLESHOOTING) as S4.
  pose proof (Asked3 WARMUP) as K1. pose proof (Asked3 CORE_SKILLS) as K2.
  pose proof (Asked3 SCENARIO_BASED) as K3.
  pose proof (Asked3 TROUBLESHOOTING) as K4.
  unfold spoken, bank_size in *.
  destruct (spoken_in (current_phase s) (conversation_history s) + 1
            >=? len (phase_questions self (current_phase s))) eqn:Last.
  - rewrite Z.geb_leb in Last. apply Z.leb_le in Last.
    destruct Cur as [E | [E | [E | [E | []]]]]; rewrite <- E in *;
      cbn [rank phase_eqb] in *.
    + left. specialize (D1 eq_refl).
      assert (Shown : shown = []) by (apply NoReport; discriminate).
      rewrite Shown, app_nil_r in History4.
      split; [lia |]. split; [| rewrite History4; exact Total3].
      unfold on_track, pending_ok, pending_ids.
      rewrite History4, Question4, Scores4, Phase4, Question3.
      split; [intros q' Q'; injection Q' as <-; exact Well |].
      split; [cbn; tauto |]. split; [unfold spoken; lia |].
      split; [unfold len in *; cbn [List.length]; lia |].
      intros p [<- | [<- | [<- | [<- | []]]]]; cbn [rank];
        repeat split; intros; try discriminate; lia.
    + left. specialize (D2 eq_refl).
      assert (Shown : shown = []) by (apply NoReport; discriminate).
      rewrite Shown, app_nil_r in History4.
      split; [lia |]. split; [| rewrite History4; exact Total3].
      unfold on_track, pending_ok, pending_ids.
      rewrite History4, Question4, Scores4, Phase4, Question3.
      split; [intros q' Q'; injection Q' as <-; exact Well |].
      split; [cbn; tauto |]. split; [unfold spoken; lia |].
      split; [unfold len in *; cbn [List.length]; lia |].
      intros p [<- | [<- | [<- | [<- | []]]]]; cbn [rank];
        repeat split; intros; try discriminate; lia.
    + left. specialize (D3 eq_refl).
      assert (Shown : shown = []) by (apply NoReport; discriminate).
      rewrite Shown, app_nil_r in History4.
      split; [lia |]. split; [| rewrite History4; exact Total3].
      unfold on_track, pending_ok, pending_ids.
      rewrite History4, Question4, Scores4, Phase4, Question3.
      split; [intros q' Q'; injection Q' as <-; exact Well |].
      split; [cbn; tauto |]. split; [unfold spoken; lia |].
      split; [unfold len in *; cbn [List.length]; lia |].
      intros p [<- | [<- | [<- | [<- | []]]]]; cbn [rank];
        repeat split; intros; try discriminate; lia.
    + right. specialize (D4 eq_refl).
      destruct (Report eq_refl) as (text & ->).
      split; [lia |]. split; [exact Phase4 |].
      split; [rewrite Scores4; exact Scores3 |].
      rewrite Question4, Question3. discriminate.
  - rewrite Z.geb_leb in Last. apply Z.leb_gt in Last.
    assert (Shown : shown = []).
    { apply NoReport. cbn [In interview_phases] in Cur.
      intuition congruence. }
    rewrite Shown, app_nil_r in History4.
    left.
    destruct Cur as [E | [E | [E | [E | []]]]]; rewrite <- E in *;
      cbn [rank phase_eqb] in *;
      (split; [lia |]; split; [| rewrite History4; exact Total3];
       unfold on_track, pending_ok, pending_ids;
       rewrite History4, Question4, Scores4, Phase4, Question3;
       split; [intros q' Q'; injection Q' as <-; exact Well |];
       split; [cbn; tauto |]; split; [unfold spoken; lia |];
       split; [unfold len in *; cbn [List.length]; lia |];
       intros p [<- | [<- | [<- | [<- | []]]]]; cbn [rank];
       repeat split; intros; try discriminate; lia).
Qed.
End OnTrack.

Lemma on_track_calls `{Runtime} self clicks :
  well_formed_bank self = true ->
  (forall p, In p interview_phases -> phase_questions self p <> []) ->
  bank_size self <= 17 ->
  forall s,
    on_track self s ->
    total_questions (conversation_history s) + len clicks <= bank_size self ->
    (total_questions (conversation_history s) + len clicks < bank_size self ->
     on_track self (calls self clicks s)
     /\ total_questions (conversation_history (calls self clicks s))
        = total_questions (conversation_history s) + len clicks)
    /\ (total_questions (conversation_history s) + len clicks
        = bank_size self ->
        current_phase (calls self clicks s) = WRAPUP
        /\ len (evaluation_scores (calls self clicks s)) = bank_size self - 1
        /\ current_question (calls self clicks s) <> None).
Proof.
  intros Bank Full Small.
  induction clicks as [| [now response] clicks IH]; intros s Track Fits.
  - pose proof (on_track_below self Full s Track) as Below.
    unfold len in *. cbn [List.length calls] in *.
    split; [intros _; split; [exact Track | lia] | intros; lia].
  - assert (Len : len ((now, response) :: clicks) = len clicks + 1)
      by (unfold len; cbn [List.length]; lia).
    assert (NonNeg : 0 <= len clicks) by (unfold len; lia).
    rewrite Len in *. cbn [calls].
    destruct (on_track_call self Bank Full Small now response s Track)
      as [(Below & Track1 & Total1) | (Exact & Wrapup & Scores & Question)].
    + destruct (IH (after_call self now response s) Track1) as (More & End);
        [lia |].
      split.
      * intros Lt. destruct More as (Track' & Total'); [lia |].
        split; [exact Track' | lia].
      * intros Eq. apply End. lia.
    + assert (Empty : clicks = []).
      { destruct clicks; [reflexivity |].
        unfold len in Fits. cbn [List.length] in Fits. lia. }
      subst clicks. cbn [calls].
      split; [intros; lia |].
      intros _. repeat split; [exact Wrapup | lia | exact Question].
Qed.


